(** * Zero-downtime migration manager: model and verified properties

    A shallow embedding of [src/db/migration_manager.py]
    (class [ZeroDowntimeMigrationManager]) and the proofs of the properties
    its specification states about loading, pending resolution, locking,
    applying and rolling back migrations.

    Layout: Python string helpers, the data model, the environment the code
    runs against (SQL engine, clock, hashing, JSON), a state-and-exception
    monad over the world (files, database, coordination store, log, effect
    trace), the methods of the class in source order, then the theorems. *)

From Stdlib Require Import ZArith Lia Bool Ascii String List.
From Stdlib Require OrderedTypeEx Sorted.
From stdpp Require Import base option list strings gmap pretty.

Local Open Scope string_scope.
Local Open Scope Z_scope.

(* ===================================================================== *)
(** ** Python [str] methods used by the source

    A Python [str] is modelled as a Rocq [string]; the helpers follow the
    CPython behaviour on ASCII text (migration files are SQL text). *)
(* ===================================================================== *)

Module PyStr.

(** Characters removed by [str.strip()] and separating words in
    [str.split()]: TAB..CR, FS..US and SPACE. *)
Definition is_space (c : ascii) : bool :=
  let n := nat_of_ascii c in
  ((9 <=? n)%nat && (n <=? 13)%nat) || ((28 <=? n)%nat && (n <=? 32)%nat).

Fixpoint lstrip_by (p : ascii -> bool) (s : string) : string :=
  match s with
  | EmptyString => EmptyString
  | String c s' => if p c then lstrip_by p s' else s
  end.

Definition str_rev (s : string) : string :=
  string_of_list_ascii (List.rev (list_ascii_of_string s)).

Definition strip_by (p : ascii -> bool) (s : string) : string :=
  str_rev (lstrip_by p (str_rev (lstrip_by p s))).

(** [s.strip()] *)
Definition strip (s : string) : string := strip_by is_space s.

(** [s.strip(chars)] *)
Definition strip_chars (chars : string) (s : string) : string :=
  strip_by (fun c => existsb (Ascii.eqb c) (list_ascii_of_string chars)) s.

(** [s.startswith(p)] *)
Definition startswith (p s : string) : bool := String.prefix p s.

(** [s.endswith(p)] *)
Definition endswith (p s : string) : bool :=
  String.prefix (str_rev p) (str_rev s).

(** [sub in s] *)
Fixpoint contains (sub s : string) : bool :=
  String.prefix sub s ||
  match s with
  | EmptyString => false
  | String _ s' => contains sub s'
  end.

(** [s.split(sep)] for a non-empty [sep]: left to right, occurrences do
    not overlap.  [skip] counts the characters of a separator that has
    just been matched and is still to be passed over; [cur] is the piece
    being built, reversed. *)
Fixpoint split_go (sep : string) (skip : nat) (cur : list ascii) (s : string)
  : list string :=
  match s with
  | EmptyString => [string_of_list_ascii (List.rev cur)]
  | String c s' =>
      match skip with
      | S k => split_go sep k cur s'
      | O =>
          if String.prefix sep s
          then string_of_list_ascii (List.rev cur)
                 :: split_go sep (String.length sep - 1) [] s'
          else split_go sep 0 (c :: cur) s'
      end
  end.

Definition split (sep s : string) : list string := split_go sep 0 [] s.

(** [s.replace(old, new)] for a non-empty [old]. *)
Fixpoint replace_go (old new : string) (skip : nat) (s : string) : string :=
  match s with
  | EmptyString => EmptyString
  | String c s' =>
      match skip with
      | S k => replace_go old new k s'
      | O =>
          if String.prefix old s
          then new ++ replace_go old new (String.length old - 1) s'
          else String c (replace_go old new 0 s')
      end
  end.

Definition replace (old new s : string) : string := replace_go old new 0 s.

(** [s.split()]: the words between runs of whitespace. *)
Fixpoint words_go (cur : list ascii) (s : string) : list string :=
  match s with
  | EmptyString =>
      match cur with
      | [] => []
      | _ => [string_of_list_ascii (List.rev cur)]
      end
  | String c s' =>
      if is_space c
      then match cur with
           | [] => words_go [] s'
           | _ => string_of_list_ascii (List.rev cur) :: words_go [] s'
           end
      else words_go (c :: cur) s'
  end.

Definition words (s : string) : list string := words_go [] s.

Definition upper_char (c : ascii) : ascii :=
  let n := nat_of_ascii c in
  if ((97 <=? n)%nat && (n <=? 122)%nat)%bool then ascii_of_nat (n - 32) else c.

(** [s.upper()] *)
Fixpoint upper (s : string) : string :=
  match s with
  | EmptyString => EmptyString
  | String c s' => String (upper_char c) (upper s')
  end.

(** [Path(name).stem] for a file name: the name without its last suffix;
    a name whose only dot is the leading one keeps it. *)
Definition drop_last (n : nat) (s : string) : string :=
  String.substring 0 (String.length s - n) s.

Definition stem_sql (name : string) : string :=
  if (String.length name <=? 4)%nat then name else drop_last 4 name.

End PyStr.

(* ===================================================================== *)
(** ** Data model *)
(* ===================================================================== *)

(** [@dataclass class Migration]; the fields carry the types of the
    annotations ([dependencies] after [__post_init__]: never [None]). *)
Module Migration.
Record t := mk {
  id : string;
  name : string;
  version : string;
  sql_content : string;
  rollback_sql : option string;
  is_breaking : bool;
  requires_maintenance : bool;
  estimated_duration : Z;
  dependencies : list string;
}.
End Migration.

(** [@dataclass class MigrationResult]; [duration] is a difference of two
    clock readings. *)
Module MigrationResult.
Record t := mk {
  migration_id : string;
  success : bool;
  duration : Z;
  error_message : option string;
  affected_rows : Z;
  rollback_executed : bool;
}.
End MigrationResult.

(** One row of the [schema_migrations] table created by
    [_ensure_migration_table]. *)
Module Row.
Record t := mk {
  id : string;
  name : string;
  version : string;
  applied_at : Z;
  duration_seconds : Z;
  checksum : string;
  rollback_sql : option string;
  is_breaking : bool;
  metadata : string;
}.
End Row.

(** The ledger table, keyed by its primary key [id]. *)
Abbreviation Ledger := (gmap string Row.t).

(** The columns [get_applied_migrations] selects. *)
Module Applied.
Record t := mk {
  id : string;
  name : string;
  version : string;
  applied_at : Z;
  duration_seconds : Z;
  is_breaking : bool;
  metadata : string;
}.
Definition of_row (r : Row.t) : t :=
  mk (Row.id r) (Row.name r) (Row.version r) (Row.applied_at r)
     (Row.duration_seconds r) (Row.is_breaking r) (Row.metadata r).
End Applied.

(** The [metadata] dict built by [_extract_migration_metadata], restricted
    to the keys [_parse_migration_file] reads; an absent key is [None]. *)
Module Meta.
Record t := mk {
  name : option string;
  version : option string;
  is_breaking : option bool;
  requires_maintenance : option bool;
  estimated_duration : option Z;
  dependencies : option (list string);
}.

Definition empty : t := mk None None None None None None.

Definition over {A} (new old : option A) : option A :=
  match new with Some _ => new | None => old end.

(** [metadata.update(d)]: the keys of [d] win. *)
Definition update (m d : t) : t :=
  mk (over (name d) (name m)) (over (version d) (version m))
     (over (is_breaking d) (is_breaking m))
     (over (requires_maintenance d) (requires_maintenance m))
     (over (estimated_duration d) (estimated_duration m))
     (over (dependencies d) (dependencies m)).
End Meta.

(** What [metadata.update(json.loads(meta_json))] does on the text of one
    [-- META:] line. *)
Inductive MetaLine :=
| JSONDecodeError                 (* [json.loads] rejects the text *)
| UpdateError (msg : string)      (* valid JSON that [dict.update] rejects *)
| Fields (d : Meta.t).            (* a JSON object; its recognised keys *)

(** Python exceptions the code can meet; all derive from [Exception]. *)
Inductive Exn :=
| ValueError (msg : string)
| Exception (msg : string)
| TypeError (msg : string)
| OSError (msg : string)
| DbError (msg : string)           (* [psycopg2.Error] *)
| RedisError (msg : string).       (* [redis.ResponseError] *)

(** [str(e)] *)
Definition exn_str (e : Exn) : string :=
  match e with
  | ValueError m | Exception m | TypeError m | OSError m | DbError m
  | RedisError m => m
  end.

(** Outcome of a call: a value or a raised exception. *)
Inductive Res (A : Type) :=
| Ok (a : A)
| Raise (e : Exn).
Arguments Ok {A} a.
Arguments Raise {A} e.

Inductive LogLevel := INFO | WARNING | ERROR.

Record LogRecord := { level : LogLevel; message : string }.

(** Values held by the coordination store. *)
Inductive RVal :=
| RStr (value : string) (ex : option Z)     (* string, with its TTL *)
| RHash (fields : gmap string string).

(** SQL statements sent through [cursor.execute]. *)
Inductive Stmt :=
| SqlText (sql : string)                (* text coming from a migration *)
| SqlBegin                              (* the literal BEGIN *)
| SqlCommit                             (* the literal COMMIT *)
| CreateLedgerTable                     (* CREATE TABLE IF NOT EXISTS schema_migrations *)
| CreateLedgerIndex (column : string)   (* CREATE INDEX IF NOT EXISTS ... *)
| SelectApplied                         (* SELECT ... FROM schema_migrations ORDER BY applied_at *)
| SelectRollbackSql (id : string)       (* SELECT rollback_sql ... WHERE id = %s *)
| InsertLedger (id : string)            (* INSERT INTO schema_migrations ... *)
| DeleteLedger (id : string).           (* DELETE FROM schema_migrations WHERE id = %s *)

(** Effects on the database and on the coordination store, in the order
    the code performs them. *)
Inductive Event :=
| EvConnect
| EvExecute (s : Stmt) (ok : bool)
| EvCommit
| EvRollback
| EvSetNx (key value : string) (granted : bool)
| EvSet (key value : string)
| EvGet (key : string)
| EvDelete (key : string)
| EvHset (key : string).

(** The environment of the manager: what the database engine, the clock
    and the libraries it calls compute. *)
Class Env := {
  (** application objects of the database (everything but the ledger) *)
  Schema : Type;
  (** one migration statement on the application objects: the error text
      when the engine rejects it, else the new state and [cursor.rowcount] *)
  sql_exec : string -> Schema -> string + (Schema * Z);
  (** the n-th statement sent to the database fails with this message
      (connection loss, timeout, ...) *)
  stmt_fault : nat -> option string;
  (** the n-th reading of the clock ([time.time()], [datetime.now()],
      CURRENT_TIMESTAMP) *)
  clock : nat -> Z;
  (** [datetime.isoformat()] *)
  isoformat : Z -> string;
  (** [f"{x:.2f}"] *)
  fmt_2f : Z -> string;
  (** [hashlib.sha256(s.encode()).hexdigest()] *)
  sha256_hex : string -> string;
  (** [json.dumps({'estimated_duration': d, 'dependencies': deps})] *)
  json_dumps : Z -> list string -> string;
  (** [str(deps)] for a list of strings *)
  str_list : list string -> string;
  (** [json.loads] followed by [dict.update] on the payload of a META line *)
  meta_line : string -> MetaLine;
  (** [str(self.migrations_dir)] *)
  migrations_dir : string;
}.

(* ===================================================================== *)
(** ** The world and the monad of the manager's methods *)
(* ===================================================================== *)

Section Manager.
Context {E : Env}.

(** A snapshot of the database: application objects and the ledger table
    ([None] while [schema_migrations] does not exist). *)
Record Store := {
  schema : Schema;
  ledger : option Ledger;
}.

(** Everything the manager reads or writes.
    - [files]: the [*.sql] entries of [migrations_dir] as (file name, text),
      the text being [None] when [read_text] raises; [None] when the
      directory does not exist;
    - [db]: the committed database; [txn]: the view of the open connection;
    - [redis]: the coordination store;
    - [log], [trace]: log records and effects, oldest first;
    - [ticks], [stmts]: clock readings and statements so far. *)
Record World := {
  files : option (list (string * option string));
  db : Store;
  txn : Store;
  redis : gmap string RVal;
  log : list LogRecord;
  trace : list Event;
  ticks : nat;
  stmts : nat;
}.

Definition set_db (s : Store) (w : World) : World :=
  {| files := files w; db := s; txn := txn w; redis := redis w; log := log w;
     trace := trace w; ticks := ticks w; stmts := stmts w |}.
Definition set_txn (s : Store) (w : World) : World :=
  {| files := files w; db := db w; txn := s; redis := redis w; log := log w;
     trace := trace w; ticks := ticks w; stmts := stmts w |}.
Definition set_redis (r : gmap string RVal) (w : World) : World :=
  {| files := files w; db := db w; txn := txn w; redis := r; log := log w;
     trace := trace w; ticks := ticks w; stmts := stmts w |}.
Definition set_log (l : list LogRecord) (w : World) : World :=
  {| files := files w; db := db w; txn := txn w; redis := redis w; log := l;
     trace := trace w; ticks := ticks w; stmts := stmts w |}.
Definition set_trace (t : list Event) (w : World) : World :=
  {| files := files w; db := db w; txn := txn w; redis := redis w; log := log w;
     trace := t; ticks := ticks w; stmts := stmts w |}.
Definition set_ticks (n : nat) (w : World) : World :=
  {| files := files w; db := db w; txn := txn w; redis := redis w; log := log w;
     trace := trace w; ticks := n; stmts := stmts w |}.
Definition set_stmts (n : nat) (w : World) : World :=
  {| files := files w; db := db w; txn := txn w; redis := redis w; log := log w;
     trace := trace w; ticks := ticks w; stmts := n |}.
Definition set_files (f : option (list (string * option string))) (w : World)
  : World :=
  {| files := f; db := db w; txn := txn w; redis := redis w; log := log w;
     trace := trace w; ticks := ticks w; stmts := stmts w |}.

Definition M (A : Type) : Type := World -> Res A * World.

Definition ret {A} (a : A) : M A := fun w => (Ok a, w).

Definition bind {A B} (m : M A) (k : A -> M B) : M B :=
  fun w => match m w with
           | (Ok a, w') => k a w'
           | (Raise e, w') => (Raise e, w')
           end.

Definition raise {A} (e : Exn) : M A := fun w => (Raise e, w).

(** A computation that does not touch the world. *)
Definition lift {A} (r : Res A) : M A := fun w => (r, w).

(** [try: m  except Exception as e: h e] *)
Definition try_except {A} (m : M A) (h : Exn -> M A) : M A :=
  fun w => match m w with
           | (Ok a, w') => (Ok a, w')
           | (Raise e, w') => h e w'
           end.

(** [try: m  finally: fin]; an exception of [fin] replaces the outcome. *)
Definition try_finally {A} (m : M A) (fin : M unit) : M A :=
  fun w => match m w with
           | (r, w') =>
               match fin w' with
               | (Ok _, w'') => (r, w'')
               | (Raise e, w'') => (Raise e, w'')
               end
           end.

Declare Scope m_scope.
Delimit Scope m_scope with M.
Notation "x <- c ;; k" := (bind c (fun x => k))
  (at level 100, c at next level, right associativity) : m_scope.
Notation "c ;; k" := (bind c (fun _ => k))
  (at level 100, right associativity) : m_scope.
Local Open Scope m_scope.

(** *** Logging, clock *)

Definition logger (lv : LogLevel) (msg : string) : M unit :=
  fun w => (Ok tt, set_log (log w ++ [{| level := lv; message := msg |}]) w).

Definition emit (e : Event) : M unit :=
  fun w => (Ok tt, set_trace (trace w ++ [e]) w).

(** [time.time()] / [datetime.now()] *)
Definition now : M Z :=
  fun w => (Ok (clock (ticks w)), set_ticks (S (ticks w)) w).

(** *** Coordination store ([self.redis_client]) *)

(** [set(key, value, ex=ex, nx=True)]: truthy only when the key was absent. *)
Definition redis_set_nx (key value : string) (ex : Z) : M bool :=
  fun w =>
    match redis w !! key with
    | None =>
        (Ok true, set_trace (trace w ++ [EvSetNx key value true])
                    (set_redis (<[key := RStr value (Some ex)]> (redis w)) w))
    | Some _ => (Ok false, set_trace (trace w ++ [EvSetNx key value false]) w)
    end.

(** [set(key, value, ex=ex)] *)
Definition redis_set (key value : string) (ex : Z) : M unit :=
  fun w => (Ok tt, set_trace (trace w ++ [EvSet key value])
                     (set_redis (<[key := RStr value (Some ex)]> (redis w)) w)).

(** [get(key)]; a key holding a hash is a WRONGTYPE error. *)
Definition redis_get (key : string) : M (option string) :=
  fun w =>
    let w' := set_trace (trace w ++ [EvGet key]) w in
    match redis w !! key with
    | None => (Ok None, w')
    | Some (RStr v _) => (Ok (Some v), w')
    | Some (RHash _) => (Raise (RedisError "WRONGTYPE"), w')
    end.

(** [delete(key)] *)
Definition redis_delete (key : string) : M unit :=
  fun w => (Ok tt, set_trace (trace w ++ [EvDelete key])
                     (set_redis (delete key (redis w)) w)).

(** [hset(key, mapping=...)]; a key holding a string is a WRONGTYPE error. *)
Definition redis_hset (key : string) (mapping : list (string * string))
  : M unit :=
  fun w =>
    let w' := set_trace (trace w ++ [EvHset key]) w in
    let put (h : gmap string string) :=
      foldl (fun acc kv => <[kv.1 := kv.2]> acc) h mapping in
    match redis w !! key with
    | None => (Ok tt, set_redis (<[key := RHash (put ∅)]> (redis w)) w')
    | Some (RHash h) => (Ok tt, set_redis (<[key := RHash (put h)]> (redis w)) w')
    | Some (RStr _ _) => (Raise (RedisError "WRONGTYPE"), w')
    end.

(** *** Database ([psycopg2]) *)

Definition get_txn : M Store := fun w => (Ok (txn w), w).
Definition put_txn (s : Store) : M unit := fun w => (Ok tt, set_txn s w).

(** [self.get_db_connection()]: a fresh connection sees the committed state. *)
Definition connect : M unit :=
  fun w => (Ok tt, set_trace (trace w ++ [EvConnect]) (set_txn (db w) w)).

(** [conn.commit()] *)
Definition commit : M unit :=
  fun w => (Ok tt, set_trace (trace w ++ [EvCommit]) (set_db (txn w) w)).

(** [conn.rollback()] *)
Definition rollback : M unit :=
  fun w => (Ok tt, set_trace (trace w ++ [EvRollback]) (set_txn (db w) w)).

(** [with self.get_db_connection() as conn: body]: the connection commits
    when the block ends normally and rolls back when it raises.  (The inner
    [with conn.cursor()] only closes the cursor.) *)
Definition with_connection {A} (body : M A) : M A :=
  connect ;;
  (fun w => match body w with
            | (Ok a, w') => (commit ;; ret a) w'
            | (Raise e, w') => (rollback ;; raise e) w'
            end).

(** Start of every [cursor.execute]: count the statement and let the
    fault oracle fail it. *)
Definition statement (s : Stmt) : M unit :=
  fun w =>
    let w' := set_stmts (S (stmts w)) w in
    match stmt_fault (stmts w) with
    | Some msg =>
        (Raise (DbError msg), set_trace (trace w ++ [EvExecute s false]) w')
    | None => (Ok tt, w')
    end.

Definition stmt_ok (s : Stmt) : M unit := emit (EvExecute s true).

Definition stmt_fail {A} (s : Stmt) (msg : string) : M A :=
  emit (EvExecute s false) ;; raise (DbError msg).

(** [cursor.execute(sql)] for migration text, returning [cursor.rowcount]. *)
Definition execute_sql (sql : string) : M Z :=
  statement (SqlText sql) ;;
  t <- get_txn ;;
  match sql_exec sql (schema t) with
  | inl msg => stmt_fail (SqlText sql) msg
  | inr (s', n) =>
      put_txn {| schema := s'; ledger := ledger t |} ;;
      stmt_ok (SqlText sql) ;;
      ret n
  end.

(** [cursor.execute("BEGIN")] inside the open transaction: no effect. *)
Definition execute_begin : M unit :=
  statement SqlBegin ;; stmt_ok SqlBegin.

(** [cursor.execute("COMMIT")]: the server commits the open transaction. *)
Definition execute_commit : M unit :=
  statement SqlCommit ;;
  (fun w => (Ok tt, set_db (txn w) w)) ;;
  stmt_ok SqlCommit.

Definition no_table : string := "relation schema_migrations does not exist".

(** The SELECT of [get_applied_migrations]. *)
Definition select_applied : M Ledger :=
  statement SelectApplied ;;
  t <- get_txn ;;
  match ledger t with
  | None => stmt_fail SelectApplied no_table
  | Some l => stmt_ok SelectApplied ;; ret l
  end.

(** The SELECT of [rollback_migration] with [cursor.fetchone()]:
    [None] when no row matches, else the [rollback_sql] column. *)
Definition select_rollback_sql (id : string) : M (option (option string)) :=
  statement (SelectRollbackSql id) ;;
  t <- get_txn ;;
  match ledger t with
  | None => stmt_fail (SelectRollbackSql id) no_table
  | Some l =>
      stmt_ok (SelectRollbackSql id) ;;
      ret (Row.rollback_sql <$> (l !! id))
  end.

(** The column types of [schema_migrations] (see the CREATE TABLE of
    [_ensure_migration_table]) that can refuse the row of
    [_record_migration]: [id VARCHAR(255)], [name VARCHAR(500)],
    [version VARCHAR(100)] and [checksum VARCHAR(64)]; the other columns
    take any value sent.  The engine reports the first column, in the
    order of the INSERT, whose value is too long.  ([name] and [version]
    are also NOT NULL: they are strings here, as the dataclass declares
    them.) *)
Definition too_long (n : nat) (type_name value : string) : option string :=
  if (String.length value <=? n)%nat then None
  else Some ("value too long for type " ++ type_name).

Definition column_error (id name version checksum : string) : option string :=
  match too_long 255 "character varying(255)" id with
  | Some msg => Some msg
  | None =>
      match too_long 500 "character varying(500)" name with
      | Some msg => Some msg
      | None =>
          match too_long 100 "character varying(100)" version with
          | Some msg => Some msg
          | None => too_long 64 "character varying(64)" checksum
          end
      end
  end.

Arguments column_error : simpl never.

(** The INSERT of [_record_migration]: the table must exist, the values
    must fit their columns, and [id] is the primary key; [applied_at] and
    [duration_seconds] take their column defaults. *)
Definition insert_ledger (id name version checksum : string)
    (rollback_sql : option string) (is_breaking : bool) (metadata : string)
  : M unit :=
  statement (InsertLedger id) ;;
  t <- get_txn ;;
  match ledger t with
  | None => stmt_fail (InsertLedger id) no_table
  | Some l =>
      match column_error id name version checksum with
      | Some msg => stmt_fail (InsertLedger id) msg
      | None =>
          match l !! id with
          | Some _ => stmt_fail (InsertLedger id) "duplicate key value violates unique constraint"
          | None =>
              ts <- now ;;
              put_txn {| schema := schema t;
                         ledger := Some (<[id := Row.mk id name version ts 0 checksum
                                                  rollback_sql is_breaking metadata]> l) |} ;;
              stmt_ok (InsertLedger id)
          end
      end
  end.

(** The DELETE of [rollback_migration]. *)
Definition delete_ledger (id : string) : M unit :=
  statement (DeleteLedger id) ;;
  t <- get_txn ;;
  match ledger t with
  | None => stmt_fail (DeleteLedger id) no_table
  | Some l =>
      put_txn {| schema := schema t; ledger := Some (delete id l) |} ;;
      stmt_ok (DeleteLedger id)
  end.

(** CREATE TABLE IF NOT EXISTS schema_migrations *)
Definition create_ledger_table : M unit :=
  statement CreateLedgerTable ;;
  t <- get_txn ;;
  put_txn {| schema := schema t;
             ledger := Some (default ∅ (ledger t)) |} ;;
  stmt_ok CreateLedgerTable.

(** CREATE INDEX IF NOT EXISTS ... ON schema_migrations (column) *)
Definition create_ledger_index (column : string) : M unit :=
  statement (CreateLedgerIndex column) ;;
  t <- get_txn ;;
  match ledger t with
  | None => stmt_fail (CreateLedgerIndex column) no_table
  | Some _ => stmt_ok (CreateLedgerIndex column)
  end.

(* ===================================================================== *)
(** ** The methods of [ZeroDowntimeMigrationManager] *)
(* ===================================================================== *)

Definition lock_key : string := "spr:migrations:lock".
Definition status_key : string := "spr:migrations:status".
Definition max_lock_time : Z := 3600.

(** [str(x)] for an [Optional[str]] inside an f-string. *)
Definition str_opt (o : option string) : string := default "None" o.

(** [migration_lock(operation)], an async context manager, applied to the
    block it guards.  [acquired] is the local [lock_acquired]. *)
Definition migration_lock {A} (operation : string) (body : M A) : M A :=
  t <- now ;;
  let lock_value := operation ++ ":" ++ isoformat t in
  fun w =>
    (* try: *)
    let '(acquired, (r, w1)) :=
      match redis_set_nx lock_key lock_value max_lock_time w with
      | (Ok true, w0) =>
          (true,
           (logger INFO ("Migration lock acquired for operation: " ++ operation) ;;
            body) w0)
      | (Ok false, w0) =>
          (false,
           (current_lock <- redis_get lock_key ;;
            raise (Exception ("Migration lock is held by: " ++ str_opt current_lock))) w0)
      | (Raise e, w0) => (false, (Raise e, w0))
      end in
    (* finally: *)
    let release : M unit :=
      if acquired
      then current_value <- redis_get lock_key ;;
           if bool_decide (current_value = Some lock_value)
           then redis_delete lock_key ;;
                logger INFO ("Migration lock released for operation: " ++ operation)
           else ret tt
      else ret tt in
    match release w1 with
    | (Ok _, w2) => (r, w2)
    | (Raise e, w2) => (Raise e, w2)
    end.

Definition _ensure_migration_table : M unit :=
  with_connection
    (create_ledger_table ;;
     create_ledger_index "version" ;;
     create_ledger_index "applied_at" ;;
     commit).

(** *** Loading *)

(** One entry of the migrations directory: file name and text
    ([None] when [read_text] raises). *)
Definition File : Type := string * option string.

Definition file_path (f : File) : string := migrations_dir ++ "/" ++ f.1.

(** [sorted(...)] on paths of one directory: stable insertion by file name,
    compared as Python compares [str]. *)
Fixpoint insert_sorted (f : File) (l : list File) : list File :=
  match l with
  | [] => [f]
  | g :: l' => if String.ltb f.1 g.1 then f :: l else g :: insert_sorted f l'
  end.

Definition sorted (l : list File) : list File :=
  foldl (fun acc f => insert_sorted f acc) [] l.

(** [self.migrations_dir.glob("*.sql")] *)
Definition glob_sql (entries : list File) : list File :=
  List.filter (fun f => PyStr.endswith ".sql" f.1) entries.

(** [file_path.read_text()] *)
Definition read_text (f : File) : Res string :=
  match f.2 with
  | Some content => Ok content
  | None => Raise (OSError ("cannot read " ++ file_path f))
  end.

(** The loop of [_extract_migration_metadata] over the lines of the file:
    a line that is not valid JSON is passed over ([continue]); any other
    exception of the update leaves the function. *)
Fixpoint extract_lines (lines : list string) (metadata : Meta.t) : Res Meta.t :=
  match lines with
  | [] => Ok metadata
  | line :: rest =>
      if PyStr.startswith "-- META:" (PyStr.strip line)
      then match meta_line (PyStr.strip (PyStr.replace "-- META:" "" line)) with
           | JSONDecodeError => extract_lines rest metadata
           | UpdateError msg => Raise (TypeError msg)
           | Fields d => extract_lines rest (Meta.update metadata d)
           end
      else extract_lines rest metadata
  end.

Definition newline : string := String (ascii_of_nat 10) EmptyString.

Definition _extract_migration_metadata (content : string) : Res Meta.t :=
  extract_lines (PyStr.split newline content) Meta.empty.

(** [_parse_migration_file]: reads the file and nothing else, so it is a
    function of the directory entry. *)
Definition _parse_migration_file (f : File) : Res (option Migration.t) :=
  match read_text f with
  | Raise e => Raise e
  | Ok content =>
      match _extract_migration_metadata content with
      | Raise e => Raise e
      | Ok metadata =>
          let migration_id := PyStr.stem_sql f.1 in
          let sql_parts := PyStr.split "-- ROLLBACK:" content in
          let main_sql := PyStr.strip (List.hd "" sql_parts) in
          let rollback_sql :=
            match sql_parts with
            | _ :: part :: _ => Some (PyStr.strip part)
            | _ => None
            end in
          Ok (Some
                (Migration.mk migration_id
                   (default migration_id (Meta.name metadata))
                   (default "1.0.0" (Meta.version metadata))
                   main_sql
                   rollback_sql
                   (default false (Meta.is_breaking metadata))
                   (default false (Meta.requires_maintenance metadata))
                   (default 0 (Meta.estimated_duration metadata))
                   (default [] (Meta.dependencies metadata))))
      end
  end.

(** The [for migration_file in sorted(...)] loop of [load_migrations]. *)
Fixpoint load_loop (entries : list File) (migrations : list Migration.t)
  : M (list Migration.t) :=
  match entries with
  | [] => ret migrations
  | migration_file :: rest =>
      parsed <- try_except
                  (lift (_parse_migration_file migration_file))
                  (fun e =>
                     logger ERROR ("Failed to load migration "
                                   ++ file_path migration_file ++ ": " ++ exn_str e) ;;
                     ret None) ;;
      match parsed with
      | Some migration => load_loop rest (migrations ++ [migration])
      | None => load_loop rest migrations
      end
  end.

Definition load_migrations : M (list Migration.t) :=
  fun w =>
    match files w with
    | None =>
        (logger WARNING ("Migrations directory does not exist: " ++ migrations_dir) ;;
         ret []) w
    | Some entries => load_loop (sorted (glob_sql entries)) [] w
    end.

(** What loading keeps of one entry, and the record it logs for an entry
    it skips. *)
Definition parsed_unit (f : File) : option Migration.t :=
  match _parse_migration_file f with
  | Ok o => o
  | Raise _ => None
  end.

Definition load_failure (f : File) : option LogRecord :=
  match _parse_migration_file f with
  | Ok _ => None
  | Raise e =>
      Some {| level := ERROR;
              message := "Failed to load migration " ++ file_path f ++ ": "
                         ++ exn_str e |}
  end.

(** The list and the log records [load_migrations] is expected to produce
    from a directory. *)
Definition loaded_units (dir : option (list File)) : list Migration.t :=
  match dir with
  | Some entries => omap parsed_unit (sorted (glob_sql entries))
  | None => []
  end.

Definition load_log (dir : option (list File)) : list LogRecord :=
  match dir with
  | Some entries => omap load_failure (sorted (glob_sql entries))
  | None =>
      [{| level := WARNING;
          message := "Migrations directory does not exist: " ++ migrations_dir |}]
  end.

(** *** Ledger reading and the pending set *)

Definition get_applied_migrations : M (gmap string Applied.t) :=
  with_connection (l <- select_applied ;; ret (Applied.of_row <$> l)).

(** [k in d] *)
Definition mem {V} (k : string) (d : gmap string V) : bool :=
  bool_decide (is_Some (d !! k)).

(** The [for migration in all_migrations] loop of [get_pending_migrations]. *)
Fixpoint pending_loop (all_migrations : list Migration.t)
    (applied_migrations : gmap string Applied.t) (pending : list Migration.t)
  : M (list Migration.t) :=
  match all_migrations with
  | [] => ret pending
  | migration :: rest =>
      if negb (mem (Migration.id migration) applied_migrations)
      then
        let missing_deps :=
          List.filter (fun dep => negb (mem dep applied_migrations))
                      (Migration.dependencies migration) in
        match missing_deps with
        | _ :: _ =>
            logger WARNING ("Migration " ++ Migration.id migration
                            ++ " has missing dependencies: " ++ str_list missing_deps) ;;
            pending_loop rest applied_migrations pending
        | [] => pending_loop rest applied_migrations (pending ++ [migration])
        end
      else pending_loop rest applied_migrations pending
  end.

Definition get_pending_migrations : M (list Migration.t) :=
  all_migrations <- load_migrations ;;
  applied_migrations <- get_applied_migrations ;;
  pending_loop all_migrations applied_migrations [].

Definition _calculate_migration_checksum (migration : Migration.t) : string :=
  let content :=
    (* [migration.rollback_sql or ""] *)
    Migration.sql_content migration ++ default "" (Migration.rollback_sql migration) in
  sha256_hex content.

(** *** Recording and the four strategies *)

Definition _record_migration (migration : Migration.t) : M unit :=
  let checksum := _calculate_migration_checksum migration in
  insert_ledger (Migration.id migration) (Migration.name migration)
    (Migration.version migration) checksum (Migration.rollback_sql migration)
    (Migration.is_breaking migration)
    (json_dumps (Migration.estimated_duration migration)
                (Migration.dependencies migration)).

Definition _execute_chunked_operation (sql : string) : M Z :=
  let total_affected := 0 in
  total_affected <- execute_sql sql ;;
  ret total_affected.

Definition _execute_online_migration (migration : Migration.t)
  : M MigrationResult.t :=
  logger INFO ("Executing online migration: " ++ Migration.name migration) ;;
  start_time <- now ;;
  try_except
    (affected_rows <-
       with_connection
         (affected_rows <-
            (if PyStr.contains "UPDATE" (PyStr.upper (Migration.sql_content migration))
                || PyStr.contains "DELETE" (PyStr.upper (Migration.sql_content migration))
             then _execute_chunked_operation (Migration.sql_content migration)
             else execute_sql (Migration.sql_content migration)) ;;
          commit ;;
          _record_migration migration ;;
          commit ;;
          ret affected_rows) ;;
     t <- now ;;
     let duration := t - start_time in
     logger INFO ("Online migration " ++ Migration.name migration
                  ++ " completed in " ++ fmt_2f duration ++ "s") ;;
     ret (MigrationResult.mk (Migration.id migration) true duration None
            affected_rows false))
    (fun e =>
       t <- now ;;
       let duration := t - start_time in
       let error_message := exn_str e in
       logger ERROR ("Online migration " ++ Migration.name migration
                     ++ " failed after " ++ fmt_2f duration ++ "s: " ++ exn_str e) ;;
       ret (MigrationResult.mk (Migration.id migration) false duration
              (Some error_message) 0 false)).

(** [_extract_table_name]: the word after the first word equal to TABLE,
    without surrounding semicolons; "unknown" when there is none. *)
Fixpoint word_after_table (words : list string) : option string :=
  match words with
  | [] => None
  | word :: rest =>
      if String.eqb (PyStr.upper word) "TABLE"
      then match rest with
           | next :: _ => Some (PyStr.strip_chars ";" next)
           | [] => None
           end
      else word_after_table rest
  end.

Definition _extract_table_name (sql : string) : string :=
  default "unknown" (word_after_table (PyStr.words sql)).

Definition _execute_shadow_table_migration (migration : Migration.t)
  : M MigrationResult.t :=
  logger INFO ("Executing shadow table migration: " ++ Migration.name migration) ;;
  start_time <- now ;;
  try_except
    (with_connection
       (let shadow_sql :=
          PyStr.replace "CREATE TABLE" "CREATE TABLE shadow_"
                        (Migration.sql_content migration) in
        execute_sql shadow_sql ;;
        (if PyStr.contains "ALTER TABLE" (PyStr.upper (Migration.sql_content migration))
         then
           let table_name := _extract_table_name (Migration.sql_content migration) in
           execute_sql ("INSERT INTO shadow_" ++ table_name
                        ++ " SELECT * FROM " ++ table_name) ;;
           execute_begin ;;
           execute_sql ("DROP TABLE " ++ table_name) ;;
           execute_sql ("ALTER TABLE shadow_" ++ table_name
                        ++ " RENAME TO " ++ table_name) ;;
           execute_commit
         else ret tt) ;;
        commit ;;
        _record_migration migration ;;
        commit) ;;
     t <- now ;;
     let duration := t - start_time in
     logger INFO ("Shadow table migration " ++ Migration.name migration
                  ++ " completed in " ++ fmt_2f duration ++ "s") ;;
     ret (MigrationResult.mk (Migration.id migration) true duration None 0 false))
    (fun e =>
       t <- now ;;
       let duration := t - start_time in
       logger ERROR ("Shadow table migration " ++ Migration.name migration
                     ++ " failed: " ++ exn_str e) ;;
       ret (MigrationResult.mk (Migration.id migration) false duration
              (Some (exn_str e)) 0 false)).

Definition _execute_dual_write_migration (migration : Migration.t)
  : M MigrationResult.t :=
  logger INFO ("Executing dual-write migration: " ++ Migration.name migration) ;;
  _execute_online_migration migration.

Definition _execute_maintenance_migration (migration : Migration.t)
  : M MigrationResult.t :=
  logger INFO ("Executing maintenance migration: " ++ Migration.name migration) ;;
  redis_set "spr:maintenance:required" "true" 3600 ;;
  _execute_online_migration migration.

(** [self.strategies] *)
Definition strategies : list (string * (Migration.t -> M MigrationResult.t)) :=
  [ ("online", _execute_online_migration);
    ("shadow_table", _execute_shadow_table_migration);
    ("dual_write", _execute_dual_write_migration);
    ("maintenance", _execute_maintenance_migration) ].

(** [self.strategies[strategy]], [None] when [strategy not in self.strategies]. *)
Fixpoint lookup_strategy (strategy : string)
    (table : list (string * (Migration.t -> M MigrationResult.t)))
  : option (Migration.t -> M MigrationResult.t) :=
  match table with
  | [] => None
  | (key, f) :: rest =>
      if String.eqb strategy key then Some f else lookup_strategy strategy rest
  end.

(** *** Applying *)

(** [self.redis_client.hset(self.status_key, mapping=...)] on failure;
    a [None] value is refused by the client. *)
Definition publish_failed (id : string) (error : option string) : M unit :=
  t <- now ;;
  match error with
  | Some msg =>
      redis_hset status_key
        [("current_migration", id); ("status", "failed"); ("error", msg);
         ("failed_at", isoformat t)]
  | None => raise (RedisError "Invalid input of type: 'NoneType'")
  end.

(** The [for migration in pending_migrations] loop of [apply_migrations];
    returning without the recursive call is the [break]. *)
Fixpoint apply_loop (strategy_func : Migration.t -> M MigrationResult.t)
    (pending_migrations : list Migration.t) (results : list MigrationResult.t)
  : M (list MigrationResult.t) :=
  match pending_migrations with
  | [] => ret results
  | migration :: rest =>
      logger INFO ("Applying migration: " ++ Migration.id migration ++ " - "
                   ++ Migration.name migration) ;;
      t <- now ;;
      redis_hset status_key
        [("current_migration", Migration.id migration); ("status", "applying");
         ("started_at", isoformat t)] ;;
      result <- strategy_func migration ;;
      let results := (results ++ [result])%list in
      if negb (MigrationResult.success result)
      then
        logger ERROR ("Migration " ++ Migration.id migration
                      ++ " failed, stopping execution") ;;
        publish_failed (Migration.id migration)
                       (MigrationResult.error_message result) ;;
        ret results
      else
        logger INFO ("Migration " ++ Migration.id migration
                     ++ " completed successfully") ;;
        apply_loop strategy_func rest results
  end.

(** The [for] loop of the dry run. *)
Fixpoint would_apply (pending_migrations : list Migration.t) : M unit :=
  match pending_migrations with
  | [] => ret tt
  | migration :: rest =>
      logger INFO ("Would apply migration: " ++ Migration.id migration ++ " - "
                   ++ Migration.name migration) ;;
      would_apply rest
  end.

Definition apply_migrations (strategy : string) (dry_run : bool)
  : M (list MigrationResult.t) :=
  match lookup_strategy strategy strategies with
  | None => raise (ValueError ("Unknown migration strategy: " ++ strategy))
  | Some strategy_func =>
      pending_migrations <- get_pending_migrations ;;
      match pending_migrations with
      | [] =>
          logger INFO "No pending migrations to apply" ;;
          ret []
      | _ :: _ =>
          logger INFO ("Found " ++ pretty (length pending_migrations)
                       ++ " pending migrations") ;;
          if dry_run
          then
            logger INFO "DRY RUN - No migrations will be executed" ;;
            would_apply pending_migrations ;;
            ret []
          else
            migration_lock ("apply_migrations_" ++ strategy)
              (_ensure_migration_table ;;
               results <- apply_loop strategy_func pending_migrations [] ;;
               redis_delete status_key ;;
               ret results)
      end
  end.

(** *** Rolling back *)

(** The block of [rollback_migration] under
    [async with self.migration_lock(...)]. *)
Definition rollback_locked (migration_id : string) : M MigrationResult.t :=
  applied_migrations <- get_applied_migrations ;;
  if negb (mem migration_id applied_migrations)
  then raise (ValueError ("Migration " ++ migration_id ++ " was not applied"))
  else
    start_time <- now ;;
    try_except
      (with_connection
         (result <- select_rollback_sql migration_id ;;
          match result with
          | Some (Some rollback_sql) =>
              if String.eqb rollback_sql ""
              then raise (Exception ("No rollback SQL available for migration "
                                     ++ migration_id))
              else
                execute_sql rollback_sql ;;
                delete_ledger migration_id ;;
                commit
          | _ => raise (Exception ("No rollback SQL available for migration "
                                   ++ migration_id))
          end) ;;
       t <- now ;;
       let duration := t - start_time in
       logger INFO ("Migration " ++ migration_id ++ " rolled back successfully in "
                    ++ fmt_2f duration ++ "s") ;;
       ret (MigrationResult.mk migration_id true duration None 0 true))
      (fun e =>
         t <- now ;;
         let duration := t - start_time in
         logger ERROR ("Failed to rollback migration " ++ migration_id ++ ": "
                       ++ exn_str e) ;;
         ret (MigrationResult.mk migration_id false duration
                (Some (exn_str e)) 0 true)).

Definition rollback_migration (migration_id : string) : M MigrationResult.t :=
  logger INFO ("Rolling back migration: " ++ migration_id) ;;
  migration_lock ("rollback_" ++ migration_id) (rollback_locked migration_id).

(* ===================================================================== *)
(** ** Vocabulary of the specification *)
(* ===================================================================== *)

(** The spec's words for the pending set: a definition absent from the
    ledger, every dependency of which is a ledger key. *)
Definition eligible {V} (keys : gmap string V) (m : Migration.t) : bool :=
  negb (mem (Migration.id m) keys)
  && forallb (fun dep => mem dep keys) (Migration.dependencies m).

(** The world after the ledger has been read by [get_applied_migrations]:
    one read-only transaction, nothing written. *)
Definition after_select (w : World) : World :=
  set_trace (trace w ++ [EvConnect; EvExecute SelectApplied true; EvCommit])%list
    (set_stmts (S (stmts w)) (set_txn (db w) w)).

(** The owner token [migration_lock] computes on entry, and the world in
    which the guarded block starts once the lease is granted. *)
Definition lock_token (operation : string) (w : World) : string :=
  operation ++ ":" ++ isoformat (clock (ticks w)).

Definition acquired_world (operation : string) (w : World) : World :=
  set_log (log w ++ [{| level := INFO;
                        message := "Migration lock acquired for operation: "
                                   ++ operation |}])
    (set_trace (trace w ++ [EvSetNx lock_key (lock_token operation w) true])
       (set_redis (<[lock_key := RStr (lock_token operation w) (Some max_lock_time)]>
                     (redis w))
          (set_ticks (S (ticks w)) w))).

(** The record the dry run logs for one pending migration. *)
Definition would_apply_record (m : Migration.t) : LogRecord :=
  {| level := INFO;
     message := "Would apply migration: " ++ Migration.id m ++ " - "
                ++ Migration.name m |}.

(** The events of the resolver's read of the ledger. *)
Definition ledger_read : list Event :=
  [EvConnect; EvExecute SelectApplied true; EvCommit].

(** The ledger row [_record_migration] writes for a migration, stamped
    with the clock reading [ts]. *)
Definition recorded_row (m : Migration.t) (ts : Z) : Row.t :=
  Row.mk (Migration.id m) (Migration.name m) (Migration.version m) ts 0
    (_calculate_migration_checksum m) (Migration.rollback_sql m)
    (Migration.is_breaking m)
    (json_dumps (Migration.estimated_duration m) (Migration.dependencies m)).

(** The first statement a strategy sends for a migration: the forward SQL,
    which the shadow-table strategy rewrites first. *)
Definition forward_statement (strategy : string) (m : Migration.t) : string :=
  if String.eqb strategy "shadow_table"
  then PyStr.replace "CREATE TABLE" "CREATE TABLE shadow_" (Migration.sql_content m)
  else Migration.sql_content m.

(** Ordering of the effects of one strategy call: every write to the
    ledger is for [id] and comes after a commit that itself comes after the
    successful execution of the statement [q], with nothing but successful
    statements of the same transaction between the two. *)
Definition insert_after_commit (q id : string) (tr : list Event) : Prop :=
  forall (k : nat) (id' : string) (ok : bool),
    tr !! k = Some (EvExecute (InsertLedger id') ok) ->
    id' = id
    /\ exists i j : nat,
         (i < j < k)%nat
         /\ tr !! i = Some (EvExecute (SqlText q) true)
         /\ tr !! j = Some EvCommit
         /\ forall x : nat, (i < x < j)%nat ->
                            exists s, tr !! x = Some (EvExecute s true).

(** What one strategy call guarantees, whatever happens inside it. *)
Definition strategy_post (q : string) (m : Migration.t) (w : World)
    (r : MigrationResult.t) (w' : World) : Prop :=
  MigrationResult.migration_id r = Migration.id m
  /\ files w' = files w
  /\ (exists tr, trace w' = (trace w ++ tr)%list
                 /\ insert_after_commit q (Migration.id m) tr)
  /\ if MigrationResult.success r
     then exists l ts,
            ledger (db w) = Some l /\ l !! Migration.id m = None
            /\ ledger (db w') = Some (<[Migration.id m := recorded_row m ts]> l)
     else ledger (db w') = ledger (db w)
          /\ is_Some (MigrationResult.error_message r).

(** The ways the transaction of [rollback_migration] can fail for a row
    of the ledger, with the error text reported and the statements sent
    before the rollback.  [n] is the number of the first statement of the
    transaction. *)
Inductive rollback_failure (id : string) (n : nat) (s : Schema) (row : Row.t)
  : string -> list Event -> Prop :=
| rf_select_fault msg :
    stmt_fault n = Some msg ->
    rollback_failure id n s row msg [EvExecute (SelectRollbackSql id) false]
| rf_no_rollback_sql :
    stmt_fault n = None ->
    Row.rollback_sql row = None \/ Row.rollback_sql row = Some "" ->
    rollback_failure id n s row
      ("No rollback SQL available for migration " ++ id)
      [EvExecute (SelectRollbackSql id) true]
| rf_execute_fault sql msg :
    stmt_fault n = None ->
    Row.rollback_sql row = Some sql -> sql <> "" ->
    stmt_fault (S n) = Some msg ->
    rollback_failure id n s row msg
      [EvExecute (SelectRollbackSql id) true; EvExecute (SqlText sql) false]
| rf_execute_error sql msg :
    stmt_fault n = None ->
    Row.rollback_sql row = Some sql -> sql <> "" ->
    stmt_fault (S n) = None ->
    sql_exec sql s = inl msg ->
    rollback_failure id n s row msg
      [EvExecute (SelectRollbackSql id) true; EvExecute (SqlText sql) false]
| rf_delete_fault sql s' k msg :
    stmt_fault n = None ->
    Row.rollback_sql row = Some sql -> sql <> "" ->
    stmt_fault (S n) = None ->
    sql_exec sql s = inr (s', k) ->
    stmt_fault (S (S n)) = Some msg ->
    rollback_failure id n s row msg
      [EvExecute (SelectRollbackSql id) true; EvExecute (SqlText sql) true;
       EvExecute (DeleteLedger id) false].

(** The outcomes of the locked block of [rollback_migration] started in
    [w]: what it returns or raises, the committed database it leaves and
    the database effects it adds to the trace. *)
Inductive rollback_outcome (id : string) (w : World)
  : Res MigrationResult.t -> Store -> list Event -> Prop :=
| ro_read_fault msg :
    stmt_fault (stmts w) = Some msg ->
    rollback_outcome id w (Raise (DbError msg)) (db w)
      [EvConnect; EvExecute SelectApplied false; EvRollback]
| ro_no_table :
    stmt_fault (stmts w) = None ->
    ledger (db w) = None ->
    rollback_outcome id w (Raise (DbError no_table)) (db w)
      [EvConnect; EvExecute SelectApplied false; EvRollback]
| ro_not_applied l :
    stmt_fault (stmts w) = None ->
    ledger (db w) = Some l -> l !! id = None ->
    rollback_outcome id w
      (Raise (ValueError ("Migration " ++ id ++ " was not applied"))) (db w)
      ledger_read
| ro_failed l row msg tr r :
    stmt_fault (stmts w) = None ->
    ledger (db w) = Some l -> l !! id = Some row ->
    rollback_failure id (S (stmts w)) (schema (db w)) row msg tr ->
    MigrationResult.migration_id r = id ->
    MigrationResult.success r = false ->
    MigrationResult.error_message r = Some msg ->
    MigrationResult.rollback_executed r = true ->
    rollback_outcome id w (Ok r) (db w)
      (ledger_read ++ EvConnect :: tr ++ [EvRollback])
| ro_rolled_back l row sql s' k r :
    stmt_fault (stmts w) = None ->
    ledger (db w) = Some l -> l !! id = Some row ->
    stmt_fault (S (stmts w)) = None ->
    Row.rollback_sql row = Some sql -> sql <> "" ->
    stmt_fault (S (S (stmts w))) = None ->
    sql_exec sql (schema (db w)) = inr (s', k) ->
    stmt_fault (S (S (S (stmts w)))) = None ->
    MigrationResult.migration_id r = id ->
    MigrationResult.success r = true ->
    MigrationResult.error_message r = None ->
    MigrationResult.rollback_executed r = true ->
    rollback_outcome id w (Ok r)
      {| schema := s'; ledger := Some (delete id l) |}
      (ledger_read ++
       [EvConnect; EvExecute (SelectRollbackSql id) true;
        EvExecute (SqlText sql) true; EvExecute (DeleteLedger id) true;
        EvCommit; EvCommit]).

(** The reading of "raised before any lock is acquired": the call raises
    [e] and none of the effects it adds is a request for the lock. *)
Definition no_lock_request (tr : list Event) : Prop :=
  forall key value granted, ~ In (EvSetNx key value granted) tr.

Definition raises_before_lock (id : string) (w : World) (e : Exn) : Prop :=
  exists w',
    rollback_migration id w = (Raise e, w')
    /\ no_lock_request (drop (length (trace w)) (trace w')).

(** The refusal, if any, of the row of a migration by the column types
    of the ledger table. *)
Definition row_error (m : Migration.t) : option string :=
  column_error (Migration.id m) (Migration.name m) (Migration.version m)
    (_calculate_migration_checksum m).

(** What the database part of [_execute_online_migration] amounts to, as a
    function of the migration, the number [n] of the next statement, the
    clock reading [ts] taken by the INSERT and the committed database [s]:
    whether it succeeds, the error text, the row count, the committed
    database it leaves and the effects it adds. *)
Record OnlineEffect := {
  oe_success : bool;
  oe_error : option string;
  oe_rows : Z;
  oe_db : Store;
  oe_trace : list Event;
}.

Definition online_effect (m : Migration.t) (n : nat) (ts : Z) (s : Store)
  : OnlineEffect :=
  let sql := Migration.sql_content m in
  let id := Migration.id m in
  let failed msg d tr :=
    {| oe_success := false; oe_error := Some msg; oe_rows := 0; oe_db := d;
       oe_trace := tr |} in
  let not_run := [EvConnect; EvExecute (SqlText sql) false; EvRollback] in
  match stmt_fault n with
  | Some msg => failed msg s not_run
  | None =>
      match sql_exec sql (schema s) with
      | inl msg => failed msg s not_run
      | inr (s', k) =>
          let committed := {| schema := s'; ledger := ledger s |} in
          let unrecorded :=
            [EvConnect; EvExecute (SqlText sql) true; EvCommit;
             EvExecute (InsertLedger id) false; EvRollback] in
          match stmt_fault (S n) with
          | Some msg => failed msg committed unrecorded
          | None =>
              match ledger s with
              | None => failed no_table committed unrecorded
              | Some l =>
                  match row_error m with
                  | Some msg => failed msg committed unrecorded
                  | None =>
                      match l !! id with
                      | Some _ =>
                          failed "duplicate key value violates unique constraint"
                                 committed unrecorded
                      | None =>
                          {| oe_success := true; oe_error := None; oe_rows := k;
                             oe_db := {| schema := s';
                                         ledger := Some (<[id := recorded_row m ts]> l) |};
                             oe_trace :=
                               [EvConnect; EvExecute (SqlText sql) true; EvCommit;
                                EvExecute (InsertLedger id) true; EvCommit; EvCommit] |}
                      end
                  end
              end
          end
      end
  end.

(** *** Units that can be loaded (vocabulary for loading)

    Stated from the format of a unit rather than from the parser: a line
    is a META directive when, stripped, it starts with [-- META:]; its
    payload is the line without the marker, stripped. *)

Definition is_meta_line (line : string) : bool :=
  PyStr.startswith "-- META:" (PyStr.strip line).

Definition meta_payload (line : string) : string :=
  PyStr.strip (PyStr.replace "-- META:" "" line).


(** The META directives of a text that are JSON objects, in the order of
    the lines; a directive that is not valid JSON is not among them. *)
Definition directives (content : string) : list Meta.t :=
  omap (fun line =>
          if is_meta_line line
          then match meta_line (meta_payload line) with
               | Fields d => Some d
               | _ => None
               end
          else None)
       (PyStr.split newline content).

(** The metadata of a text: its directives, a later one overriding an
    earlier one key by key. *)
Definition metadata_of (content : string) : Meta.t :=
  foldl Meta.update Meta.empty (directives content).

(** The unit a file name and a text stand for: the id is the file name
    without its suffix, the forward SQL is the text before the first
    [-- ROLLBACK:] marker, the rollback SQL the text between the first
    and the second marker, and the metadata give the other fields, with
    their defaults. *)
Definition unit_of (file_name content : string) : Migration.t :=
  let metadata := metadata_of content in
  let id := PyStr.stem_sql file_name in
  let parts := PyStr.split "-- ROLLBACK:" content in
  {| Migration.id := id;
     Migration.name := default id (Meta.name metadata);
     Migration.version := default "1.0.0" (Meta.version metadata);
     Migration.sql_content := PyStr.strip (List.hd "" parts);
     Migration.rollback_sql :=
       match parts with
       | _ :: part :: _ => Some (PyStr.strip part)
       | _ => None
       end;
     Migration.is_breaking := default false (Meta.is_breaking metadata);
     Migration.requires_maintenance :=
       default false (Meta.requires_maintenance metadata);
     Migration.estimated_duration :=
       default 0 (Meta.estimated_duration metadata);
     Migration.dependencies := default [] (Meta.dependencies metadata) |}.



(** *** The turns of the loop of [apply_migrations]

    Vocabulary for the run: the world in which a turn calls the strategy,
    the worlds a turn leaves, and the strategy calls of a prefix of the
    pending list that all succeed. *)

(** What a turn does before it calls the strategy: the log record and
    the status update. *)
Definition turn_prelude (m : Migration.t) : M unit :=
  logger INFO ("Applying migration: " ++ Migration.id m ++ " - "
               ++ Migration.name m) ;;
  t <- now ;;
  redis_hset status_key
    [("current_migration", Migration.id m); ("status", "applying");
     ("started_at", isoformat t)].

(** The world in which the strategy is called for [m] by a turn that
    starts in [w]. *)
Definition turn_world (m : Migration.t) (w : World) : World :=
  (turn_prelude m w).2.

(** The world in which the next turn starts after the strategy call for
    [m] has returned a success in [w2]. *)
Definition succeeded_world (m : Migration.t) (w2 : World) : World :=
  (logger INFO ("Migration " ++ Migration.id m ++ " completed successfully")
     w2).2.

(** The world in which the loop is left after the strategy call for [m]
    has returned the failure [r] in [w2]. *)
Definition failed_world (m : Migration.t) (r : MigrationResult.t) (w2 : World)
  : World :=
  ((logger ERROR ("Migration " ++ Migration.id m ++ " failed, stopping execution") ;;
    publish_failed (Migration.id m) (MigrationResult.error_message r)) w2).2.

(** The strategy calls for the migrations of a list, in order, each made
    in the world the turn before it has left, all return a success:
    [rs] are their results and [w'] is the world in which the turn after
    the last of them starts. *)
Inductive succeeds_on (f : Migration.t -> M MigrationResult.t)
  : list Migration.t -> World -> list MigrationResult.t -> World -> Prop :=
| so_nil w : succeeds_on f [] w [] w
| so_cons m ms w r w2 rs w' :
    f m (turn_world m w) = (Ok r, w2) ->
    MigrationResult.success r = true ->
    succeeds_on f ms (succeeded_world m w2) rs w' ->
    succeeds_on f (m :: ms) w (r :: rs) w'.

(** The status key does not hold a string (it is absent or a hash). *)
Definition status_is_no_string (w : World) : Prop :=
  forall v ex, redis w !! status_key <> Some (RStr v ex).

(** The world in which the locked block of [apply_migrations] starts,
    from the world [w1] the resolver has left: the record of the number
    of pending migrations is logged and the lease is granted. *)
Definition loop_entry (strategy : string) (pending : list Migration.t)
    (w1 : World) : World :=
  acquired_world ("apply_migrations_" ++ strategy)
    (set_log (log w1 ++ [{| level := INFO;
                            message := "Found " ++ pretty (length pending)
                                       ++ " pending migrations" |}])
       w1).

End Manager.

(* ===================================================================== *)
(** ** A small environment, to run the model on concrete inputs *)
(* ===================================================================== *)

(** Application objects are the list of statements applied so far; a
    statement starting with FAIL is rejected by the engine.  The payload of
    a META line is an object when it is written with braces, a JSON
    value the update rejects when it is a bracketed list, and not JSON
    otherwise. *)
Definition demo_meta_line (payload : string) : MetaLine :=
  if String.eqb payload "{}" then Fields Meta.empty
  else if String.eqb payload "{breaking}"
       then Fields (Meta.mk None None (Some true) None None None)
  else if String.eqb payload "{needs 0001_a}"
       then Fields (Meta.mk None None None None None (Some ["0001_a"]))
  else if String.eqb payload "{needs 0009_z}"
       then Fields (Meta.mk None None None None None (Some ["0009_z"]))
  else if String.prefix "[" payload
       then UpdateError "cannot convert dictionary update sequence element #0 to a sequence"
  else JSONDecodeError.

Definition demo_env (fault : nat -> option string) : Env := {|
  Schema := list string;
  sql_exec := fun sql s =>
    if String.prefix "FAIL" sql then inl "syntax error"
    else inr ((s ++ [sql])%list, (-1)%Z);
  stmt_fault := fault;
  clock := fun n => (1000 + Z.of_nat n)%Z;
  isoformat := fun t => pretty t;
  fmt_2f := fun t => pretty t;
  sha256_hex := fun s => pretty (String.length s);
  json_dumps := fun d deps => pretty d ++ ":" ++ String.concat "," deps;
  str_list := fun l => "[" ++ String.concat ", " l ++ "]";
  meta_line := demo_meta_line;
  migrations_dir := "/app/db/scripts";
|}.

Definition no_fault : nat -> option string := fun _ => None.

Definition fault_at (k : nat) : nat -> option string :=
  fun n => if (n =? k)%nat then Some "server closed the connection" else None.

Definition demo_store (E : Env) (s : @Schema E) (l : option Ledger) : @Store E :=
  {| schema := s; ledger := l |}.

(** A world at rest: no open transaction, empty log and trace. *)
Definition demo_world (E : Env) (fs : option (list (string * option string)))
    (s : @Schema E) (l : option Ledger) (r : gmap string RVal) : @World E :=
  {| files := fs; db := demo_store E s l; txn := demo_store E s l; redis := r;
     log := []; trace := []; ticks := 0; stmts := 0 |}.

(** The result held by an outcome, or a default. *)
Definition value {A} (d : A) (r : Res A) : A :=
  match r with
  | Ok a => a
  | Raise _ => d
  end.

Definition no_result : MigrationResult.t :=
  MigrationResult.mk "" true 0 None 0 false.

Definition unit_text (lines : list string) : string :=
  String.concat (String (ascii_of_nat 10) EmptyString) lines.

Definition demo_E : Env := demo_env no_fault.

(** A directory as [glob] may list it: three units of which the second
    fails in the engine, a unit whose META line holds a JSON list, an
    unreadable unit, a unit whose META line is not JSON, and a file that
    is not a unit. *)
Definition demo_files : list (string * option string) :=
  [ ("0002_b.sql", Some "FAIL b");
    ("0001_a.sql",
     Some (unit_text ["CREATE TABLE a(id INT)"; "-- ROLLBACK:"; "DROP TABLE a"]));
    ("0000_list.sql", Some (unit_text ["-- META: [1]"; "SELECT 1"]));
    ("0003_c.sql", Some (unit_text ["-- META: {oops"; "CREATE TABLE c(id INT)"]));
    ("notes.txt", Some "not a migration");
    ("0004_unreadable.sql", None) ].

(** The ledger table exists and is empty, nobody holds the lock. *)
Definition demo_start : @World demo_E :=
  demo_world demo_E (Some demo_files) [] (Some ∅) ∅.

Definition demo_pending : list Migration.t :=
  value [] (@get_pending_migrations demo_E demo_start).1.

Definition demo_resolved : @World demo_E :=
  (@get_pending_migrations demo_E demo_start).2.

(** A run with the online strategy: 0001_a is applied, 0002_b fails. *)
Definition demo_results : list MigrationResult.t :=
  value [] (@apply_migrations demo_E "online" false demo_start).1.

Definition demo_after_run : @World demo_E :=
  (@apply_migrations demo_E "online" false demo_start).2.

Definition demo_failure : MigrationResult.t :=
  default no_result (demo_results !! 1%nat).

(** After the run the rollback SQL of 0001_a is changed on disk. *)
Definition demo_drifted : @World demo_E :=
  set_files
    (Some [("0001_a.sql",
            Some (unit_text ["CREATE TABLE a(id INT)"; "-- ROLLBACK:";
                             "DROP TABLE something_else"]))])
    demo_after_run.

Definition demo_rollback_result : MigrationResult.t :=
  value no_result (@rollback_migration demo_E "0001_a" demo_drifted).1.

Definition demo_rolled_back : @World demo_E :=
  (@rollback_migration demo_E "0001_a" demo_drifted).2.

(** A ledger with one applied migration that can be rolled back and one
    recorded without rollback SQL. *)
Definition demo_row_a : Row.t :=
  Row.mk "0001_a" "0001_a" "1.0.0" 1000 0 "35" (Some "DROP TABLE a") false "0:".

Definition demo_row_c : Row.t :=
  Row.mk "0003_c" "0003_c" "1.0.0" 1001 0 "22" None false "0:".

Definition demo_ledger : Ledger :=
  <["0001_a" := demo_row_a]> (<["0003_c" := demo_row_c]> ∅).

Definition demo_applied (E : Env) (s : @Schema E) (r : gmap string RVal)
  : @World E :=
  demo_world E
    (Some [("0001_a.sql", Some "CREATE TABLE a(id INT)");
           ("0003_c.sql", Some "CREATE TABLE c(id INT)")])
    s (Some demo_ledger) r.

(** The same state when the fourth statement sent to the database, the
    DELETE of the rollback, is lost with the connection. *)
Definition demo_E_delete_fault : Env := demo_env (fault_at 3).

Definition demo_before_failed_rollback : @World demo_E_delete_fault :=
  demo_applied demo_E_delete_fault ["CREATE TABLE a(id INT)"] ∅.

(** Somebody else holds the lock. *)
Definition demo_held : gmap string RVal :=
  {[ lock_key := RStr "apply_migrations_online:999" (Some 3600) ]}.

(** A block during which the lease expires and another owner takes the
    key. *)
Definition demo_lease_lost : @M demo_E unit :=
  fun w => (Ok tt,
            set_redis (<[lock_key := RStr "rollback_0001_a:2000" (Some 3600)]>
                         (redis w)) w).

Definition demo_alter : Migration.t :=
  Migration.mk "0005_alter" "0005_alter" "1.0.0" "ALTER TABLE a ADD COLUMN v INT;"
    None false false 0 [].

(** 0001_a is applied; 0006_f needs it; 0007_g needs 0009_z, which is not
    applied. *)
Definition demo_gated_ledger : Ledger := {[ "0001_a" := demo_row_a ]}.

Definition demo_gated : @World demo_E :=
  demo_world demo_E
    (Some [("0007_g.sql", Some (unit_text ["-- META: {needs 0009_z}"; "SELECT 7"]));
           ("0006_f.sql", Some (unit_text ["-- META: {needs 0001_a}"; "SELECT 6"]));
           ("0001_a.sql", Some "CREATE TABLE a(id INT)")])
    ["CREATE TABLE a(id INT)"] (Some demo_gated_ledger) ∅.

(** An index with its rollback, a unit the engine rejects, and a second
    unit under the id of a row that is already in the ledger. *)
Definition demo_index : Migration.t :=
  Migration.mk "0008_index" "0008_index" "1.0.0" "CREATE INDEX i ON a(id)"
    (Some "DROP INDEX i") false false 0 [].

Definition demo_rejected : Migration.t :=
  Migration.mk "0002_b" "0002_b" "1.0.0" "FAIL b" None false false 0 [].

Definition demo_again : Migration.t :=
  Migration.mk "0001_a" "0001_a" "1.0.0" "CREATE TABLE a2(id INT)" None
    false false 0 [].

(** The second statement sent to the database is lost with the
    connection. *)
Definition demo_E_second_fault : Env := demo_env (fault_at 1).

(** The directory of the demonstration seen with the lock held, without
    the ledger table, and with a string left under the status key. *)
Definition demo_locked : @World demo_E :=
  demo_world demo_E (Some demo_files) [] (Some ∅) demo_held.

Definition demo_no_table : @World demo_E :=
  demo_world demo_E (Some demo_files) [] None ∅.

Definition demo_stale_status : @World demo_E :=
  demo_world demo_E (Some demo_files) [] (Some ∅)
    {[ status_key := RStr "stale" None ]}.

(** The index applied with the online strategy on the empty ledger. *)
Definition demo_index_applied : @World demo_E :=
  (@_execute_online_migration demo_E demo_index demo_start).2.

(** The three units of the demonstration directory that load, and the
    worlds of the run over them with the online strategy: the block
    starts with the table ensured, the call for 0001_a succeeds, the
    call for 0002_b fails. *)
Definition demo_unit_a : Migration.t :=
  @unit_of demo_E "0001_a.sql"
    (unit_text ["CREATE TABLE a(id INT)"; "-- ROLLBACK:"; "DROP TABLE a"]).

Definition demo_unit_b : Migration.t := @unit_of demo_E "0002_b.sql" "FAIL b".

Definition demo_unit_c : Migration.t :=
  @unit_of demo_E "0003_c.sql"
    (unit_text ["-- META: {oops"; "CREATE TABLE c(id INT)"]).

Definition demo_table_ensured : @World demo_E :=
  (@_ensure_migration_table demo_E
     (@loop_entry demo_E "online" [demo_unit_a; demo_unit_b; demo_unit_c]
        demo_resolved)).2.

Definition demo_call_a : Res MigrationResult.t * @World demo_E :=
  @_execute_online_migration demo_E demo_unit_a
    (@turn_world demo_E demo_unit_a demo_table_ensured).

Definition demo_call_b : Res MigrationResult.t * @World demo_E :=
  @_execute_online_migration demo_E demo_unit_b
    (@turn_world demo_E demo_unit_b
       (@succeeded_world demo_E demo_unit_a demo_call_a.2)).

(** A unit whose version does not fit the column of the ledger table. *)
Definition demo_long_version : Migration.t :=
  Migration.mk "0011_long" "0011_long"
    "1.0.0-a-version-label-that-is-far-too-long-for-the-column-of-the-ledger-table-which-holds-100-characters"
    "CREATE TABLE long_version(id INT)" None false false 0 [].

(** Two files with the same stem: a hidden file named [.sql] and
    [.sql.sql]. *)
Definition demo_same_stem : @World demo_E :=
  demo_world demo_E
    (Some [(".sql.sql", Some "CREATE TABLE h2(id INT)");
           (".sql", Some "CREATE TABLE h(id INT)")])
    [] (Some ∅) ∅.

(* ===================================================================== *)
(** ** Properties *)
(* ===================================================================== *)

Section Properties.
Context {E : Env}.

(** *** Bookkeeping on worlds *)

(** Traces and logs grow by appending: bring every nest of appends to the
    right-nested form before comparing. *)
Ltac norm_app := cbn; rewrite <- ?app_assoc; cbn [app].

Ltac run_prims :=
  repeat progress
    (unfold with_connection, statement, connect, get_txn, put_txn, stmt_ok,
       stmt_fail, emit, ret, commit, rollback, raise, logger, now, try_except,
       lift, bind; cbn).

(** Case analysis on everything the database can answer. *)
Ltac db_cases :=
  repeat match goal with
    | |- context [match stmt_fault ?n with _ => _ end] =>
        destruct (stmt_fault n) eqn:?; cbn
    | |- context [match sql_exec ?q ?s with _ => _ end] =>
        destruct (sql_exec q s) as [?|[? ?]] eqn:?; cbn
    | |- context [match ledger ?s with _ => _ end] =>
        destruct (ledger s) eqn:?; cbn
    | |- context [match column_error ?a ?b ?c ?d with _ => _ end] =>
        destruct (column_error a b c d) eqn:?; cbn
    | |- context [match ?l !! ?k with _ => _ end] =>
        destruct (l !! k) eqn:?; cbn
    end.

(** An insert found in a concrete trace: name the forward statement and
    the commit before it, and check what lies between them. *)
Ltac between_leaf :=
  let x := fresh "x" in let Hx := fresh "Hx" in
  intros x Hx;
  do 9 (destruct x as [|x]; [first [lia | eexists; reflexivity]|]);
  lia.

Ltac found_leaf :=
  split; [reflexivity|];
  first [ exists 1%nat, 2%nat; split; [lia|]; split; [reflexivity|];
          split; [reflexivity|]; between_leaf
        | exists 1%nat, 7%nat; split; [lia|]; split; [reflexivity|];
          split; [reflexivity|]; between_leaf ].

Ltac scan_trace Hk k :=
  first [ discriminate Hk
        | destruct k as [|k]; cbn in Hk;
          [ first [ discriminate Hk | injection Hk as <- <-; found_leaf ]
          | scan_trace Hk k ] ].

Ltac order_leaf :=
  let k := fresh "k" in let Hk := fresh "Hk" in
  intros k ? ? Hk; scan_trace Hk k.

Ltac post_leaf :=
  eexists _, _; split; [reflexivity|];
  split; [reflexivity|]; split; [reflexivity|];
  split;
  [ eexists; split; [norm_app; reflexivity | order_leaf]
  | cbn; first [ split; [reflexivity | eexists; reflexivity]
               | eexists _, _; repeat split; eauto ] ].

Lemma set_log_twice (l1 l2 : list LogRecord) (w : World) :
  set_log l2 (set_log l1 w) = set_log l2 w.
Proof. reflexivity. Qed.

Lemma set_log_same (w : World) : set_log (log w) w = w.
Proof. destruct w; reflexivity. Qed.

(** *** Loading *)

Lemma insert_sorted_perm (f : File) (l : list File) :
  insert_sorted f l ≡ₚ f :: l.
Proof.
  induction l as [|g l IH]; simpl; [reflexivity|].
  destruct (String.ltb f.1 g.1); [reflexivity|].
  rewrite IH. apply Permutation_swap.
Qed.

Lemma sorted_perm (l : list File) : sorted l ≡ₚ l.
Proof.
  unfold sorted.
  enough (forall acc, foldl (fun a f => insert_sorted f a) acc l ≡ₚ acc ++ l) as H
    by apply (H []).
  induction l as [|f l IH]; intros acc; simpl.
  - rewrite app_nil_r. reflexivity.
  - rewrite IH, insert_sorted_perm. apply Permutation_middle.
Qed.

Lemma load_loop_spec (entries : list File) :
  forall (migrations : list Migration.t) (w : World),
    load_loop entries migrations w =
      (Ok (migrations ++ omap parsed_unit entries)%list,
       set_log (log w ++ omap load_failure entries)%list w).
Proof.
  induction entries as [|f rest IH]; intros migrations w.
  - cbn. rewrite !app_nil_r, set_log_same. reflexivity.
  - assert (Hcons : forall {A B} (g : A -> option B) x l,
              omap g (x :: l) = match g x with
                                | Some y => y :: omap g l
                                | None => omap g l
                                end) by reflexivity.
    rewrite !Hcons. cbn [load_loop]. unfold bind, try_except, lift, parsed_unit, load_failure.
    destruct (_parse_migration_file f) as [[m|]|e]; cbn.
    + rewrite IH. rewrite <- app_assoc. reflexivity.
    + apply IH.
    + rewrite IH. cbn [log set_log]. rewrite <- app_assoc. reflexivity.
Qed.

Lemma load_migrations_spec (w : World) :
  load_migrations w =
    (Ok (loaded_units (files w)), set_log (log w ++ load_log (files w))%list w).
Proof.
  unfold load_migrations, loaded_units, load_log.
  destruct (files w) as [entries|].
  - apply load_loop_spec.
  - reflexivity.
Qed.

Lemma elem_of_loaded_units (entries : list File) (m : Migration.t) :
  m ∈ loaded_units (Some entries) <->
  exists f, f ∈ entries /\ PyStr.endswith ".sql" f.1 = true
            /\ _parse_migration_file f = Ok (Some m).
Proof.
  unfold loaded_units. rewrite list_elem_of_omap. split.
  - intros (f & Hin & Hp). exists f.
    rewrite sorted_perm in Hin. unfold glob_sql in Hin.
    apply list_elem_of_In, filter_In in Hin. destruct Hin as [Hin Hsuf].
    split; [by apply list_elem_of_In|]. split; [exact Hsuf|].
    unfold parsed_unit in Hp. destruct (_parse_migration_file f); congruence.
  - intros (f & Hin & Hsuf & Hp). exists f. split.
    + rewrite sorted_perm. apply list_elem_of_In, filter_In.
      split; [by apply list_elem_of_In | exact Hsuf].
    + unfold parsed_unit. rewrite Hp. reflexivity.
Qed.

(** *** Reading the ledger, the pending set *)

Lemma mem_fmap {A B} (f : A -> B) (k : string) (d : gmap string A) :
  mem k (f <$> d) = mem k d.
Proof.
  unfold mem. apply bool_decide_ext. rewrite lookup_fmap.
  destruct (d !! k); simpl; split; intros [? ?]; eauto; discriminate.
Qed.

Lemma mem_true {V} (k : string) (d : gmap string V) :
  mem k d = true <-> is_Some (d !! k).
Proof. unfold mem. apply bool_decide_eq_true. Qed.

Lemma mem_false {V} (k : string) (d : gmap string V) :
  mem k d = false <-> d !! k = None.
Proof.
  unfold mem. rewrite bool_decide_eq_false. rewrite eq_None_not_Some. tauto.
Qed.

Lemma eligible_fmap {A B} (f : A -> B) (d : gmap string A) (m : Migration.t) :
  eligible (f <$> d) m = eligible d m.
Proof.
  unfold eligible. rewrite mem_fmap. f_equal.
  induction (Migration.dependencies m) as [|dep deps IH]; simpl; [reflexivity|].
  rewrite mem_fmap, IH. reflexivity.
Qed.

Lemma eligible_spec {V} (d : gmap string V) (m : Migration.t) :
  eligible d m = true <->
  d !! Migration.id m = None
  /\ forall dep, dep ∈ Migration.dependencies m -> is_Some (d !! dep).
Proof.
  unfold eligible. rewrite andb_true_iff, negb_true_iff, mem_false, forallb_forall.
  split; intros [H1 H2]; (split; [exact H1|]); intros dep Hd.
  - apply mem_true, H2, list_elem_of_In, Hd.
  - apply mem_true, H2, list_elem_of_In, Hd.
Qed.

Lemma filter_nil_forallb {A} (p : A -> bool) (l : list A) :
  List.filter (fun x => negb (p x)) l = [] <-> forallb p l = true.
Proof.
  induction l as [|x l IH]; simpl; [tauto|].
  destruct (p x); simpl; [exact IH | split; discriminate].
Qed.

Lemma filter_sublist {A} (p : A -> bool) (l : list A) :
  sublist (List.filter p l) l.
Proof.
  induction l as [|x l IH]; simpl; [constructor|].
  destruct (p x); [by apply sublist_skip | by apply sublist_cons].
Qed.

(** The loop of the resolver keeps exactly the eligible definitions, in
    the order it meets them, and only logs warnings. *)
Lemma pending_loop_filter (all : list Migration.t) :
  forall (applied : gmap string Applied.t) (pending : list Migration.t) (w : World),
  exists warnings,
    pending_loop all applied pending w =
      (Ok (pending ++ List.filter (eligible applied) all)%list,
       set_log (log w ++ warnings)%list w)
    /\ Forall (fun r => level r = WARNING) warnings.
Proof.
  induction all as [|m rest IH]; intros applied pending w.
  - exists []. split; [|constructor].
    cbn. rewrite !app_nil_r, set_log_same. reflexivity.
  - cbn [pending_loop List.filter]. unfold eligible at 1.
    destruct (mem (Migration.id m) applied) eqn:Hin; cbn [negb andb].
    + apply IH.
    + destruct (List.filter _ (Migration.dependencies m)) as [|d ds] eqn:Hf.
      * apply filter_nil_forallb in Hf. rewrite Hf.
        destruct (IH applied (pending ++ [m])%list w) as (ws & Heq & Hw).
        exists ws. split; [|exact Hw]. rewrite Heq. rewrite <- app_assoc. reflexivity.
      * assert (forallb (fun dep => mem dep applied) (Migration.dependencies m) = false) as ->.
        { destruct (forallb _ _) eqn:Hall; [|reflexivity].
          apply filter_nil_forallb in Hall. congruence. }
        unfold bind, logger. cbn.
        match goal with |- context [pending_loop rest applied pending ?w1] =>
          destruct (IH applied pending w1) as (ws & Heq & Hw) end.
        eexists (_ :: ws). split.
        { rewrite Heq. cbn [log set_log]. rewrite <- app_assoc. reflexivity. }
        constructor; [reflexivity | exact Hw].
Qed.

Lemma get_applied_ok (w : World) (l : Ledger) :
  stmt_fault (stmts w) = None -> ledger (db w) = Some l ->
  get_applied_migrations w = (Ok (Applied.of_row <$> l), after_select w).
Proof.
  intros Hf Hl.
  unfold get_applied_migrations, with_connection, select_applied, statement,
    bind, connect, get_txn, stmt_ok, stmt_fail, emit, ret, commit, raise.
  cbn. rewrite Hf. cbn. rewrite Hl. unfold after_select. norm_app. reflexivity.
Qed.

(** A failed read leaves everything but the session, the trace and the
    statement count as it was. *)
Lemma get_applied_inv (w w' : World) (r : Res (gmap string Applied.t)) :
  get_applied_migrations w = (r, w') ->
  files w' = files w /\ db w' = db w /\ redis w' = redis w /\ log w' = log w
  /\ ticks w' = ticks w
  /\ match r with
     | Ok a => exists l, stmt_fault (stmts w) = None /\ ledger (db w) = Some l
                         /\ a = Applied.of_row <$> l /\ w' = after_select w
     | Raise _ => True
     end.
Proof.
  unfold get_applied_migrations, with_connection, select_applied, statement,
    bind, connect, get_txn, stmt_ok, stmt_fail, emit, ret, commit, rollback, raise.
  cbn. destruct (stmt_fault (stmts w)) eqn:Hf; cbn.
  - intros [= <- <-]. cbn. tauto.
  - destruct (ledger (db w)) as [l|] eqn:Hl; cbn; intros [= <- <-]; cbn.
    + repeat split; try reflexivity. exists l. repeat split; try reflexivity.
      unfold after_select. norm_app. reflexivity.
    + tauto.
Qed.

Lemma get_pending_ok (w : World) (l : Ledger) :
  stmt_fault (stmts w) = None -> ledger (db w) = Some l ->
  exists warnings,
    get_pending_migrations w =
      (Ok (List.filter (eligible l) (loaded_units (files w))),
       set_log (log w ++ load_log (files w) ++ warnings)%list (after_select w))
    /\ Forall (fun r => level r = WARNING) warnings.
Proof.
  intros Hf Hl. unfold get_pending_migrations, bind.
  rewrite load_migrations_spec.
  rewrite (get_applied_ok _ l) by assumption.
  match goal with |- context [pending_loop ?a ?b ?c ?w1] =>
    destruct (pending_loop_filter a b c w1) as (ws & Heq & Hw) end.
  exists ws. split; [|exact Hw]. rewrite Heq. cbn [app].
  f_equal.
  - f_equal. apply filter_ext. intros m. apply eligible_fmap.
  - unfold after_select. cbn. rewrite <- app_assoc. reflexivity.
Qed.

(** C6. With the ledger readable, the resolver returns exactly the loaded
    definitions whose id is absent from the ledger and whose dependencies
    are all ledger keys; a definition with an unapplied dependency is
    never pending; the pending list is a subsequence of the loaded list,
    so source order is kept and nothing is reordered. *)
Theorem pending_iff_absent_and_dependencies_applied (w : World) (l : Ledger) :
  ledger (db w) = Some l ->
  stmt_fault (stmts w) = None ->
  exists pending w',
    get_pending_migrations w = (Ok pending, w')
    /\ pending = List.filter (eligible l) (loaded_units (files w))
    /\ (forall m,
          m ∈ pending <->
          m ∈ loaded_units (files w)
          /\ l !! Migration.id m = None
          /\ forall dep, dep ∈ Migration.dependencies m -> is_Some (l !! dep))
    /\ (forall m dep,
          m ∈ loaded_units (files w) -> dep ∈ Migration.dependencies m ->
          l !! dep = None -> m ∉ pending)
    /\ sublist pending (loaded_units (files w)).
Proof.
  intros Hl Hf.
  destruct (get_pending_ok w l Hf Hl) as (ws & Heq & _).
  eexists _, _. split; [exact Heq|]. split; [reflexivity|].
  assert (Hiff : forall m,
            m ∈ List.filter (eligible l) (loaded_units (files w)) <->
            m ∈ loaded_units (files w)
            /\ l !! Migration.id m = None
            /\ forall dep, dep ∈ Migration.dependencies m -> is_Some (l !! dep)).
  { intros m. rewrite list_elem_of_In, filter_In, <- list_elem_of_In, eligible_spec.
    tauto. }
  split; [exact Hiff|]. split; [|apply filter_sublist].
  intros m dep Hm Hdep Hnone Hin. apply Hiff in Hin as (_ & _ & Hall).
  destruct (Hall dep Hdep) as [x Hx]. congruence.
Qed.

(** *** The lock *)

(** C4. The release step of [migration_lock] deletes the key only when the
    value it reads back is its own token.  A caller whose acquire failed
    leaves the store as it was and issues no delete.  A holder whose block
    ends with another owner's token under the key (its lease expired and
    the key was taken again), or with no key, leaves the store as the
    block left it; only when its own token is still there is the key
    deleted. *)
Theorem lock_deleted_only_by_its_owner {A} (operation : string) (body : M A)
    (w : World) :
  (is_Some (redis w !! lock_key) ->
   exists e w',
     migration_lock operation body w = (Raise e, w')
     /\ redis w' = redis w
     /\ trace w' = (trace w ++ [EvSetNx lock_key (lock_token operation w) false;
                                EvGet lock_key])%list)
  /\ (redis w !! lock_key = None ->
      forall r wb, body (acquired_world operation w) = (r, wb) ->
      exists r' w',
        migration_lock operation body w = (r', w')
        /\ match redis wb !! lock_key with
           | Some (RStr v _) =>
               if bool_decide (v = lock_token operation w)
               then redis w' = delete lock_key (redis wb)
                    /\ trace w' = (trace wb ++ [EvGet lock_key; EvDelete lock_key])%list
                    /\ r' = r
               else redis w' = redis wb
                    /\ trace w' = (trace wb ++ [EvGet lock_key])%list
                    /\ r' = r
           | None =>
               redis w' = redis wb
               /\ trace w' = (trace wb ++ [EvGet lock_key])%list
               /\ r' = r
           | Some (RHash _) =>
               redis w' = redis wb
               /\ trace w' = (trace wb ++ [EvGet lock_key])%list
               /\ r' = Raise (RedisError "WRONGTYPE")
           end).
Proof.
  split.
  - intros [v Hv].
    unfold migration_lock, bind, now, redis_set_nx. cbn. rewrite Hv. cbn.
    unfold bind, redis_get, raise, ret. cbn. rewrite Hv.
    destruct v as [s ex|h]; cbn; eexists _, _; (split; [reflexivity|]);
      cbn; split; try reflexivity; unfold lock_token; norm_app; reflexivity.
  - intros Hnone r wb Hbody.
    unfold migration_lock, bind, now, redis_set_nx. cbn. rewrite Hnone.
    unfold logger at 1. cbn.
    unfold acquired_world, lock_token in Hbody. cbn in Hbody.
    unfold max_lock_time in *. rewrite Hbody.
    unfold bind, redis_get. cbn.
    destruct (redis wb !! lock_key) as [[v ex|h]|] eqn:Hk; cbn.
    + unfold lock_token.
      destruct (bool_decide (v = _)) eqn:Hd.
      * apply bool_decide_eq_true in Hd. subst v.
        rewrite bool_decide_eq_true_2 by reflexivity.
        unfold bind, redis_delete, logger. cbn.
        eexists _, _. split; [reflexivity|]. cbn. repeat split.
        norm_app. reflexivity.
      * apply bool_decide_eq_false in Hd.
        rewrite bool_decide_eq_false_2 by congruence.
        unfold ret. eexists _, _. split; [reflexivity|]. cbn. repeat split.
    + eexists _, _. split; [reflexivity|]. cbn. repeat split.
    + rewrite bool_decide_eq_false_2 by discriminate.
      unfold ret. eexists _, _. split; [reflexivity|]. cbn. repeat split.
Qed.

(** *** Applying: nothing pending, dry run *)

Lemma get_pending_inv (w w1 : World) (r : Res (list Migration.t)) :
  get_pending_migrations w = (r, w1) ->
  files w1 = files w /\ db w1 = db w /\ redis w1 = redis w /\ ticks w1 = ticks w
  /\ match r with
     | Ok pending =>
         exists l,
           stmt_fault (stmts w) = None /\ ledger (db w) = Some l
           /\ pending = List.filter (eligible l) (loaded_units (files w))
           /\ trace w1 = (trace w ++ ledger_read)%list
           /\ stmts w1 = S (stmts w) /\ txn w1 = db w
     | Raise _ => True
     end.
Proof.
  unfold get_pending_migrations, bind. rewrite load_migrations_spec.
  destruct (get_applied_migrations _) as [[a|e] wa] eqn:Ha;
    apply get_applied_inv in Ha as (Hfi & Hdb & Hre & Hlo & Hti & Hr); cbn in *.
  - destruct Hr as (l & Hf & Hl & -> & ->).
    match goal with |- context [pending_loop ?a ?b ?c ?w0] =>
      destruct (pending_loop_filter a b c w0) as (ws & Heq & _) end.
    rewrite Heq. intros [= <- <-]. cbn. repeat split.
    exists l. repeat split; try assumption.
    apply filter_ext. intros m. apply eligible_fmap.
  - intros [= <- <-]. tauto.
Qed.

Lemma would_apply_spec (pending : list Migration.t) (w : World) :
  would_apply pending w =
    (Ok tt, set_log (log w ++ map would_apply_record pending)%list w).
Proof.
  revert w. induction pending as [|m rest IH]; intros w.
  - cbn. rewrite app_nil_r, set_log_same. reflexivity.
  - cbn [would_apply]. unfold bind, logger at 1. cbn. rewrite IH.
    norm_app. reflexivity.
Qed.


(** C5. A dry run with a known strategy, on a state where the resolver
    returns N pending migrations, requests no lock, runs no migration
    statement and writes nothing: its only traffic is the resolver's read
    of the ledger, and the database, the coordination store and the
    migration files are as before.  It logs one "Would apply" record for
    each of the N pending migrations, in order, and returns the empty
    list. *)
Theorem dry_run_changes_nothing (strategy : string) (w w1 : World)
    (pending : list Migration.t) :
  is_Some (lookup_strategy strategy strategies) ->
  get_pending_migrations w = (Ok pending, w1) ->
  exists w',
    apply_migrations strategy true w = (Ok [], w')
    /\ db w' = db w
    /\ redis w' = redis w
    /\ files w' = files w
    /\ trace w' = (trace w ++ ledger_read)%list
    /\ log w' =
         (log w1 ++
          match pending with
          | [] => [{| level := INFO; message := "No pending migrations to apply" |}]
          | _ :: _ =>
              [{| level := INFO;
                  message := "Found " ++ pretty (length pending)
                             ++ " pending migrations" |};
               {| level := INFO;
                  message := "DRY RUN - No migrations will be executed" |}]
              ++ map would_apply_record pending
          end)%list.
Proof.
  intros [f Hs] Hp.
  unfold apply_migrations. rewrite Hs. unfold bind. rewrite Hp.
  apply get_pending_inv in Hp as (Hfi & Hdb & Hre & Hti & l & Hf & Hl & Hpe & Htr & _).
  destruct pending as [|m ms].
  - unfold logger, ret. cbn. eexists. split; [reflexivity|]. cbn. repeat split; assumption.
  - unfold logger at 1 2. cbn. rewrite would_apply_spec. unfold ret. cbn.
    eexists. split; [reflexivity|]. cbn. repeat split; try assumption.
    rewrite <- !app_assoc. reflexivity.
Qed.

(** *** The strategies *)

Lemma run_forward_is_execute (sql : string) (c : bool) (w : World) :
  (if c then _execute_chunked_operation sql else execute_sql sql) w
  = execute_sql sql w.
Proof.
  destruct c; [|reflexivity].
  unfold _execute_chunked_operation, bind, ret.
  destruct (execute_sql sql w) as [[n|e] w']; reflexivity.
Qed.

Lemma online_post (m : Migration.t) (w : World) :
  exists r w',
    _execute_online_migration m w = (Ok r, w')
    /\ strategy_post (Migration.sql_content m) m w r w'.
Proof.
  unfold _execute_online_migration, strategy_post.
  unfold bind, logger at 1, now at 1, try_except, with_connection, connect. cbn.
  rewrite run_forward_is_execute.
  unfold execute_sql, _record_migration, insert_ledger. run_prims.
  db_cases; post_leaf.
Qed.

Lemma shadow_post (m : Migration.t) (w : World) :
  exists r w',
    _execute_shadow_table_migration m w = (Ok r, w')
    /\ strategy_post
         (PyStr.replace "CREATE TABLE" "CREATE TABLE shadow_" (Migration.sql_content m))
         m w r w'.
Proof.
  unfold _execute_shadow_table_migration, strategy_post.
  destruct (PyStr.contains "ALTER TABLE" _);
    unfold execute_sql, execute_begin, execute_commit, _record_migration,
      insert_ledger; run_prims; db_cases; post_leaf.
Qed.

(** Effects that come before a strategy starts and write nothing to the
    ledger do not disturb the ordering. *)
Lemma insert_after_commit_cons (q id : string) (e : Event) (tr : list Event) :
  (forall id' ok, e <> EvExecute (InsertLedger id') ok) ->
  insert_after_commit q id tr -> insert_after_commit q id (e :: tr).
Proof.
  intros He H k id' ok Hk. destruct k as [|k]; cbn in Hk.
  - injection Hk as ->. exfalso. eapply He. reflexivity.
  - destruct (H k id' ok Hk) as (-> & i & j & Hij & Hi & Hj & Hbet).
    split; [reflexivity|]. exists (S i), (S j). split; [lia|].
    split; [exact Hi|]. split; [exact Hj|].
    intros x Hx. destruct x as [|x]; [lia|]. apply Hbet. lia.
Qed.

Lemma dual_write_post (m : Migration.t) (w : World) :
  exists r w',
    _execute_dual_write_migration m w = (Ok r, w')
    /\ strategy_post (Migration.sql_content m) m w r w'.
Proof.
  unfold _execute_dual_write_migration, bind, logger at 1. cbv beta iota.
  match goal with |- context [_execute_online_migration m ?w1] =>
    destruct (online_post m w1) as (r & w' & Heq & Hid & Hfi & Htr & Hled) end.
  exists r, w'. split; [exact Heq|]. unfold strategy_post.
  split; [exact Hid|]. split; [exact Hfi|]. split; [exact Htr|]. exact Hled.
Qed.

Lemma maintenance_post (m : Migration.t) (w : World) :
  exists r w',
    _execute_maintenance_migration m w = (Ok r, w')
    /\ strategy_post (Migration.sql_content m) m w r w'.
Proof.
  unfold _execute_maintenance_migration, bind, logger at 1, redis_set.
  cbv beta iota.
  match goal with |- context [_execute_online_migration m ?w1] =>
    destruct (online_post m w1)
      as (r & w' & Heq & Hid & Hfi & (tr & Htr & Hord) & Hled) end.
  exists r, w'. split; [exact Heq|]. unfold strategy_post.
  split; [exact Hid|]. split; [exact Hfi|]. split; [|exact Hled].
  eexists (_ :: tr). split.
  - rewrite Htr. cbn. rewrite <- app_assoc. reflexivity.
  - apply insert_after_commit_cons; [discriminate | exact Hord].
Qed.

Lemma lookup_strategy_named (strategy : string)
    (f : Migration.t -> M MigrationResult.t) :
  lookup_strategy strategy strategies = Some f ->
  (strategy = "online" /\ f = _execute_online_migration)
  \/ (strategy = "shadow_table" /\ f = _execute_shadow_table_migration)
  \/ (strategy = "dual_write" /\ f = _execute_dual_write_migration)
  \/ (strategy = "maintenance" /\ f = _execute_maintenance_migration).
Proof.
  unfold strategies, lookup_strategy.
  destruct (String.eqb strategy "online") eqn:H1;
    [apply String.eqb_eq in H1; intros [= <-]; tauto|].
  destruct (String.eqb strategy "shadow_table") eqn:H2;
    [apply String.eqb_eq in H2; intros [= <-]; tauto|].
  destruct (String.eqb strategy "dual_write") eqn:H3;
    [apply String.eqb_eq in H3; intros [= <-]; tauto|].
  destruct (String.eqb strategy "maintenance") eqn:H4;
    [apply String.eqb_eq in H4; intros [= <-]; tauto|].
  discriminate.
Qed.

(** Every entry of [self.strategies] returns a result and meets the
    postcondition for its forward statement. *)
Lemma strategy_meets_post (strategy : string)
    (f : Migration.t -> M MigrationResult.t) (m : Migration.t) (w : World) :
  lookup_strategy strategy strategies = Some f ->
  exists r w',
    f m w = (Ok r, w')
    /\ strategy_post (forward_statement strategy m) m w r w'.
Proof.
  intros H. unfold forward_statement.
  destruct (lookup_strategy_named _ _ H) as [[-> ->]|[[-> ->]|[[-> ->]|[-> ->]]]];
    cbn.
  - apply online_post.
  - apply shadow_post.
  - apply dual_write_post.
  - apply maintenance_post.
Qed.

(** C8. Whatever the strategy, in the effects of one call every write of
    the migration's ledger row, attempted or done, comes after a commit,
    and that commit comes after the successful execution of the forward
    statement in the same transaction: the row is never written before
    the forward SQL has been committed.  No other ledger row is written. *)
Theorem ledger_row_written_after_forward_commit (strategy : string)
    (f : Migration.t -> M MigrationResult.t) (m : Migration.t) (w : World) :
  lookup_strategy strategy strategies = Some f ->
  exists r w' tr,
    f m w = (Ok r, w')
    /\ trace w' = (trace w ++ tr)%list
    /\ forall (k : nat) (id' : string) (ok : bool),
         tr !! k = Some (EvExecute (InsertLedger id') ok) ->
         id' = Migration.id m
         /\ exists i j : nat,
              (i < j < k)%nat
              /\ tr !! i = Some (EvExecute (SqlText (forward_statement strategy m)) true)
              /\ tr !! j = Some EvCommit
              /\ forall x : nat, (i < x < j)%nat ->
                                 exists s, tr !! x = Some (EvExecute s true).
Proof.
  intros H.
  destruct (strategy_meets_post strategy f m w H)
    as (r & w' & Heq & _ & _ & (tr & Htr & Hord) & _).
  exists r, w', tr. split; [exact Heq|]. split; [exact Htr|]. exact Hord.
Qed.

(** *** The run *)

Lemma ensure_table_inv (w w' : World) (r : Res unit) (l : Ledger) :
  _ensure_migration_table w = (r, w') ->
  ledger (db w) = Some l ->
  ledger (db w') = Some l /\ files w' = files w.
Proof.
  intros H Hl. revert H.
  unfold _ensure_migration_table, create_ledger_table, create_ledger_index.
  run_prims. db_cases; cbn; intros [= <- <-]; cbn; rewrite ?Hl; auto.
Qed.

Lemma migration_lock_ok_inv {A} (operation : string) (body : M A)
    (w w' : World) (a : A) :
  migration_lock operation body w = (Ok a, w') ->
  exists wb,
    body (acquired_world operation w) = (Ok a, wb)
    /\ db w' = db wb /\ files w' = files wb
    /\ redis w !! lock_key = None.
Proof.
  unfold migration_lock, bind, now, redis_set_nx. cbn.
  destruct (redis w !! lock_key) as [v|] eqn:Hk; cbn.
  - unfold bind, redis_get, raise. cbn. rewrite Hk.
    destruct v; cbn; discriminate.
  - unfold logger at 1. cbn.
    destruct (body (acquired_world operation w)) as [r wb] eqn:Hbody.
    unfold acquired_world, lock_token in Hbody. cbn in Hbody.
    unfold max_lock_time in *. rewrite Hbody.
    unfold bind, redis_get. cbn.
    destruct (redis wb !! lock_key) as [[v ex|h]|]; cbn.
    + destruct (bool_decide _); unfold bind, redis_delete, logger, ret; cbn;
        intros [= -> <-]; exists wb; auto.
    + discriminate.
    + rewrite bool_decide_eq_false_2 by discriminate. unfold ret.
      intros [= -> <-]. exists wb; auto.
Qed.

(** *** Rolling back *)

Ltac rollback_steps Hl Hrow row :=
  repeat first
    [ rewrite Hl | rewrite Hrow | progress cbn
    | match goal with
      | |- context [match stmt_fault ?n with _ => _ end] =>
          destruct (stmt_fault n) eqn:?
      | |- context [match sql_exec ?q ?s with _ => _ end] =>
          destruct (sql_exec q s) as [?|[? ?]] eqn:?
      | |- context [match Row.rollback_sql row with _ => _ end] =>
          destruct (Row.rollback_sql row) eqn:?
      | |- context [if String.eqb ?s "" then _ else _] =>
          destruct (String.eqb s "") eqn:?
      end ].

Ltac string_facts :=
  repeat match goal with
    | H : String.eqb _ _ = true |- _ => apply String.eqb_eq in H; subst
    | H : String.eqb _ _ = false |- _ => apply String.eqb_neq in H
    end.

(** The locked block always ends in one of the listed outcomes; it never
    touches the coordination store nor the files. *)
Lemma rollback_locked_outcome (id : string) (w : World) :
  exists res w' tr,
    rollback_locked id w = (res, w')
    /\ rollback_outcome id w res (db w') tr
    /\ trace w' = (trace w ++ tr)%list
    /\ redis w' = redis w /\ files w' = files w.
Proof.
  unfold rollback_locked, get_applied_migrations, select_applied,
    select_rollback_sql, execute_sql, delete_ledger.
  run_prims.
  destruct (stmt_fault (stmts w)) eqn:F0; cbn.
  { eexists _, _, _. split; [reflexivity|]. cbn.
    split; [apply ro_read_fault; assumption|]. split; [norm_app; reflexivity|]. auto. }
  destruct (ledger (db w)) as [l|] eqn:Hl; cbn.
  2:{ eexists _, _, _. split; [reflexivity|]. cbn.
    split; [apply ro_no_table; assumption|]. split; [norm_app; reflexivity|]. auto. }
  rewrite mem_fmap. destruct (mem id l) eqn:Hmem; cbn.
  2:{ apply mem_false in Hmem. eexists _, _, _. split; [reflexivity|]. cbn.
    split; [eapply ro_not_applied; eassumption|]. split; [norm_app; reflexivity|]. auto. }
  apply mem_true in Hmem as [row Hrow].
  rollback_steps Hl Hrow row; string_facts;
    (eexists _, _, _; split; [reflexivity|]; cbn; split;
     [ first [ eapply ro_rolled_back; eauto; reflexivity
             | eapply ro_failed; eauto;
               eauto 6 using rf_select_fault, rf_no_rollback_sql, rf_execute_fault,
                 rf_execute_error, rf_delete_fault ]
     | split; [unfold ledger_read; norm_app; reflexivity | auto] ]).
Qed.

(** A held lock: the call raises at once, the block is not run. *)
Lemma migration_lock_busy {A} (operation : string) (body : M A) (w : World) :
  is_Some (redis w !! lock_key) ->
  exists e w',
    migration_lock operation body w = (Raise e, w')
    /\ db w' = db w /\ redis w' = redis w /\ files w' = files w
    /\ log w' = log w
    /\ trace w' = (trace w ++ [EvSetNx lock_key (lock_token operation w) false;
                                EvGet lock_key])%list
    /\ forall v ex, redis w !! lock_key = Some (RStr v ex) ->
                    e = Exception ("Migration lock is held by: " ++ v).
Proof.
  intros [v Hv].
  unfold migration_lock, bind, now, redis_set_nx. cbn. rewrite Hv. cbn.
  unfold bind, redis_get, raise, ret. cbn. rewrite Hv.
  destruct v as [s ex|h]; cbn; eexists _, _; (split; [reflexivity|]); cbn;
    repeat split; try reflexivity;
    try (unfold lock_token; norm_app; reflexivity);
    intros v' ex' [= <- <-] || intros v' ex' [=]; reflexivity.
Qed.

(** A free lock and a block that leaves the coordination store alone: the
    lease is taken, the block runs, the lease is deleted by its owner. *)
Lemma migration_lock_run {A} (operation : string) (body : M A)
    (w wb : World) (r : Res A) :
  redis w !! lock_key = None ->
  body (acquired_world operation w) = (r, wb) ->
  redis wb = redis (acquired_world operation w) ->
  exists w',
    migration_lock operation body w = (r, w')
    /\ db w' = db wb /\ files w' = files wb /\ redis w' = redis w
    /\ trace w' = (trace wb ++ [EvGet lock_key; EvDelete lock_key])%list.
Proof.
  intros Hnone Hbody Hredis.
  unfold migration_lock, bind, now, redis_set_nx. cbn. rewrite Hnone.
  unfold logger at 1. cbn.
  assert (Hk : redis wb !! lock_key
               = Some (RStr (lock_token operation w) (Some max_lock_time))).
  { rewrite Hredis. unfold acquired_world. cbn. apply lookup_insert_eq. }
  assert (Hdel : delete lock_key (redis wb) = redis w).
  { rewrite Hredis. unfold acquired_world. cbn.
    rewrite delete_insert_eq. apply delete_id. exact Hnone. }
  unfold acquired_world, lock_token in Hbody. cbn in Hbody.
  unfold max_lock_time in *. rewrite Hbody.
  unfold bind, redis_get. cbn. rewrite Hk. cbn.
  unfold lock_token. rewrite bool_decide_eq_true_2 by reflexivity.
  unfold bind, redis_delete, logger. cbn.
  eexists. split; [reflexivity|]. cbn. rewrite Hdel. repeat split.
  norm_app. reflexivity.
Qed.

Lemma rollback_outcome_ext (id : string) (w1 w2 : World)
    (res : Res MigrationResult.t) (s : Store) (tr : list Event) :
  stmts w1 = stmts w2 -> db w1 = db w2 ->
  rollback_outcome id w1 res s tr -> rollback_outcome id w2 res s tr.
Proof.
  intros Hs Hd H. destruct H; rewrite ?Hs, ?Hd in *.
  - eapply ro_read_fault; eauto.
  - eapply ro_no_table; eauto.
  - eapply ro_not_applied; eauto.
  - eapply ro_failed; eauto.
  - eapply ro_rolled_back; eauto.
Qed.

(** [rollback_migration] with the lock free: the lease is taken, the
    block runs to one of its outcomes, the lease is given back. *)
Lemma rollback_with_free_lock (id : string) (w : World) :
  redis w !! lock_key = None ->
  exists res w' tr,
    rollback_migration id w = (res, w')
    /\ rollback_outcome id w res (db w') tr
    /\ trace w' = (trace w ++ EvSetNx lock_key (lock_token ("rollback_" ++ id) w) true
                     :: tr ++ [EvGet lock_key; EvDelete lock_key])%list
    /\ redis w' = redis w /\ files w' = files w.
Proof.
  intros Hnone. unfold rollback_migration, bind, logger at 1. cbv beta iota.
  match goal with |- context [migration_lock ?op ?body ?w0] =>
    set (w0' := w0);
    destruct (rollback_locked_outcome id (acquired_world op w0'))
      as (res & wb & tr & Hbody & Hout & Htr & Hre & Hfi);
    destruct (migration_lock_run op body w0' wb res Hnone Hbody Hre)
      as (w' & Hrun & Hdb & Hfi' & Hre' & Htr')
  end.
  exists res, w', tr. split; [exact Hrun|].
  split; [|split; [|split]].
  - rewrite Hdb. eapply rollback_outcome_ext; [| |exact Hout]; reflexivity.
  - rewrite Htr', Htr. subst w0'. unfold acquired_world, lock_token. cbn.
    rewrite <- !app_assoc. reflexivity.
  - rewrite Hre'. reflexivity.
  - rewrite Hfi', Hfi. reflexivity.
Qed.

Lemma rollback_with_held_lock (id : string) (w : World) :
  is_Some (redis w !! lock_key) ->
  exists e w',
    rollback_migration id w = (Raise e, w')
    /\ db w' = db w /\ redis w' = redis w
    /\ trace w' = (trace w ++ [EvSetNx lock_key (lock_token ("rollback_" ++ id) w) false;
                               EvGet lock_key])%list
    /\ forall v ex, redis w !! lock_key = Some (RStr v ex) ->
                    e = Exception ("Migration lock is held by: " ++ v).
Proof.
  intros Hheld. unfold rollback_migration, bind, logger at 1. cbv beta iota.
  match goal with |- context [migration_lock ?op ?body ?w0] =>
    destruct (migration_lock_busy op body w0 Hheld)
      as (e & w' & Hrun & Hdb & Hre & Hfi & Hlo & Htr & Hmsg)
  end.
  exists e, w'. split; [exact Hrun|]. repeat split; assumption.
Qed.

Lemma rollback_failure_det (id : string) (n : nat) (s : Schema) (row : Row.t)
    (msg1 msg2 : string) (tr1 tr2 : list Event) :
  rollback_failure id n s row msg1 tr1 ->
  rollback_failure id n s row msg2 tr2 ->
  msg1 = msg2 /\ tr1 = tr2.
Proof.
  intros H1 H2.
  destruct H1; destruct H2;
    repeat match goal with H : _ \/ _ |- _ => destruct H end;
    try congruence; split; congruence.
Qed.

Lemma rollback_outcome_ok (id : string) (w : World) (r : MigrationResult.t)
    (s : Store) (tr : list Event) :
  rollback_outcome id w (Ok r) s tr ->
  MigrationResult.migration_id r = id
  /\ MigrationResult.rollback_executed r = true.
Proof. intros H. inversion H; subst; auto. Qed.

Lemma rollback_failure_not_success (id : string) (n : nat) (s : Schema)
    (row : Row.t) (msg : string) (tr : list Event) (sql : string) (s' : Schema)
    (k : Z) :
  rollback_failure id n s row msg tr ->
  stmt_fault n = None -> Row.rollback_sql row = Some sql -> sql <> "" ->
  stmt_fault (S n) = None -> sql_exec sql s = inr (s', k) ->
  stmt_fault (S (S n)) = None -> False.
Proof.
  intros H. destruct H; intros;
    repeat match goal with H : _ \/ _ |- _ => destruct H end; congruence.
Qed.

(** The outcome is determined by the world the block starts in. *)
Lemma rollback_outcome_det (id : string) (w : World)
    (res1 res2 : Res MigrationResult.t) (s1 s2 : Store) (tr1 tr2 : list Event) :
  rollback_outcome id w res1 s1 tr1 ->
  rollback_outcome id w res2 s2 tr2 ->
  s1 = s2 /\ tr1 = tr2
  /\ match res1, res2 with
     | Ok r1, Ok r2 =>
         MigrationResult.success r1 = MigrationResult.success r2
         /\ MigrationResult.error_message r1 = MigrationResult.error_message r2
     | Raise e1, Raise e2 => e1 = e2
     | _, _ => False
     end.
Proof.
  intros H1 H2.
  destruct H1; destruct H2; try congruence;
    repeat match goal with
      | Ha : ledger (db w) = Some ?a, Hb : ledger (db w) = Some ?b |- _ =>
          assert (a = b) by congruence; subst b; clear Hb
      | Ha : ?l !! id = Some ?a, Hb : ?l !! id = Some ?b |- _ =>
          assert (a = b) by congruence; subst b; clear Hb
      end;
    try (exfalso; eapply rollback_failure_not_success; eassumption).
  - repeat split; congruence.
  - repeat split; congruence.
  - repeat split; congruence.
  - match goal with
    | Ha : rollback_failure _ _ _ _ _ _, Hb : rollback_failure _ _ _ _ _ _ |- _ =>
        destruct (rollback_failure_det _ _ _ _ _ _ _ _ Ha Hb) as [-> ->]
    end.
    repeat split; congruence.
  - assert (sql0 = sql) by congruence. subst sql0.
    assert (s'0 = s' /\ k0 = k) as [-> ->] by (split; congruence).
    repeat split; congruence.
Qed.

Lemma rollback_outcome_success (id : string) (w : World)
    (r : MigrationResult.t) (s : Store) (tr : list Event) :
  rollback_outcome id w (Ok r) s tr ->
  MigrationResult.success r = true ->
  exists (l : Ledger) (row : Row.t) (sql : string) (s' : Schema) (k : Z),
    ledger (db w) = Some l /\ l !! id = Some row
    /\ Row.rollback_sql row = Some sql /\ sql <> ""
    /\ sql_exec sql (schema (db w)) = inr (s', k)
    /\ s = {| schema := s'; ledger := Some (delete id l) |}
    /\ tr = (ledger_read ++
             [EvConnect; EvExecute (SelectRollbackSql id) true;
              EvExecute (SqlText sql) true; EvExecute (DeleteLedger id) true;
              EvCommit; EvCommit])%list.
Proof.
  intros H Hs. inversion H; subst; [congruence|].
  exists l, row, sql, s', k. repeat split; assumption.
Qed.

(** C3. A successful [rollback_migration] of [id] found the row of [id] in
    the ledger with a non-empty rollback SQL, executed exactly that text,
    deleted the row in the same transaction (one commit after both), left
    the other rows alone and returns [rollback_executed = true].  The
    migration files play no part: with any other content of the
    migrations directory the same call succeeds with the same statements
    and the same database. *)
Theorem successful_rollback_runs_ledger_sql (id : string) (w w' : World)
    (r : MigrationResult.t) :
  rollback_migration id w = (Ok r, w') ->
  MigrationResult.success r = true ->
  exists (l : Ledger) (row : Row.t) (sql : string) (s' : Schema) (k : Z),
    ledger (db w) = Some l /\ l !! id = Some row
    /\ Row.rollback_sql row = Some sql /\ sql <> ""
    /\ sql_exec sql (schema (db w)) = inr (s', k)
    /\ db w' = {| schema := s'; ledger := Some (delete id l) |}
    /\ MigrationResult.rollback_executed r = true
    /\ trace w' =
         (trace w ++
          EvSetNx lock_key (lock_token ("rollback_" ++ id) w) true
          :: ledger_read ++
          [EvConnect; EvExecute (SelectRollbackSql id) true;
           EvExecute (SqlText sql) true; EvExecute (DeleteLedger id) true;
           EvCommit; EvCommit; EvGet lock_key; EvDelete lock_key])%list
    /\ forall fs, exists r2 w2,
         rollback_migration id (set_files fs w) = (Ok r2, w2)
         /\ MigrationResult.success r2 = true
         /\ db w2 = db w' /\ trace w2 = trace w'.
Proof.
  intros Hrun Hsucc.
  destruct (redis w !! lock_key) as [v|] eqn:Hk.
  { assert (Hheld : is_Some (redis w !! lock_key)) by eauto.
    destruct (rollback_with_held_lock id w Hheld) as (e & w0 & Heq & _).
    congruence. }
  destruct (rollback_with_free_lock id w Hk)
    as (res & w0 & tr & Heq & Hout & Htr & Hre & Hfi).
  rewrite Hrun in Heq. injection Heq as <- <-.
  destruct (rollback_outcome_success _ _ _ _ _ Hout Hsucc)
    as (l & row & sql & s' & k & Hl & Hrow & Hsql & Hne & Hx & Hdb & Htreq).
  exists l, row, sql, s', k.
  do 5 (split; [assumption|]). split; [exact Hdb|].
  split; [apply rollback_outcome_ok in Hout; tauto|].
  split; [rewrite Htr, Htreq; unfold ledger_read; cbn; reflexivity|].
  intros fs.
  destruct (rollback_with_free_lock id (set_files fs w) Hk)
    as (res2 & w2 & tr2 & Heq2 & Hout2 & Htr2 & _ & _).
  apply (rollback_outcome_ext id _ w) in Hout2; [|reflexivity..].
  destruct (rollback_outcome_det _ _ _ _ _ _ _ _ Hout Hout2) as (Hs & Ht & Hres).
  destruct res2 as [r2|e2]; [|contradiction]. destruct Hres as [Hsu _].
  exists r2, w2. split; [exact Heq2|]. split; [congruence|].
  split; [congruence|]. rewrite Htr2, Htr, Ht. reflexivity.
Qed.

(** C10. When the row of [id] carries rollback SQL and the execution of
    that SQL, or the delete of the row after it, raises, the transaction
    is rolled back: the committed database is exactly as before, so the
    row of [id] is still in the ledger; the call returns a result with
    [success = false], the error text, and [rollback_executed = true]. *)
Theorem failed_rollback_keeps_row_and_sets_flag (id : string) (w : World)
    (l : Ledger) (row : Row.t) (sql msg : string) :
  redis w !! lock_key = None ->
  stmt_fault (stmts w) = None ->
  ledger (db w) = Some l -> l !! id = Some row ->
  stmt_fault (S (stmts w)) = None ->
  Row.rollback_sql row = Some sql -> sql <> "" ->
  (stmt_fault (S (S (stmts w))) = Some msg
   \/ (stmt_fault (S (S (stmts w))) = None
       /\ sql_exec sql (schema (db w)) = inl msg)
   \/ (stmt_fault (S (S (stmts w))) = None
       /\ (exists s' k, sql_exec sql (schema (db w)) = inr (s', k))
       /\ stmt_fault (S (S (S (stmts w)))) = Some msg)) ->
  exists r w' tr,
    rollback_migration id w = (Ok r, w')
    /\ MigrationResult.success r = false
    /\ MigrationResult.rollback_executed r = true
    /\ MigrationResult.error_message r = Some msg
    /\ db w' = db w
    /\ (exists l', ledger (db w') = Some l' /\ l' !! id = Some row)
    /\ trace w' =
         (trace w ++
          EvSetNx lock_key (lock_token ("rollback_" ++ id) w) true
          :: ledger_read ++ EvConnect :: tr
          ++ [EvRollback; EvGet lock_key; EvDelete lock_key])%list
    /\ (In (EvExecute (SqlText sql) false) tr
        \/ In (EvExecute (DeleteLedger id) false) tr).
Proof.
  intros Hk F0 Hl Hrow F1 Hsql Hne Hraise.
  destruct (rollback_with_free_lock id w Hk)
    as (res & w' & tr & Heq & Hout & Htr & Hre & Hfi).
  assert (Hexp : exists tr0,
             rollback_failure id (S (stmts w)) (schema (db w)) row msg tr0
             /\ (In (EvExecute (SqlText sql) false) tr0
                 \/ In (EvExecute (DeleteLedger id) false) tr0)).
  { destruct Hraise as [F2|[[F2 Hx]|(F2 & (s' & k & Hx) & F3)]].
    - eexists. split; [eapply rf_execute_fault; eassumption|]. left. cbn. auto.
    - eexists. split; [eapply rf_execute_error; eassumption|]. left. cbn. auto.
    - eexists. split; [eapply rf_delete_fault; eassumption|]. right. cbn. auto. }
  destruct Hexp as (tr0 & Hfail & Hin).
  pose (r0 := MigrationResult.mk id false 0 (Some msg) 0 true).
  assert (Hout0 : rollback_outcome id w (Ok r0) (db w)
                    (ledger_read ++ EvConnect :: tr0 ++ [EvRollback]))
    by (eapply ro_failed; eauto).
  destruct (rollback_outcome_det _ _ _ _ _ _ _ _ Hout0 Hout) as (Hs & Ht & Hres).
  destruct res as [r|e]; [|contradiction]. destruct Hres as [Hsu Herr].
  apply rollback_outcome_ok in Hout as [_ Hflag].
  exists r, w', tr0. split; [exact Heq|]. split; [symmetry; exact Hsu|].
  split; [exact Hflag|]. split; [symmetry; exact Herr|].
  split; [symmetry; exact Hs|].
  split; [exists l; rewrite <- Hs; auto|].
  split; [|exact Hin].
  rewrite Htr, <- Ht. unfold ledger_read. cbn. rewrite <- ?app_assoc. reflexivity.
Qed.

(** C2, as the code has it.  [rollback_migration] takes the lock first and
    examines the ledger while holding it.  With the lock held by someone
    else the call raises the lock-held error and the ledger is not read.
    With the lock granted: an id absent from the ledger raises the
    not-applied error, and the lease is given back; a row whose rollback
    SQL is NULL or empty raises nothing: the call returns a failed result
    ([success = false], [rollback_executed = true], the text "No rollback
    SQL available ..."), the database is unchanged and the lease is given
    back. *)
Theorem rollback_preconditions_checked_under_lock (id : string) (w : World) :
  (is_Some (redis w !! lock_key) ->
   exists e w',
     rollback_migration id w = (Raise e, w')
     /\ db w' = db w /\ redis w' = redis w
     /\ trace w' = (trace w ++
                    [EvSetNx lock_key (lock_token ("rollback_" ++ id) w) false;
                     EvGet lock_key])%list
     /\ forall v ex, redis w !! lock_key = Some (RStr v ex) ->
                     e = Exception ("Migration lock is held by: " ++ v))
  /\ (redis w !! lock_key = None ->
      stmt_fault (stmts w) = None ->
      forall l : Ledger, ledger (db w) = Some l ->
        (l !! id = None ->
         exists w',
           rollback_migration id w =
             (Raise (ValueError ("Migration " ++ id ++ " was not applied")), w')
           /\ db w' = db w /\ redis w' = redis w
           /\ trace w' =
                (trace w ++
                 EvSetNx lock_key (lock_token ("rollback_" ++ id) w) true
                 :: ledger_read ++ [EvGet lock_key; EvDelete lock_key])%list)
        /\ (forall row,
              l !! id = Some row ->
              stmt_fault (S (stmts w)) = None ->
              Row.rollback_sql row = None \/ Row.rollback_sql row = Some "" ->
              exists r w',
                rollback_migration id w = (Ok r, w')
                /\ MigrationResult.success r = false
                /\ MigrationResult.rollback_executed r = true
                /\ MigrationResult.error_message r =
                     Some ("No rollback SQL available for migration " ++ id)
                /\ db w' = db w /\ redis w' = redis w
                /\ trace w' =
                     (trace w ++
                      EvSetNx lock_key (lock_token ("rollback_" ++ id) w) true
                      :: ledger_read ++
                      [EvConnect; EvExecute (SelectRollbackSql id) true;
                       EvRollback; EvGet lock_key; EvDelete lock_key])%list)).
Proof.
  split; [apply rollback_with_held_lock|].
  intros Hk F0 l Hl.
  destruct (rollback_with_free_lock id w Hk)
    as (res & w' & tr & Heq & Hout & Htr & Hre & Hfi).
  split.
  - intros Hnone.
    assert (Hout0 : rollback_outcome id w
                      (Raise (ValueError ("Migration " ++ id ++ " was not applied")))
                      (db w) ledger_read)
      by (eapply ro_not_applied; eauto).
    destruct (rollback_outcome_det _ _ _ _ _ _ _ _ Hout0 Hout) as (Hs & Ht & Hres).
    destruct res as [r|e]; [contradiction|]. subst e.
    exists w'. split; [exact Heq|]. split; [symmetry; exact Hs|].
    split; [exact Hre|]. rewrite Htr, <- Ht. unfold ledger_read. reflexivity.
  - intros row Hrow F1 Hsql.
    pose (r0 := MigrationResult.mk id false 0
                  (Some ("No rollback SQL available for migration " ++ id)) 0 true).
    assert (Hout0 : rollback_outcome id w (Ok r0) (db w)
                      (ledger_read ++ EvConnect
                       :: [EvExecute (SelectRollbackSql id) true] ++ [EvRollback])).
    { eapply ro_failed; eauto. apply rf_no_rollback_sql; assumption. }
    destruct (rollback_outcome_det _ _ _ _ _ _ _ _ Hout0 Hout) as (Hs & Ht & Hres).
    destruct res as [r|e]; [|contradiction]. destruct Hres as [Hsu Herr].
    apply rollback_outcome_ok in Hout as [_ Hflag].
    exists r, w'. split; [exact Heq|]. split; [symmetry; exact Hsu|].
    split; [exact Hflag|]. split; [symmetry; exact Herr|].
    split; [symmetry; exact Hs|]. split; [exact Hre|].
    rewrite Htr, <- Ht. unfold ledger_read. reflexivity.
Qed.


(* ===================================================================== *)
(** ** Further properties of the manager *)
(* ===================================================================== *)

(** *** Entry checks of [apply_migrations] *)

Lemma known_strategies (strategy : string) :
  is_Some (lookup_strategy strategy strategies) <->
  strategy = "online" \/ strategy = "shadow_table" \/ strategy = "dual_write"
  \/ strategy = "maintenance".
Proof.
  split.
  - intros [f Hf].
    destruct (lookup_strategy_named _ _ Hf)
      as [[-> _] | [[-> _] | [[-> _] | [-> _]]]]; tauto.
  - intros [-> | [-> | [-> | ->]]]; eexists; reflexivity.
Qed.

(** X1. A strategy name other than the four registered ones is refused
    before anything is read or locked: the call raises [ValueError] and
    the world is untouched, for a dry run as for a real one. *)
Theorem unknown_strategy_is_refused_untouched (strategy : string)
    (dry_run : bool) (w : World) :
  strategy <> "online" -> strategy <> "shadow_table" ->
  strategy <> "dual_write" -> strategy <> "maintenance" ->
  apply_migrations strategy dry_run w =
    (Raise (ValueError ("Unknown migration strategy: " ++ strategy)), w).
Proof.
  intros H1 H2 H3 H4. unfold apply_migrations.
  destruct (lookup_strategy strategy strategies) as [f|] eqn:Hs; [|reflexivity].
  assert (Hk : is_Some (lookup_strategy strategy strategies)) by eauto.
  apply known_strategies in Hk. tauto.
Qed.

(** X2. On a database where [schema_migrations] does not exist yet, every
    call of [apply_migrations] with a known strategy raises the database
    error of the resolver's SELECT: [_ensure_migration_table] is not
    reached, the table is not created, no lock is requested. *)
Theorem apply_without_ledger_table_raises (strategy : string) (dry_run : bool)
    (w : World) :
  is_Some (lookup_strategy strategy strategies) ->
  stmt_fault (stmts w) = None ->
  ledger (db w) = None ->
  exists w',
    apply_migrations strategy dry_run w = (Raise (DbError no_table), w')
    /\ db w' = db w /\ redis w' = redis w
    /\ trace w' = (trace w ++ [EvConnect; EvExecute SelectApplied false; EvRollback])%list.
Proof.
  intros [f Hs] Hf Hl. unfold apply_migrations. rewrite Hs.
  unfold bind at 1. unfold get_pending_migrations. unfold bind at 1.
  rewrite load_migrations_spec.
  unfold bind at 1, get_applied_migrations, select_applied. run_prims.
  rewrite Hf. cbn. rewrite Hl. cbn.
  eexists. split; [reflexivity|]. cbn. repeat split. norm_app. reflexivity.
Qed.

(** *** The lock and the ledger table *)

(** X3. A real run that finds the lock held raises the lock error at once:
    nothing was executed, the database and the store are as before, and
    the only traffic is the resolver's read, one refused lock request and
    the read of the holder's token. *)
Theorem apply_with_held_lock_raises (strategy : string) (w w1 : World)
    (m : Migration.t) (ms : list Migration.t) (holder : string) (ex : option Z) :
  is_Some (lookup_strategy strategy strategies) ->
  get_pending_migrations w = (Ok (m :: ms), w1) ->
  redis w !! lock_key = Some (RStr holder ex) ->
  exists w',
    apply_migrations strategy false w =
      (Raise (Exception ("Migration lock is held by: " ++ holder)), w')
    /\ db w' = db w /\ redis w' = redis w
    /\ trace w' =
         (trace w ++ ledger_read ++
          [EvSetNx lock_key (lock_token ("apply_migrations_" ++ strategy) w) false;
           EvGet lock_key])%list.
Proof.
  intros [f Hs] Hp Hheld. unfold apply_migrations. rewrite Hs.
  unfold bind at 1. rewrite Hp.
  apply get_pending_inv in Hp as (Hfi & Hdb & Hre & Hti & l & Hf & Hl & Hpe & Htr & _).
  unfold bind at 1, logger at 1. cbv beta iota.
  match goal with |- context [migration_lock ?op ?body ?w0] =>
    destruct (migration_lock_busy op body w0)
      as (e & w' & Hrun & Hdb' & Hre' & Hfi' & Hlo' & Htr' & Hmsg);
      [cbn; rewrite Hre, Hheld; eauto|]
  end.
  rewrite Hrun. cbn in *.
  rewrite (Hmsg holder ex) by (rewrite Hre; exact Hheld).
  exists w'. split; [reflexivity|]. split; [congruence|]. split; [congruence|].
  rewrite Htr', Htr. unfold lock_token. cbn. rewrite Hti, <- app_assoc. reflexivity.
Qed.

(** X4. [_ensure_migration_table] is idempotent: on a database that has the
    ledger table it changes nothing that is committed; on one that has
    not, it creates the table empty and leaves the application objects
    alone; when one of its statements fails, nothing is committed. *)
Theorem ensure_table_creates_once (w : World) :
  exists r w',
    _ensure_migration_table w = (r, w')
    /\ files w' = files w /\ redis w' = redis w
    /\ schema (db w') = schema (db w)
    /\ match r with
       | Ok _ => ledger (db w') = Some (default ∅ (ledger (db w)))
       | Raise _ => db w' = db w
       end.
Proof.
  unfold _ensure_migration_table, create_ledger_table, create_ledger_index.
  run_prims. db_cases; eexists _, _; (split; [reflexivity|]); cbn; auto.
Qed.

(** X5. [migration_lock] gives the lease back however the block ends: for a
    block that leaves the coordination store alone, whether it returns
    or raises, the outcome of the block is the outcome of the call and
    the store is again as before the call. *)
Theorem lock_released_however_block_ends {A} (operation : string)
    (body : M A) (w wb : World) (r : Res A) :
  redis w !! lock_key = None ->
  body (acquired_world operation w) = (r, wb) ->
  redis wb = redis (acquired_world operation w) ->
  exists w',
    migration_lock operation body w = (r, w')
    /\ redis w' = redis w
    /\ db w' = db wb /\ files w' = files wb
    /\ trace w' = (trace wb ++ [EvGet lock_key; EvDelete lock_key])%list.
Proof.
  intros Hnone Hbody Hredis.
  destruct (migration_lock_run operation body w wb r Hnone Hbody Hredis)
    as (w' & Hrun & Hdb & Hfi & Hre & Htr).
  exists w'. auto.
Qed.

(** X6. While a lease is held, a second [migration_lock] is refused: inside
    the block of a first lock, any further lock request raises with the
    first holder's token, its block is not run, and the first lease is
    still given back at the end. *)
Theorem nested_lock_is_refused {A} (op1 op2 : string) (body : M A) (w : World) :
  redis w !! lock_key = None ->
  exists w',
    migration_lock op1 (migration_lock op2 body) w =
      (Raise (Exception ("Migration lock is held by: " ++ lock_token op1 w)), w')
    /\ redis w' = redis w /\ db w' = db w
    /\ trace w' =
         (trace w ++
          [EvSetNx lock_key (lock_token op1 w) true;
           EvSetNx lock_key (lock_token op2 (acquired_world op1 w)) false;
           EvGet lock_key; EvGet lock_key; EvDelete lock_key])%list.
Proof.
  intros Hnone.
  assert (Hheld : redis (acquired_world op1 w) !! lock_key
                  = Some (RStr (lock_token op1 w) (Some max_lock_time)))
    by (unfold acquired_world; cbn; apply lookup_insert_eq).
  destruct (migration_lock_busy op2 body (acquired_world op1 w))
    as (e & wb & Hrun & Hdb & Hre & Hfi & Hlo & Htr & Hmsg); [eauto|].
  rewrite (Hmsg _ _ Hheld) in Hrun.
  destruct (migration_lock_run op1 (migration_lock op2 body) w wb _ Hnone Hrun Hre)
    as (w' & Hrun' & Hdb' & Hfi' & Hre' & Htr').
  exists w'. split; [exact Hrun'|]. split; [exact Hre'|].
  split; [rewrite Hdb', Hdb; reflexivity|].
  rewrite Htr', Htr. unfold acquired_world at 1. cbn.
  rewrite <- !app_assoc. reflexivity.
Qed.


Ltac effect_leaf :=
  first
    [ exfalso; congruence
    | simplify_eq; eexists _, _; split; [reflexivity|]; cbn;
      repeat split; try reflexivity; norm_app; reflexivity ].

Lemma online_runs_effect (m : Migration.t) (w : World) :
  exists r w',
    _execute_online_migration m w = (Ok r, w')
    /\ MigrationResult.migration_id r = Migration.id m
    /\ MigrationResult.success r
       = oe_success (online_effect m (stmts w) (clock (S (ticks w))) (db w))
    /\ MigrationResult.error_message r
       = oe_error (online_effect m (stmts w) (clock (S (ticks w))) (db w))
    /\ MigrationResult.affected_rows r
       = oe_rows (online_effect m (stmts w) (clock (S (ticks w))) (db w))
    /\ MigrationResult.rollback_executed r = false
    /\ db w' = oe_db (online_effect m (stmts w) (clock (S (ticks w))) (db w))
    /\ trace w'
       = (trace w ++ oe_trace (online_effect m (stmts w) (clock (S (ticks w))) (db w)))%list
    /\ redis w' = redis w /\ files w' = files w.
Proof.
  unfold _execute_online_migration, online_effect, row_error.
  unfold bind, logger at 1, now at 1, try_except, with_connection, connect. cbn.
  rewrite run_forward_is_execute.
  unfold execute_sql, _record_migration, insert_ledger, recorded_row. run_prims.
  db_cases; effect_leaf.
Qed.

(** X7. The online strategy is atomic on its forward SQL: when that statement
    fails, in the engine or on the way to it, the transaction is rolled
    back, nothing is committed, and the result is a failure carrying the
    error text and no row count. *)
Theorem online_forward_failure_changes_nothing (m : Migration.t) (w : World)
    (msg : string) :
  stmt_fault (stmts w) = Some msg
  \/ (stmt_fault (stmts w) = None
      /\ sql_exec (Migration.sql_content m) (schema (db w)) = inl msg) ->
  exists r w',
    _execute_online_migration m w = (Ok r, w')
    /\ MigrationResult.success r = false
    /\ MigrationResult.error_message r = Some msg
    /\ MigrationResult.affected_rows r = 0
    /\ db w' = db w /\ redis w' = redis w
    /\ trace w' = (trace w ++ [EvConnect;
                               EvExecute (SqlText (Migration.sql_content m)) false;
                               EvRollback])%list.
Proof.
  intros H.
  destruct (online_runs_effect m w)
    as (r & w' & Heq & _ & Hs & He & Hr & _ & Hdb & Htr & Hre & _).
  exists r, w'. split; [exact Heq|].
  unfold online_effect in *.
  destruct H as [H|[H1 H2]].
  - rewrite H in *. cbn in *. auto 10.
  - rewrite H1, H2 in *. cbn in *. auto 10.
Qed.

(** X8. The online strategy commits the forward SQL before it records the
    migration: when the INSERT into the ledger then fails because a row
    with this id is already there, the result is a failure, the ledger
    is as before, but the forward SQL stays committed.  The error text is
    the duplicate-key error of the engine, or, when a value of the row
    does not fit its column, the length error the engine raises before
    it looks at the key. *)
Theorem online_failed_recording_keeps_forward_sql (m : Migration.t) (w : World)
    (s' : Schema) (k : Z) (l : Ledger) :
  stmt_fault (stmts w) = None ->
  sql_exec (Migration.sql_content m) (schema (db w)) = inr (s', k) ->
  stmt_fault (S (stmts w)) = None ->
  ledger (db w) = Some l ->
  is_Some (l !! Migration.id m) ->
  exists r w',
    _execute_online_migration m w = (Ok r, w')
    /\ MigrationResult.success r = false
    /\ MigrationResult.error_message r
       = Some (default "duplicate key value violates unique constraint"
                 (row_error m))
    /\ db w' = {| schema := s'; ledger := Some l |}.
Proof.
  intros F0 Hx F1 Hl [row Hrow].
  destruct (online_runs_effect m w)
    as (r & w' & Heq & _ & Hs & He & _ & _ & Hdb & _).
  exists r, w'. split; [exact Heq|].
  unfold online_effect in *. rewrite F0, Hx, F1, Hl, Hrow in *.
  destruct (row_error m); cbn in *; auto.
Qed.

(** X9. One successful online apply: for a migration without ledger row
    whose values fit the columns of the ledger table, on a database that
    has the table, when the engine accepts the forward SQL and no
    statement is lost, the result is a success carrying the row count of
    the forward SQL, the application objects are those the SQL produces,
    and the ledger gains exactly the row of the migration, with its
    checksum and its rollback SQL; every other row is as before. *)
Theorem online_success_records_one_row (m : Migration.t) (w : World)
    (s' : Schema) (k : Z) (l : Ledger) :
  stmt_fault (stmts w) = None ->
  sql_exec (Migration.sql_content m) (schema (db w)) = inr (s', k) ->
  stmt_fault (S (stmts w)) = None ->
  ledger (db w) = Some l ->
  row_error m = None ->
  l !! Migration.id m = None ->
  exists r w' row,
    _execute_online_migration m w = (Ok r, w')
    /\ MigrationResult.success r = true
    /\ MigrationResult.error_message r = None
    /\ MigrationResult.affected_rows r = k
    /\ db w' = {| schema := s'; ledger := Some (<[Migration.id m := row]> l) |}
    /\ Row.id row = Migration.id m
    /\ Row.checksum row = _calculate_migration_checksum m
    /\ Row.rollback_sql row = Migration.rollback_sql m
    /\ forall id, id <> Migration.id m ->
                  (<[Migration.id m := row]> l) !! id = l !! id.
Proof.
  intros F0 Hx F1 Hl Hfit Hnone.
  destruct (online_runs_effect m w)
    as (r & w' & Heq & _ & Hs & He & Hr & _ & Hdb & _).
  exists r, w', (recorded_row m (clock (S (ticks w)))). split; [exact Heq|].
  unfold online_effect in *. rewrite F0, Hx, F1, Hl, Hfit, Hnone in *. cbn in *.
  repeat split; try assumption.
  intros id Hid. apply lookup_insert_ne. congruence.
Qed.

(** X10. The dual-write strategy is the online strategy: on the same world
    both give the same success flag, error text and row count, the same
    committed database, the same coordination store and the same
    effects. *)
Theorem dual_write_is_online (m : Migration.t) (w : World) :
  exists r1 w1 r2 w2,
    _execute_online_migration m w = (Ok r1, w1)
    /\ _execute_dual_write_migration m w = (Ok r2, w2)
    /\ MigrationResult.migration_id r2 = MigrationResult.migration_id r1
    /\ MigrationResult.success r2 = MigrationResult.success r1
    /\ MigrationResult.error_message r2 = MigrationResult.error_message r1
    /\ MigrationResult.affected_rows r2 = MigrationResult.affected_rows r1
    /\ db w2 = db w1 /\ redis w2 = redis w1 /\ trace w2 = trace w1.
Proof.
  destruct (online_runs_effect m w)
    as (r1 & w1 & Heq1 & Hid1 & Hs1 & He1 & Hr1 & _ & Hdb1 & Htr1 & Hre1 & _).
  unfold _execute_dual_write_migration, bind, logger at 1. cbv beta iota.
  match goal with |- context [_execute_online_migration m (?f ?l ?x)] =>
    destruct (online_runs_effect m (f l x))
      as (r2 & w2 & Heq2 & Hid2 & Hs2 & He2 & Hr2 & _ & Hdb2 & Htr2 & Hre2 & _)
  end.
  rewrite Heq2. cbn in Hid2, Hs2, He2, Hr2, Hdb2, Htr2, Hre2.
  exists r1, w1, r2, w2. split; [exact Heq1|]. split; [reflexivity|].
  repeat split; congruence.
Qed.

(** X11. The maintenance strategy raises the flag [spr:maintenance:required]
    (value "true", TTL 3600) and then is the online strategy; the flag is
    still there when the call returns, also when the migration failed,
    and no other key of the store is changed. *)
Theorem maintenance_is_online_with_flag (m : Migration.t) (w : World) :
  exists r1 w1 r2 w2,
    _execute_online_migration m w = (Ok r1, w1)
    /\ _execute_maintenance_migration m w = (Ok r2, w2)
    /\ MigrationResult.success r2 = MigrationResult.success r1
    /\ MigrationResult.error_message r2 = MigrationResult.error_message r1
    /\ MigrationResult.affected_rows r2 = MigrationResult.affected_rows r1
    /\ db w2 = db w1
    /\ redis w2 = <["spr:maintenance:required" := RStr "true" (Some 3600)]> (redis w)
    /\ exists tr, trace w1 = (trace w ++ tr)%list
                  /\ trace w2 = (trace w ++ EvSet "spr:maintenance:required" "true"
                                   :: tr)%list.
Proof.
  destruct (online_runs_effect m w)
    as (r1 & w1 & Heq1 & Hid1 & Hs1 & He1 & Hr1 & _ & Hdb1 & Htr1 & Hre1 & _).
  unfold _execute_maintenance_migration, bind, logger at 1, redis_set.
  cbv beta iota.
  match goal with |- context [_execute_online_migration m (?f ?l ?x)] =>
    destruct (online_runs_effect m (f l x))
      as (r2 & w2 & Heq2 & Hid2 & Hs2 & He2 & Hr2 & _ & Hdb2 & Htr2 & Hre2 & _)
  end.
  rewrite Heq2. cbn in Hid2, Hs2, He2, Hr2, Hdb2, Htr2, Hre2.
  exists r1, w1, r2, w2. split; [exact Heq1|]. split; [reflexivity|].
  split; [congruence|]. split; [congruence|]. split; [congruence|].
  split; [congruence|]. split; [exact Hre2|].
  eexists. split; [exact Htr1|]. rewrite Htr2, <- app_assoc. reflexivity.
Qed.

(** *** The shadow-table strategy *)

Lemma replace_absent (old new s : string) :
  PyStr.contains old s = false -> PyStr.replace old new s = s.
Proof.
  unfold PyStr.replace.
  induction s as [|c s IH]; [reflexivity|].
  cbn [PyStr.contains PyStr.replace_go]. intros H.
  apply orb_false_iff in H as [Hp Hc].
  rewrite Hp, (IH Hc). reflexivity.
Qed.

Ltac shadow_leaf :=
  eexists _, _; split; [reflexivity|]; cbn; repeat split; reflexivity.

(** X12. The shadow-table strategy always returns a result, never reports a
    row count (the field keeps its default 0, also on success), never
    sets the rollback flag and leaves the coordination store and the
    files alone. *)
Theorem shadow_never_reports_rows (m : Migration.t) (w : World) :
  exists r w',
    _execute_shadow_table_migration m w = (Ok r, w')
    /\ MigrationResult.affected_rows r = 0
    /\ MigrationResult.rollback_executed r = false
    /\ redis w' = redis w /\ files w' = files w.
Proof.
  unfold _execute_shadow_table_migration.
  destruct (PyStr.contains "ALTER TABLE" _);
    unfold execute_sql, execute_begin, execute_commit, _record_migration,
      insert_ledger; run_prims; db_cases; shadow_leaf.
Qed.

Ltac same_leaf :=
  intros; cbn in *; simplify_eq;
  first
    [ exfalso; congruence
    | eexists _, _; split; [reflexivity|]; cbn;
      repeat split; try congruence; norm_app; congruence ].

(** X13. On a text with neither CREATE TABLE nor (in any case) ALTER TABLE the
    shadow-table strategy is the online strategy without the row count:
    it runs the text unchanged, and success flag, error text, committed
    database and effects are those of the online strategy. *)
Theorem shadow_without_table_statement_is_online (m : Migration.t) (w : World) :
  PyStr.contains "CREATE TABLE" (Migration.sql_content m) = false ->
  PyStr.contains "ALTER TABLE" (PyStr.upper (Migration.sql_content m)) = false ->
  exists r1 w1 r2 w2,
    _execute_online_migration m w = (Ok r1, w1)
    /\ _execute_shadow_table_migration m w = (Ok r2, w2)
    /\ MigrationResult.success r2 = MigrationResult.success r1
    /\ MigrationResult.error_message r2 = MigrationResult.error_message r1
    /\ MigrationResult.affected_rows r2 = 0
    /\ db w2 = db w1 /\ redis w2 = redis w1 /\ trace w2 = trace w1.
Proof.
  intros Hc Ha.
  destruct (online_runs_effect m w)
    as (r1 & w1 & Heq1 & _ & Hs1 & He1 & _ & _ & Hdb1 & Htr1 & Hre1 & _).
  exists r1, w1. rewrite Heq1. clear Heq1.
  unfold online_effect, row_error in *.
  unfold _execute_shadow_table_migration.
  rewrite (replace_absent _ _ _ Hc), Ha.
  unfold execute_sql, _record_migration, insert_ledger, recorded_row in *.
  run_prims.
  revert Hs1 He1 Hdb1 Htr1 Hre1.
  db_cases; same_leaf.
Qed.


(** X14. When the text holds ALTER TABLE, the shadow-table strategy copies the
    table into [shadow_<table>] right after the forward SQL; when that
    copy fails, in the engine or on the way to it, the forward SQL is
    rolled back with it: the result is a failure with the error text and
    the committed database is as before. *)
Theorem shadow_copy_failure_changes_nothing (m : Migration.t) (w : World)
    (s1 : Schema) (k : Z) (msg : string) :
  let forward := PyStr.replace "CREATE TABLE" "CREATE TABLE shadow_"
                   (Migration.sql_content m) in
  let table := _extract_table_name (Migration.sql_content m) in
  let copy := "INSERT INTO shadow_" ++ table ++ " SELECT * FROM " ++ table in
  PyStr.contains "ALTER TABLE" (PyStr.upper (Migration.sql_content m)) = true ->
  stmt_fault (stmts w) = None ->
  sql_exec forward (schema (db w)) = inr (s1, k) ->
  stmt_fault (S (stmts w)) = Some msg
  \/ (stmt_fault (S (stmts w)) = None /\ sql_exec copy s1 = inl msg) ->
  exists r w',
    _execute_shadow_table_migration m w = (Ok r, w')
    /\ MigrationResult.success r = false
    /\ MigrationResult.error_message r = Some msg
    /\ db w' = db w
    /\ trace w' = (trace w ++ [EvConnect; EvExecute (SqlText forward) true;
                               EvExecute (SqlText copy) false; EvRollback])%list.
Proof.
  intros forward table copy Ha F0 Hx Hcopy.
  subst forward table copy.
  unfold _execute_shadow_table_migration. rewrite Ha.
  unfold execute_sql at 1 2. run_prims. rewrite F0. cbn. rewrite Hx. cbn.
  destruct Hcopy as [F1|[F1 Hc]]; rewrite F1; cbn; [|rewrite Hc; cbn];
    (eexists _, _; split; [reflexivity|]; cbn;
     repeat split; norm_app; reflexivity).
Qed.

(** X15. The statements of a shadow-table migration on an ALTER TABLE text
    when nothing fails, in order: the forward SQL, the copy into the
    shadow table, BEGIN, DROP TABLE, the RENAME of the shadow table,
    COMMIT, then the commit of the connection, the INSERT into the ledger,
    the second commit and the commit that ends the connection block.  The
    values of the row fit the columns of the ledger table and no row has
    its id, so the INSERT is accepted: the result is a success and the
    ledger gains the row of the migration. *)
Theorem shadow_swap_statements_in_order (m : Migration.t) (w : World)
    (s1 s2 s3 s4 : Schema) (k1 k2 k3 k4 : Z) (l : Ledger) :
  let forward := PyStr.replace "CREATE TABLE" "CREATE TABLE shadow_"
                   (Migration.sql_content m) in
  let table := _extract_table_name (Migration.sql_content m) in
  let copy := "INSERT INTO shadow_" ++ table ++ " SELECT * FROM " ++ table in
  let drop := "DROP TABLE " ++ table in
  let rename := "ALTER TABLE shadow_" ++ table ++ " RENAME TO " ++ table in
  PyStr.contains "ALTER TABLE" (PyStr.upper (Migration.sql_content m)) = true ->
  (forall j, (j < 7)%nat -> stmt_fault (j + stmts w) = None) ->
  sql_exec forward (schema (db w)) = inr (s1, k1) ->
  sql_exec copy s1 = inr (s2, k2) ->
  sql_exec drop s2 = inr (s3, k3) ->
  sql_exec rename s3 = inr (s4, k4) ->
  ledger (db w) = Some l ->
  row_error m = None ->
  l !! Migration.id m = None ->
  exists r w' ts,
    _execute_shadow_table_migration m w = (Ok r, w')
    /\ MigrationResult.success r = true
    /\ db w' = {| schema := s4;
                  ledger := Some (<[Migration.id m := recorded_row m ts]> l) |}
    /\ trace w'
       = (trace w ++ [EvConnect;
                      EvExecute (SqlText forward) true;
                      EvExecute (SqlText copy) true;
                      EvExecute SqlBegin true;
                      EvExecute (SqlText drop) true;
                      EvExecute (SqlText rename) true;
                      EvExecute SqlCommit true;
                      EvCommit;
                      EvExecute (InsertLedger (Migration.id m)) true;
                      EvCommit;
                      EvCommit])%list.
Proof.
  intros forward table copy drop rename Ha F Hx1 Hx2 Hx3 Hx4 Hl Hfit Hnone.
  unfold row_error in Hfit.
  subst forward table copy drop rename.
  pose proof (F 0%nat ltac:(lia)) as F0. pose proof (F 1%nat ltac:(lia)) as F1.
  pose proof (F 2%nat ltac:(lia)) as F2. pose proof (F 3%nat ltac:(lia)) as F3.
  pose proof (F 4%nat ltac:(lia)) as F4. pose proof (F 5%nat ltac:(lia)) as F5.
  pose proof (F 6%nat ltac:(lia)) as F6. cbn in F0, F1, F2, F3, F4, F5, F6.
  unfold _execute_shadow_table_migration. rewrite Ha.
  unfold execute_sql, execute_begin, execute_commit, _record_migration,
    insert_ledger.
  run_prims. rewrite F0. cbn. rewrite Hx1. cbn. rewrite F1. cbn. rewrite Hx2. cbn.
  rewrite F2. cbn. rewrite F3. cbn. rewrite Hx3. cbn. rewrite F4. cbn.
  rewrite Hx4. cbn. rewrite F5. cbn. rewrite F6. cbn. rewrite Hl. cbn.
  rewrite Hfit. cbn. rewrite Hnone. cbn.
  eexists _, _, _. split; [reflexivity|]. cbn.
  repeat split; norm_app; reflexivity.
Qed.

(** *** The table name of a statement *)

Lemma word_after_table_skips (pre rest : list string) :
  Forall (fun x => PyStr.upper x <> "TABLE") pre ->
  word_after_table (pre ++ rest) = word_after_table rest.
Proof.
  induction 1 as [|x pre Hx _ IH]; [reflexivity|].
  cbn. apply String.eqb_neq in Hx. rewrite Hx. exact IH.
Qed.

(** X16. [_extract_table_name] answers with the word that follows the first
    word equal to TABLE, whatever its case, without the semicolons around
    it; later TABLE words are not looked at. *)
Theorem extract_table_name_takes_word_after_first_table
    (sql : string) (pre : list string) (word next : string) (rest : list string) :
  PyStr.words sql = (pre ++ word :: next :: rest)%list ->
  Forall (fun x => PyStr.upper x <> "TABLE") pre ->
  PyStr.upper word = "TABLE" ->
  _extract_table_name sql = PyStr.strip_chars ";" next.
Proof.
  intros Hw Hpre Hword. unfold _extract_table_name.
  rewrite Hw, (word_after_table_skips _ _ Hpre). cbn.
  apply String.eqb_eq in Hword. rewrite Hword. reflexivity.
Qed.

(** X17. [_extract_table_name] answers "unknown" when no word of the statement
    is TABLE, and also when the first TABLE is its last word. *)
Theorem extract_table_name_unknown
    (sql : string) (pre last : list string) :
  PyStr.words sql = (pre ++ last)%list ->
  Forall (fun x => PyStr.upper x <> "TABLE") pre ->
  last = [] \/ (exists word, last = [word] /\ PyStr.upper word = "TABLE") ->
  _extract_table_name sql = "unknown".
Proof.
  intros Hw Hpre Hlast. unfold _extract_table_name.
  rewrite Hw, (word_after_table_skips _ _ Hpre).
  destruct Hlast as [->|(word & -> & Hword)]; [reflexivity|].
  cbn. apply String.eqb_eq in Hword. rewrite Hword. reflexivity.
Qed.

(** *** The order and the defaults of loading *)

Lemma ltb_false_trans (a b c : string) :
  String.ltb b a = false -> String.ltb c b = false -> String.ltb c a = false.
Proof.
  unfold String.ltb. intros Hba Hcb.
  destruct (String.compare c a) eqn:Hca; try reflexivity.
  exfalso.
  apply OrderedTypeEx.String_as_OT.cmp_lt in Hca.
  destruct (String.compare b a) eqn:Hba'; try discriminate.
  - apply OrderedTypeEx.String_as_OT.cmp_eq in Hba'. subst b.
    apply OrderedTypeEx.String_as_OT.cmp_lt in Hca.
    unfold OrderedTypeEx.String_as_OT.cmp in Hca. rewrite Hca in Hcb. discriminate.
  - rewrite String.compare_antisym in Hba'.
    destruct (String.compare a b) eqn:Hab; try discriminate.
    apply OrderedTypeEx.String_as_OT.cmp_lt in Hab.
    pose proof (OrderedTypeEx.String_as_OT.lt_trans _ _ _ Hca Hab) as Hcb'.
    apply OrderedTypeEx.String_as_OT.cmp_lt in Hcb'.
    unfold OrderedTypeEx.String_as_OT.cmp in Hcb'. rewrite Hcb' in Hcb. discriminate.
Qed.

Lemma ltb_true_false (a b : string) :
  String.ltb a b = true -> String.ltb b a = false.
Proof.
  unfold String.ltb. rewrite (String.compare_antisym b a).
  destruct (String.compare a b); cbn; congruence.
Qed.

Lemma insert_sorted_ordered (f : File) (l : list File) :
  Sorted.StronglySorted (fun a b : File => String.ltb b.1 a.1 = false) l ->
  Sorted.StronglySorted (fun a b : File => String.ltb b.1 a.1 = false)
    (insert_sorted f l).
Proof.
  induction 1 as [|g l Hl IH Hg]; cbn.
  - constructor; constructor.
  - destruct (String.ltb f.1 g.1) eqn:Hfg.
    + constructor; [constructor; assumption|].
      constructor; [apply ltb_true_false; exact Hfg|].
      eapply Forall_impl; [exact Hg|]. cbn. intros h Hh.
      eapply ltb_false_trans; [|exact Hh]. apply ltb_true_false; exact Hfg.
    + constructor; [exact IH|].
      apply Forall_forall. intros h Hh.
      rewrite insert_sorted_perm in Hh.
      apply elem_of_cons in Hh as [->|Hh]; [exact Hfg|].
      rewrite Forall_forall in Hg. apply Hg, Hh.
Qed.

Lemma sorted_ordered (l : list File) :
  Sorted.StronglySorted (fun a b : File => String.ltb b.1 a.1 = false) (sorted l).
Proof.
  unfold sorted.
  assert (H : forall acc,
             Sorted.StronglySorted (fun a b : File => String.ltb b.1 a.1 = false) acc ->
             Sorted.StronglySorted (fun a b : File => String.ltb b.1 a.1 = false)
               (foldl (fun acc f => insert_sorted f acc) acc l)).
  { induction l as [|f l IH]; intros acc Hacc; cbn; [exact Hacc|].
    apply IH, insert_sorted_ordered, Hacc. }
  apply H. constructor.
Qed.

(** X18. The units come back from [load_migrations] in the order of their
    file names, compared as Python compares strings: the result is
    what parsing keeps of a list of the [*.sql] entries of the directory,
    each once, in which no later name is smaller than an earlier one. *)
Theorem load_order_follows_file_names (w : World) (entries : list File) :
  files w = Some entries ->
  exists fs w',
    load_migrations w = (Ok (omap parsed_unit fs), w')
    /\ fs ≡ₚ List.filter (fun f => PyStr.endswith ".sql" f.1) entries
    /\ forall i j f g, (i < j)%nat -> fs !! i = Some f -> fs !! j = Some g ->
                       String.ltb g.1 f.1 = false.
Proof.
  intros Hf. exists (sorted (glob_sql entries)). eexists.
  split; [rewrite load_migrations_spec, Hf; reflexivity|].
  split; [apply sorted_perm|].
  pose proof (sorted_ordered (glob_sql entries)) as Hs.
  revert Hs. generalize (sorted (glob_sql entries)). intros fs Hs.
  induction Hs as [|a fs Hs IH Ha]; intros i j f g Hij Hi Hj.
  - discriminate Hi.
  - destruct j as [|j]; [lia|]. cbn in Hj.
    destruct i as [|i]; cbn in Hi.
    + injection Hi as ->. rewrite Forall_forall in Ha. apply Ha.
      eapply list_elem_of_lookup_2; exact Hj.
    + eapply (IH i j); [lia|exact Hi|exact Hj].
Qed.


Lemma split_go_absent (sep : string) (cur : list ascii) (s : string) :
  PyStr.contains sep s = false ->
  PyStr.split_go sep 0 cur s
  = [string_of_list_ascii (List.rev cur ++ list_ascii_of_string s)].
Proof.
  revert cur. induction s as [|c s IH]; intros cur H.
  - cbn. rewrite app_nil_r. reflexivity.
  - cbn [PyStr.contains] in H. apply orb_false_iff in H as [Hp Hc].
    cbn [PyStr.split_go]. rewrite Hp, (IH _ Hc). cbn.
    rewrite <- app_assoc. reflexivity.
Qed.

Lemma split_absent (sep s : string) :
  PyStr.contains sep s = false -> PyStr.split sep s = [s].
Proof.
  intros H. unfold PyStr.split. rewrite (split_go_absent _ _ _ H). cbn.
  rewrite string_of_list_ascii_of_string. reflexivity.
Qed.

Lemma extract_lines_plain (lines : list string) (metadata : Meta.t) :
  Forall (fun line => PyStr.startswith "-- META:" (PyStr.strip line) = false) lines ->
  extract_lines lines metadata = Ok metadata.
Proof.
  induction 1 as [|line lines Hl _ IH]; [reflexivity|].
  cbn [extract_lines]. rewrite Hl. exact IH.
Qed.

(** X19. A readable file without a META line and without the ROLLBACK marker
    loads with the defaults: id and name are the file name without its
    suffix, the version is 1.0.0, the SQL is the stripped text, there is
    no rollback SQL, no flag is set, the estimated duration is 0 and
    there are no dependencies. *)
Theorem plain_file_loads_with_defaults (file_name content : string) :
  Forall (fun line => PyStr.startswith "-- META:" (PyStr.strip line) = false)
         (PyStr.split newline content) ->
  PyStr.contains "-- ROLLBACK:" content = false ->
  _parse_migration_file (file_name, Some content)
  = Ok (Some (Migration.mk (PyStr.stem_sql file_name) (PyStr.stem_sql file_name)
                "1.0.0" (PyStr.strip content) None false false 0 [])).
Proof.
  intros Hmeta Hrb. unfold _parse_migration_file, _extract_migration_metadata.
  cbn [read_text snd fst].
  rewrite (extract_lines_plain _ _ Hmeta), (split_absent _ _ Hrb).
  reflexivity.
Qed.

(** *** Applying and rolling back *)

(** X20. Round trip.  When the online strategy has applied a migration, a
    rollback of its id that finds the lock free, loses no statement and
    whose rollback SQL the engine accepts succeeds, runs the rollback SQL
    the migration was recorded with, and gives the ledger back as it was
    before the migration was applied. *)
Theorem rollback_after_apply_restores_ledger (m : Migration.t)
    (w w1 : World) (r1 : MigrationResult.t) (sql : string) (s'' : Schema) (k : Z) :
  _execute_online_migration m w = (Ok r1, w1) ->
  MigrationResult.success r1 = true ->
  Migration.rollback_sql m = Some sql -> sql <> "" ->
  redis w1 !! lock_key = None ->
  (forall j, (j < 4)%nat -> stmt_fault (j + stmts w1) = None) ->
  sql_exec sql (schema (db w1)) = inr (s'', k) ->
  exists r2 w2,
    rollback_migration (Migration.id m) w1 = (Ok r2, w2)
    /\ MigrationResult.success r2 = true
    /\ MigrationResult.rollback_executed r2 = true
    /\ ledger (db w2) = ledger (db w)
    /\ schema (db w2) = s''.
Proof.
  intros Hrun Hs Hrb Hne Hfree F Hx.
  destruct (online_post m w) as (r & w' & Hrun' & _ & _ & _ & Hled).
  rewrite Hrun in Hrun'. injection Hrun' as <- <-. rewrite Hs in Hled.
  destruct Hled as (l & ts & Hl & Hnone & Hl1).
  pose proof (F 0%nat ltac:(lia)) as F0. pose proof (F 1%nat ltac:(lia)) as F1.
  pose proof (F 2%nat ltac:(lia)) as F2. pose proof (F 3%nat ltac:(lia)) as F3.
  cbn in F0, F1, F2, F3.
  destruct (rollback_with_free_lock (Migration.id m) w1 Hfree)
    as (res & w2 & tr & Hroll & Hout & _).
  assert (Hgood :
    rollback_outcome (Migration.id m) w1
      (Ok (MigrationResult.mk (Migration.id m) true 0 None 0 true))
      {| schema := s'';
         ledger := Some (delete (Migration.id m)
                           (<[Migration.id m := recorded_row m ts]> l)) |}
      (ledger_read ++
         [EvConnect; EvExecute (SelectRollbackSql (Migration.id m)) true;
          EvExecute (SqlText sql) true;
          EvExecute (DeleteLedger (Migration.id m)) true;
          EvCommit; EvCommit])%list).
  { eapply (ro_rolled_back _ _ _ (recorded_row m ts) sql s'' k);
      [exact F0|exact Hl1|apply lookup_insert_eq|exact F1|exact Hrb|exact Hne
      |exact F2|exact Hx|exact F3|reflexivity..]. }
  destruct (rollback_outcome_det _ _ _ _ _ _ _ _ Hout Hgood) as (Hdb & _ & Hres).
  destruct res as [r2|e]; [|contradiction].
  destruct Hres as [Hs2 _]. cbn in Hs2.
  exists r2, w2. split; [exact Hroll|]. split; [exact Hs2|].
  split; [eapply rollback_outcome_ok; exact Hout|].
  rewrite Hdb. cbn. split; [|reflexivity].
  rewrite delete_insert_eq, delete_id by exact Hnone. symmetry. exact Hl.
Qed.


(** *** What a run leaves in the coordination store *)

Lemma shadow_keeps_store (m : Migration.t) (w : World) :
  exists r w',
    _execute_shadow_table_migration m w = (Ok r, w') /\ redis w' = redis w.
Proof.
  unfold _execute_shadow_table_migration.
  destruct (PyStr.contains "ALTER TABLE" _);
    unfold execute_sql, execute_begin, execute_commit, _record_migration,
      insert_ledger; run_prims; db_cases;
    (eexists _, _; split; reflexivity).
Qed.

Lemma strategy_keeps_keys (strategy : string)
    (f : Migration.t -> M MigrationResult.t) (m : Migration.t) (w : World) :
  lookup_strategy strategy strategies = Some f ->
  exists r w',
    f m w = (Ok r, w')
    /\ forall k, k <> "spr:maintenance:required" -> redis w' !! k = redis w !! k.
Proof.
  intros H.
  destruct (lookup_strategy_named _ _ H) as [[_ ->]|[[_ ->]|[[_ ->]|[_ ->]]]].
  - destruct (online_runs_effect m w)
      as (r & w' & Heq & _ & _ & _ & _ & _ & _ & _ & Hre & _).
    exists r, w'. split; [exact Heq|]. intros k _. rewrite Hre. reflexivity.
  - destruct (shadow_keeps_store m w) as (r & w' & Heq & Hre).
    exists r, w'. split; [exact Heq|]. intros k _. rewrite Hre. reflexivity.
  - unfold _execute_dual_write_migration, bind, logger at 1. cbv beta iota.
    match goal with |- context [_execute_online_migration m (?g ?l ?x)] =>
      destruct (online_runs_effect m (g l x))
        as (r & w' & Heq & _ & _ & _ & _ & _ & _ & _ & Hre & _)
    end.
    exists r, w'. split; [exact Heq|]. intros k _. rewrite Hre. reflexivity.
  - unfold _execute_maintenance_migration, bind, logger at 1, redis_set.
    cbv beta iota.
    match goal with |- context [_execute_online_migration m (?g ?l ?x)] =>
      destruct (online_runs_effect m (g l x))
        as (r & w' & Heq & _ & _ & _ & _ & _ & _ & _ & Hre & _)
    end.
    exists r, w'. split; [exact Heq|]. intros k Hk. rewrite Hre. cbn.
    apply lookup_insert_ne. congruence.
Qed.

Lemma apply_loop_keeps_keys (f : Migration.t -> M MigrationResult.t) :
  (forall m w, exists r w',
      f m w = (Ok r, w')
      /\ forall k, k <> "spr:maintenance:required" -> redis w' !! k = redis w !! k) ->
  forall (pending : list Migration.t) (results0 : list MigrationResult.t)
         (res : Res (list MigrationResult.t)) (w w' : World),
    apply_loop f pending results0 w = (res, w') ->
    forall k, k <> status_key -> k <> "spr:maintenance:required" ->
              redis w' !! k = redis w !! k.
Proof.
  intros Hf pending.
  induction pending as [|m rest IH]; intros results0 res w w' Hrun k Hk1 Hk2.
  - cbn in Hrun. unfold ret in Hrun. injection Hrun as <- <-. reflexivity.
  - revert Hrun.
    cbn [apply_loop]. unfold bind at 1 2 3. unfold logger at 1, now at 1. cbn.
    unfold redis_hset at 1. cbn.
    destruct (redis w !! status_key) as [[v ex|h]|]; cbn;
      [intros [= <- <-]; reflexivity| |];
      intros H; unfold bind at 1 in H;
      match type of H with context [f m ?W] =>
        destruct (Hf m W) as (r & w2 & Hfm & Hkeep); rewrite Hfm in H
      end;
      (destruct (MigrationResult.success r); cbn in H;
       [ unfold bind, logger in H; cbn in H;
         apply IH with (k := k) in H; [|assumption..];
         rewrite H; cbn; rewrite Hkeep by assumption; cbn;
         apply lookup_insert_ne; congruence
       | unfold publish_failed, bind, now, logger in H; cbn in H;
         destruct (MigrationResult.error_message r);
           [|injection H as <- <-; cbn; rewrite Hkeep by assumption; cbn;
             apply lookup_insert_ne; congruence];
         unfold redis_hset in H; cbn in H;
         destruct (redis w2 !! status_key) as [[?|?]|]; cbn in H;
           unfold ret in H; injection H as <- <-; cbn;
           rewrite ?lookup_insert_ne by congruence;
           rewrite Hkeep by assumption; cbn;
           apply lookup_insert_ne; congruence ]).
Qed.


Lemma ensure_table_keeps_store (w w' : World) (r : Res unit) :
  _ensure_migration_table w = (r, w') -> redis w' = redis w.
Proof.
  unfold _ensure_migration_table, create_ledger_table, create_ledger_index.
  run_prims. db_cases; cbn; intros [= <- <-]; reflexivity.
Qed.

Lemma migration_lock_ok_store {A} (operation : string) (body : M A)
    (w w' : World) (a : A) :
  migration_lock operation body w = (Ok a, w') ->
  exists wb,
    body (acquired_world operation w) = (Ok a, wb)
    /\ redis w !! lock_key = None
    /\ (redis wb !! lock_key
        = Some (RStr (lock_token operation w) (Some max_lock_time)) ->
        redis w' = delete lock_key (redis wb)).
Proof.
  unfold migration_lock, bind, now, redis_set_nx. cbn.
  destruct (redis w !! lock_key) as [v|] eqn:Hk; cbn.
  - unfold bind, redis_get, raise. cbn. rewrite Hk.
    destruct v; cbn; discriminate.
  - unfold logger at 1. cbn.
    destruct (body (acquired_world operation w)) as [r wb] eqn:Hbody.
    unfold acquired_world, lock_token in Hbody. cbn in Hbody.
    unfold max_lock_time, lock_token in *. rewrite Hbody.
    unfold bind, redis_get. cbn.
    destruct (redis wb !! lock_key) as [[v ex|h]|] eqn:Hwb; cbn.
    + destruct (bool_decide _) eqn:Hdec; unfold bind, redis_delete, logger, ret; cbn;
        intros [= -> <-]; exists wb; (split; [reflexivity|]); (split; [reflexivity|]);
        intros Hsame; [reflexivity|].
      exfalso. apply bool_decide_eq_false_1 in Hdec. apply Hdec.
      congruence.
    + discriminate.
    + rewrite bool_decide_eq_false_2 by discriminate. unfold ret.
      intros [= -> <-]. exists wb. split; [reflexivity|]. split; [reflexivity|].
      intros Hsame. congruence.
Qed.

(** X21. A run of [apply_migrations] that returns results leaves neither the
    lock nor the status in the coordination store, also when its last
    migration failed: the failed status written a moment before is
    deleted with the key.  Of the other keys only the maintenance flag
    can differ from before the run. *)
Theorem run_leaves_no_lock_and_no_status (strategy : string)
    (w w' : World) (results : list MigrationResult.t) :
  apply_migrations strategy false w = (Ok results, w') ->
  results <> [] ->
  redis w' !! lock_key = None
  /\ redis w' !! status_key = None
  /\ forall k, k <> lock_key -> k <> status_key ->
               k <> "spr:maintenance:required" ->
               redis w' !! k = redis w !! k.
Proof.
  unfold apply_migrations.
  destruct (lookup_strategy strategy strategies) as [f|] eqn:Hlook;
    [|discriminate].
  unfold bind at 1.
  destruct (get_pending_migrations w) as [[pending|e] w1] eqn:Hpend;
    [|discriminate].
  apply get_pending_inv in Hpend as (_ & _ & Hre1 & _).
  destruct pending as [|m0 rest].
  { unfold bind, logger, ret. cbn. intros [= <- <-] Hne. congruence. }
  unfold bind at 1, logger at 1. cbv beta iota.
  intros Hrun Hne.
  apply migration_lock_ok_store in Hrun as (wb & Hbody & Hfree & Hrel).
  revert Hbody. unfold bind at 1.
  destruct (_ensure_migration_table _) as [[[]|e] w2] eqn:Hens; [|discriminate].
  apply ensure_table_keeps_store in Hens.
  unfold bind at 1.
  destruct (apply_loop f (m0 :: rest) [] w2) as [[rs|e] w3] eqn:Hloop;
    [|discriminate].
  pose proof (apply_loop_keeps_keys f
                (fun m w => strategy_keeps_keys strategy f m w Hlook)
                _ _ _ _ _ Hloop) as Hkeep.
  unfold bind, redis_delete, ret. cbn. intros [= <- <-].
  cbn in Hrel.
  assert (Hlock : lock_key <> status_key) by discriminate.
  assert (Hmaint : lock_key <> "spr:maintenance:required") by discriminate.
  rewrite Hrel; cbn.
  - split; [apply lookup_delete_eq|].
    split; [rewrite lookup_delete_ne by exact Hlock; apply lookup_delete_eq|].
    intros k Hk1 Hk2 Hk3.
    rewrite !lookup_delete_ne by congruence.
    rewrite Hkeep by assumption. rewrite Hens.
    unfold acquired_world. cbn. rewrite lookup_insert_ne by congruence.
    rewrite Hre1. reflexivity.
  - rewrite lookup_delete_ne by congruence.
    rewrite Hkeep by assumption. rewrite Hens.
    unfold acquired_world. cbn. apply lookup_insert_eq.
Qed.

Lemma ensure_table_keeps_db (w w' : World) (r : Res unit) (l : Ledger) :
  _ensure_migration_table w = (r, w') ->
  ledger (db w) = Some l ->
  db w' = db w.
Proof.
  intros H Hl. revert H.
  unfold _ensure_migration_table, create_ledger_table, create_ledger_index.
  run_prims. db_cases; cbn; intros [= <- <-]; cbn; rewrite ?Hl; cbn;
    try reflexivity; destruct (db w); cbn in *; congruence.
Qed.

(** X22. A status key that holds a string instead of a hash blocks every run:
    whatever else happens, [apply_migrations] executes no migration (it
    returns no result or raises), the committed database is as before
    and the key still holds the string. *)
Theorem string_status_key_blocks_the_run (strategy : string)
    (w w' : World) (res : Res (list MigrationResult.t)) (v : string)
    (ex : option Z) :
  redis w !! status_key = Some (RStr v ex) ->
  apply_migrations strategy false w = (res, w') ->
  match res with
  | Ok results => results = []
  | Raise _ => True
  end
  /\ db w' = db w
  /\ redis w' = redis w.
Proof.
  intros Hst. unfold apply_migrations.
  destruct (lookup_strategy strategy strategies) as [f|] eqn:Hlook;
    [|unfold raise; intros [= <- <-]; auto].
  unfold bind at 1.
  destruct (get_pending_migrations w) as [[pending|e] w1] eqn:Hpend;
    apply get_pending_inv in Hpend as (_ & Hdb1 & Hre1 & _ & Hok);
    [|intros [= <- <-]; auto].
  destruct Hok as (l & _ & Hl & _).
  destruct pending as [|m0 rest].
  { unfold bind, logger, ret. cbn. intros [= <- <-]. auto. }
  unfold bind at 1, logger at 1. cbv beta iota.
  match goal with |- migration_lock ?op ?body ?w0 = _ -> _ =>
    set (w0' := w0); set (b := body);
    assert (Hdb0 : db w0' = db w) by exact Hdb1;
    assert (Hre0 : redis w0' = redis w) by exact Hre1
  end.
  destruct (redis w0' !! lock_key) as [held|] eqn:Hk.
  - destruct (migration_lock_busy ("apply_migrations_" ++ strategy) b w0'
                (ex_intro _ held Hk))
      as (e & w2 & Hrun & Hdb2 & Hre2 & _).
    rewrite Hrun. intros [= <- <-]. split; [exact I|]. split; congruence.
  - assert (Hbody : exists e wb,
               b (acquired_world ("apply_migrations_" ++ strategy) w0')
               = (Raise e, wb)
               /\ redis wb
                  = redis (acquired_world ("apply_migrations_" ++ strategy) w0')
               /\ db wb = db w0').
    { assert (Hl2 : ledger (db (acquired_world ("apply_migrations_" ++ strategy) w0'))
                    = Some l) by (cbn; rewrite Hdb1; exact Hl).
      subst b. unfold bind at 1.
      destruct (_ensure_migration_table _) as [[[]|e] w2] eqn:Hens;
        pose proof (ensure_table_keeps_store _ _ _ Hens) as Hre2;
        pose proof (ensure_table_keeps_db _ _ _ l Hens Hl2) as Hdb2.
      - assert (Hst2 : redis w2 !! status_key = Some (RStr v ex)).
        { rewrite Hre2. unfold acquired_world. cbn.
          rewrite lookup_insert_ne by discriminate. rewrite Hre1. exact Hst. }
        unfold bind at 1. cbn [apply_loop].
        unfold bind at 1 2 3. unfold logger at 1, now at 1. cbn.
        unfold redis_hset at 1. cbn. rewrite Hst2. cbn.
        eexists _, _. split; [reflexivity|]. cbn.
        split; [exact Hre2|exact Hdb2].
      - eexists _, _. split; [reflexivity|].
        split; [exact Hre2|exact Hdb2]. }
    destruct Hbody as (e & wb & Hb & Hreb & Hdbb).
    destruct (migration_lock_run _ b w0' wb (Raise e) Hk Hb Hreb)
      as (w2 & Hrun & Hdb2 & _ & Hre2 & _).
    rewrite Hrun. intros [= <- <-]. split; [exact I|]. split; congruence.
Qed.

(** *** The run of [apply_migrations], turn by turn *)

Lemma turn_world_facts (m : Migration.t) (w : World) :
  status_is_no_string w ->
  db (turn_world m w) = db w /\ files (turn_world m w) = files w
  /\ status_is_no_string (turn_world m w)
  /\ (forall k, k <> status_key -> redis (turn_world m w) !! k = redis w !! k)
  /\ trace (turn_world m w) = (trace w ++ [EvHset status_key])%list.
Proof.
  intros Hst. unfold turn_world, turn_prelude, bind, logger, now, redis_hset. cbn.
  destruct (redis w !! status_key) as [[v ex|h]|] eqn:Hk; cbn.
  - exfalso. eapply Hst; eauto.
  - repeat split; try reflexivity.
    + intros v ex. cbn. rewrite lookup_insert_eq. discriminate.
    + intros k Hk'. apply lookup_insert_ne. congruence.
  - repeat split; try reflexivity.
    + intros v ex. cbn. rewrite lookup_insert_eq. discriminate.
    + intros k Hk'. apply lookup_insert_ne. congruence.
Qed.

Lemma apply_loop_turn_success (f : Migration.t -> M MigrationResult.t)
    (m : Migration.t) (rest : list Migration.t) (rs0 : list MigrationResult.t)
    (w w2 : World) (r : MigrationResult.t) :
  status_is_no_string w ->
  f m (turn_world m w) = (Ok r, w2) ->
  MigrationResult.success r = true ->
  apply_loop f (m :: rest) rs0 w
  = apply_loop f rest (rs0 ++ [r]) (succeeded_world m w2).
Proof.
  intros Hst Hf Hs. revert Hf.
  unfold turn_world, turn_prelude, succeeded_world.
  cbn [apply_loop]. unfold bind at 1 2 3 4 5. unfold logger at 1 3, now at 1 2. cbn.
  unfold redis_hset at 1 2. cbn.
  destruct (redis w !! status_key) as [[v ex|h]|] eqn:Hk; cbn;
    [exfalso; eapply Hst; eauto| |];
    intros Hf; unfold bind at 1; rewrite Hf, Hs; cbn;
    unfold bind, logger; cbn; reflexivity.
Qed.


Lemma failed_world_facts (m : Migration.t) (r : MigrationResult.t) (w2 : World) :
  is_Some (MigrationResult.error_message r) ->
  status_is_no_string w2 ->
  bind (logger ERROR ("Migration " ++ Migration.id m
                      ++ " failed, stopping execution"))
       (fun _ => publish_failed (Migration.id m)
                   (MigrationResult.error_message r)) w2
  = (Ok tt, failed_world m r w2)
  /\ db (failed_world m r w2) = db w2
  /\ files (failed_world m r w2) = files w2
  /\ (forall k, k <> status_key ->
                redis (failed_world m r w2) !! k = redis w2 !! k)
  /\ trace (failed_world m r w2) = (trace w2 ++ [EvHset status_key])%list.
Proof.
  intros [msg Hmsg] Hst2. unfold failed_world.
  unfold publish_failed, bind, logger, now. cbn. rewrite Hmsg.
  unfold redis_hset. cbn.
  destruct (redis w2 !! status_key) as [[v2 ex2|h2]|] eqn:Hk2; cbn;
    [exfalso; eapply Hst2; eauto| |];
    (split; [reflexivity|]); (split; [reflexivity|]); (split; [reflexivity|]);
    (split; [|reflexivity]);
    intros k Hk'; apply lookup_insert_ne; congruence.
Qed.

Lemma apply_loop_turn_failure (f : Migration.t -> M MigrationResult.t)
    (m : Migration.t) (rest : list Migration.t) (rs0 : list MigrationResult.t)
    (w w2 : World) (r : MigrationResult.t) :
  status_is_no_string w ->
  f m (turn_world m w) = (Ok r, w2) ->
  MigrationResult.success r = false ->
  is_Some (MigrationResult.error_message r) ->
  status_is_no_string w2 ->
  apply_loop f (m :: rest) rs0 w = (Ok (rs0 ++ [r])%list, failed_world m r w2).
Proof.
  intros Hst Hf Hs Hmsg Hst2.
  destruct (failed_world_facts m r w2 Hmsg Hst2) as (Hfw & _).
  revert Hf. unfold turn_world, turn_prelude.
  cbn [apply_loop]. unfold bind at 1 2 3 4 5. unfold logger at 1 2, now at 1 2.
  cbn. unfold redis_hset at 1 2. cbn.
  destruct (redis w !! status_key) as [[v ex|h]|] eqn:Hk; cbn;
    [exfalso; eapply Hst; eauto| |];
    intros Hf; unfold bind at 1; rewrite Hf, Hs; cbn;
    unfold bind at 1 in Hfw; unfold logger at 1 in Hfw; cbv beta iota in Hfw;
    unfold bind at 1; rewrite Hfw; reflexivity.
Qed.

(** What the successful calls of a prefix leave: the loop is through the
    prefix, every migration of the prefix has its result and its row,
    nothing else has changed in the ledger. *)
Lemma succeeds_on_run (f : Migration.t -> M MigrationResult.t)
    (q : Migration.t -> string) :
  (forall m w, exists r w',
      f m w = (Ok r, w') /\ strategy_post (q m) m w r w') ->
  (forall m w, exists r w',
      f m w = (Ok r, w')
      /\ forall k, k <> "spr:maintenance:required" -> redis w' !! k = redis w !! k) ->
  forall (pre : list Migration.t) (w : World) (rs : list MigrationResult.t)
         (w1 : World),
    succeeds_on f pre w rs w1 ->
    forall l : Ledger,
      ledger (db w) = Some l ->
      status_is_no_string w ->
      (forall rest rs0,
          apply_loop f (pre ++ rest) rs0 w = apply_loop f rest (rs0 ++ rs) w1)
      /\ Forall2 (fun p rj => MigrationResult.migration_id rj = Migration.id p
                              /\ MigrationResult.success rj = true) pre rs
      /\ status_is_no_string w1
      /\ files w1 = files w
      /\ (forall k, k <> status_key -> k <> "spr:maintenance:required" ->
                    redis w1 !! k = redis w !! k)
      /\ exists l1,
           ledger (db w1) = Some l1
           /\ (forall p, p ∈ pre ->
                  exists ts, l1 !! Migration.id p = Some (recorded_row p ts))
           /\ (forall k, (forall p, p ∈ pre -> Migration.id p <> k) ->
                         l1 !! k = l !! k)
           /\ (forall k row, l !! k = Some row -> l1 !! k = Some row).
Proof.
  intros Hpost Hkeep pre w rs w1 Hrun.
  induction Hrun as [w|m ms w r w2 rs w' Hf Hs Hrun IH]; intros l Hl Hst.
  - split; [intros rest rs0; rewrite app_nil_r; reflexivity|].
    split; [constructor|]. split; [exact Hst|]. split; [reflexivity|].
    split; [reflexivity|].
    exists l. split; [exact Hl|]. split; [|split].
    + intros p Hp. inversion Hp.
    + reflexivity.
    + auto.
  - destruct (turn_world_facts m w Hst) as (Hdb0 & Hfi0 & Hst0 & Hre0 & _).
    destruct (Hpost m (turn_world m w)) as (r' & w2' & Hf' & Hid & Hfi2 & _ & Hled).
    rewrite Hf in Hf'. injection Hf' as <- <-. rewrite Hs in Hled.
    destruct Hled as (l0 & ts & Hl0 & Hnone & Hl2).
    rewrite Hdb0, Hl in Hl0. injection Hl0 as <-.
    destruct (Hkeep m (turn_world m w)) as (r' & w2' & Hf' & Hre2).
    rewrite Hf in Hf'. injection Hf' as <- <-.
    assert (Hst2 : status_is_no_string (succeeded_world m w2)).
    { intros v ex. unfold succeeded_world, logger. cbn.
      rewrite Hre2 by discriminate. apply Hst0. }
    assert (Hl2' : ledger (db (succeeded_world m w2))
                   = Some (<[Migration.id m := recorded_row m ts]> l)) by exact Hl2.
    destruct (IH _ Hl2' Hst2)
      as (Hloop & Hall & Hst' & Hfi' & Hre' & l1 & Hl1 & Hrows & Hframe & Hold).
    split.
    { intros rest rs0. cbn [app].
      rewrite (apply_loop_turn_success f m (ms ++ rest) rs0 w w2 r Hst Hf Hs).
      rewrite Hloop, <- app_assoc. reflexivity. }
    split; [constructor; [split; assumption|exact Hall]|].
    split; [exact Hst'|].
    split; [rewrite Hfi'; unfold succeeded_world, logger; cbn; congruence|].
    split.
    { intros k Hk1 Hk2. rewrite Hre' by assumption.
      unfold succeeded_world, logger. cbn. rewrite Hre2 by assumption.
      apply Hre0. exact Hk1. }
    exists l1. split; [exact Hl1|]. split; [|split].
    + intros p Hp. apply elem_of_cons in Hp as [->|Hp]; [|apply Hrows, Hp].
      exists ts. apply Hold. apply lookup_insert_eq.
    + intros k Hk. rewrite Hframe.
      * apply lookup_insert_ne. apply Hk. left.
      * intros p Hp. apply Hk. by right.
    + intros k row Hk. apply Hold. rewrite lookup_insert_ne; [exact Hk|].
      intros <-. congruence.
Qed.

Lemma migration_lock_run_store {A} (operation : string) (body : M A)
    (w wb : World) (r : Res A) :
  redis w !! lock_key = None ->
  body (acquired_world operation w) = (r, wb) ->
  redis wb !! lock_key
  = Some (RStr (lock_token operation w) (Some max_lock_time)) ->
  exists w',
    migration_lock operation body w = (r, w')
    /\ db w' = db wb /\ files w' = files wb
    /\ redis w' = delete lock_key (redis wb)
    /\ trace w' = (trace wb ++ [EvGet lock_key; EvDelete lock_key])%list.
Proof.
  intros Hnone Hbody Hk.
  unfold migration_lock, bind, now, redis_set_nx. cbn. rewrite Hnone.
  unfold logger at 1. cbn.
  unfold acquired_world, lock_token in Hbody. cbn in Hbody.
  unfold max_lock_time, lock_token in *. rewrite Hbody.
  unfold bind, redis_get. cbn. rewrite Hk. cbn.
  rewrite bool_decide_eq_true_2 by reflexivity.
  unfold bind, redis_delete, logger. cbn.
  eexists. split; [reflexivity|]. cbn. repeat split.
  norm_app. reflexivity.
Qed.


Lemma apply_migrations_run (strategy : string)
    (f : Migration.t -> M MigrationResult.t) (pending : list Migration.t)
    (w w1 : World) :
  lookup_strategy strategy strategies = Some f ->
  get_pending_migrations w = (Ok pending, w1) ->
  pending <> [] ->
  apply_migrations strategy false w
  = migration_lock ("apply_migrations_" ++ strategy)
      (bind _ensure_migration_table (fun _ =>
         bind (apply_loop f pending []) (fun results =>
           bind (redis_delete status_key) (fun _ => ret results))))
      (set_log (log w1 ++ [{| level := INFO;
                              message := "Found " ++ pretty (length pending)
                                         ++ " pending migrations" |}])
         w1).
Proof.
  intros Hlook Hpend Hne. unfold apply_migrations. rewrite Hlook.
  unfold bind at 1. rewrite Hpend.
  destruct pending as [|m0 ms]; [congruence|].
  unfold bind at 1, logger at 1. reflexivity.
Qed.

(** C1. Fail-fast run.  Take a run of [apply_migrations] that is not a
    dry run, over the pending list [pre ++ m :: post], that gets the
    lock and the ledger table.  If the strategy calls for the migrations
    of [pre], each made in the world the turn before it has left, all
    succeed, and the strategy call for [m] then fails, the run returns
    the results of these calls and nothing else: one success entry for
    every migration of [pre], in order, then the failure entry of [m],
    and no entry for [post].  The loop stops there: after the failing
    call the only effects are the status update, its deletion and the
    release of the lock, so nothing is executed for [post].  Every
    migration of [pre] has its ledger row, no other key of the ledger has
    changed (so [m] and the migrations of [post] have no row, unless one
    shares its id with a migration of [pre]), and every row present
    before the run is still there: nothing applied is rolled back. *)
Theorem first_failure_stops_the_run (strategy : string)
    (f : Migration.t -> M MigrationResult.t)
    (pre : list Migration.t) (m : Migration.t) (post : list Migration.t)
    (w w1 we wi w2 : World) (rs : list MigrationResult.t)
    (r : MigrationResult.t) :
  lookup_strategy strategy strategies = Some f ->
  get_pending_migrations w = (Ok (pre ++ m :: post)%list, w1) ->
  redis w !! lock_key = None ->
  status_is_no_string w ->
  _ensure_migration_table (loop_entry strategy (pre ++ m :: post) w1)
  = (Ok tt, we) ->
  succeeds_on f pre we rs wi ->
  f m (turn_world m wi) = (Ok r, w2) ->
  MigrationResult.success r = false ->
  exists (w' : World) (l l' : Ledger),
    apply_migrations strategy false w = (Ok (rs ++ [r])%list, w')
    /\ Forall2 (fun p rj => MigrationResult.migration_id rj = Migration.id p
                            /\ MigrationResult.success rj = true) pre rs
    /\ MigrationResult.migration_id r = Migration.id m
    /\ db w' = db w2
    /\ trace w' = (trace w2 ++ [EvHset status_key; EvDelete status_key;
                                EvGet lock_key; EvDelete lock_key])%list
    /\ ledger (db w) = Some l /\ ledger (db w') = Some l'
    /\ (forall p, p ∈ pre ->
           exists ts, l' !! Migration.id p = Some (recorded_row p ts))
    /\ (forall k, (forall p, p ∈ pre -> Migration.id p <> k) -> l' !! k = l !! k)
    /\ (forall m', m' ∈ m :: post ->
           (forall p, p ∈ pre -> Migration.id p <> Migration.id m') ->
           l' !! Migration.id m' = None)
    /\ (forall k row, l !! k = Some row -> l' !! k = Some row).
Proof.
  intros Hlook Hpend Hfree Hst Hens Hpre Hf Hs.
  pose proof Hpend as Hinv.
  apply get_pending_inv in Hinv
    as (Hfi1 & Hdb1 & Hre1 & _ & l & _ & Hl & Hpe & _).
  rewrite (apply_migrations_run strategy f _ w w1 Hlook Hpend)
    by (destruct pre; discriminate).
  unfold loop_entry in Hens.
  match type of Hens with _ (acquired_world ?o ?W) = _ =>
    set (op := o) in *; set (W0 := W) in *
  end.
  assert (HfreeW : redis W0 !! lock_key = None)
    by (subst W0; cbn; rewrite Hre1; exact Hfree).
  assert (HlE : ledger (db (acquired_world op W0)) = Some l)
    by (subst W0; cbn; rewrite Hdb1; exact Hl).
  destruct (ensure_table_inv _ _ _ l Hens HlE) as [Hle _].
  pose proof (ensure_table_keeps_store _ _ _ Hens) as Hree.
  assert (Hacq : forall k, k <> lock_key ->
                           redis (acquired_world op W0) !! k = redis w !! k).
  { intros k Hk. subst W0. unfold acquired_world. cbn.
    rewrite lookup_insert_ne by congruence. rewrite Hre1. reflexivity. }
  assert (Htok : redis (acquired_world op W0) !! lock_key
                 = Some (RStr (lock_token op W0) (Some max_lock_time))).
  { unfold acquired_world. cbn. apply lookup_insert_eq. }
  assert (Hste : status_is_no_string we).
  { intros v ex. rewrite Hree, Hacq by discriminate. apply Hst. }
  (* the calls that succeed *)
  destruct (succeeds_on_run f (forward_statement strategy)
              (fun m w => strategy_meets_post strategy f m w Hlook)
              (fun m w => strategy_keeps_keys strategy f m w Hlook)
              pre we rs wi Hpre l Hle Hste)
    as (Hloop & Hall & Hsti & _ & Hrei & li & Hli & Hrows & Hframe & Hold).
  (* the call that fails *)
  destruct (turn_world_facts m wi Hsti) as (Hdbt & _ & Hstt & Hret & Htrt).
  destruct (strategy_meets_post strategy f m (turn_world m wi) Hlook)
    as (r' & w2' & Hf' & Hid & _ & _ & Hled).
  rewrite Hf in Hf'. injection Hf' as <- <-. rewrite Hs in Hled.
  destruct Hled as [Hl2 Hmsg].
  destruct (strategy_keeps_keys strategy f m (turn_world m wi) Hlook)
    as (r' & w2' & Hf' & Hre2).
  rewrite Hf in Hf'. injection Hf' as <- <-.
  assert (Hst2 : status_is_no_string w2).
  { intros v ex. rewrite Hre2 by discriminate. apply Hstt. }
  pose proof (apply_loop_turn_failure f m post ([] ++ rs) wi w2 r
                Hsti Hf Hs Hmsg Hst2) as Hfail.
  destruct (failed_world_facts m r w2 Hmsg Hst2) as (_ & Hdbf & _ & Hrefw & Htrf).
  (* the locked block *)
  match goal with |- context [migration_lock _ ?b _] => set (body := b) end.
  assert (Hbody : body (acquired_world op W0)
                  = (Ok (rs ++ [r])%list,
                     set_trace (trace (failed_world m r w2) ++ [EvDelete status_key])
                       (set_redis (delete status_key (redis (failed_world m r w2)))
                          (failed_world m r w2)))).
  { subst body. unfold bind at 1. rewrite Hens. unfold bind at 1.
    rewrite (Hloop (m :: post) []), Hfail. reflexivity. }
  match type of Hbody with _ = (_, ?W) => set (wb := W) in * end.
  assert (Hk : redis wb !! lock_key
               = Some (RStr (lock_token op W0) (Some max_lock_time))).
  { subst wb. cbn. rewrite lookup_delete_ne by discriminate.
    rewrite Hrefw by discriminate. rewrite Hre2 by discriminate.
    rewrite Hret by discriminate. rewrite Hrei by discriminate.
    rewrite Hree. exact Htok. }
  destruct (migration_lock_run_store op body W0 wb _ HfreeW Hbody Hk)
    as (w' & Hrun & Hdb' & _ & _ & Htr').
  exists w', l, li. split; [exact Hrun|]. split; [exact Hall|].
  split; [exact Hid|].
  assert (Hdbw : db w' = db w2) by (rewrite Hdb'; subst wb; cbn; exact Hdbf).
  split; [exact Hdbw|]. split.
  { rewrite Htr'. subst wb. cbn. rewrite Htrf, <- !app_assoc. reflexivity. }
  split; [exact Hl|].
  split; [rewrite Hdbw, Hl2, Hdbt; exact Hli|].
  split; [exact Hrows|]. split; [exact Hframe|]. split; [|exact Hold].
  intros m' Hm' Hfresh. rewrite Hframe by exact Hfresh.
  assert (Hin : m' ∈ (pre ++ m :: post)%list)
    by (apply elem_of_app; right; exact Hm').
  rewrite Hpe in Hin. apply list_elem_of_In, filter_In in Hin as [_ Hel].
  apply eligible_spec in Hel as [Hnone _]. exact Hnone.
Qed.

(** *** Loading, entry by entry *)









End Properties.

(** *** The string helpers on the texts the manager meets *)

Example split_rollback :
  PyStr.split "-- ROLLBACK:" "CREATE TABLE t(id INT);
-- ROLLBACK:
DROP TABLE t;" = ["CREATE TABLE t(id INT);
"; "
DROP TABLE t;"].
Proof. reflexivity. Qed.

Example split_edge : PyStr.split "," "a,,b," = ["a"; ""; "b"; ""].
Proof. reflexivity. Qed.

Example replace_shadow :
  PyStr.replace "CREATE TABLE" "CREATE TABLE shadow_" "CREATE TABLE t(id INT)"
  = "CREATE TABLE shadow_ t(id INT)".
Proof. reflexivity. Qed.

Example strip_line : PyStr.strip "  -- META: {}  " = "-- META: {}".
Proof. reflexivity. Qed.

Example words_alter :
  PyStr.words "alter  table t ADD COLUMN v INT;" =
  ["alter"; "table"; "t"; "ADD"; "COLUMN"; "v"; "INT;"].
Proof. reflexivity. Qed.

Example stem_examples :
  PyStr.stem_sql "0001_create_table.sql" = "0001_create_table" /\
  PyStr.stem_sql ".sql" = ".sql" /\ PyStr.stem_sql "a.b.sql" = "a.b".
Proof. repeat split; reflexivity. Qed.

(* ===================================================================== *)
(** ** The theorems at work on concrete states *)
(* ===================================================================== *)

(** The run of the demonstration directory with the online strategy:
    the call for 0001_a succeeds, the call for 0002_b fails, nothing is
    done for 0003_c. *)
Lemma first_failure_stops_the_run_witness :
  exists (w' : @World demo_E) (l l' : Ledger),
    @apply_migrations demo_E "online" false demo_start
    = (Ok ([value no_result demo_call_a.1] ++ [value no_result demo_call_b.1])%list,
       w')
    /\ Forall2 (fun p rj => MigrationResult.migration_id rj = Migration.id p
                            /\ MigrationResult.success rj = true)
         [demo_unit_a] [value no_result demo_call_a.1]
    /\ MigrationResult.migration_id (value no_result demo_call_b.1)
       = Migration.id demo_unit_b
    /\ db w' = db demo_call_b.2
    /\ trace w' = (trace demo_call_b.2
                   ++ [EvHset status_key; EvDelete status_key;
                       EvGet lock_key; EvDelete lock_key])%list
    /\ ledger (db demo_start) = Some l /\ ledger (db w') = Some l'
    /\ (forall p, p ∈ [demo_unit_a] ->
           exists ts, l' !! Migration.id p = Some (@recorded_row demo_E p ts))
    /\ (forall k, (forall p, p ∈ [demo_unit_a] -> Migration.id p <> k) ->
                  l' !! k = l !! k)
    /\ (forall m', m' ∈ [demo_unit_b; demo_unit_c] ->
           (forall p, p ∈ [demo_unit_a] -> Migration.id p <> Migration.id m') ->
           l' !! Migration.id m' = None)
    /\ (forall k row, l !! k = Some row -> l' !! k = Some row).
Proof.
  apply (@first_failure_stops_the_run demo_E "online"
           (@_execute_online_migration demo_E)
           [demo_unit_a] demo_unit_b [demo_unit_c]
           demo_start demo_resolved demo_table_ensured
           (@succeeded_world demo_E demo_unit_a demo_call_a.2) demo_call_b.2
           [value no_result demo_call_a.1] (value no_result demo_call_b.1)).
  - reflexivity.
  - vm_compute. reflexivity.
  - vm_compute. reflexivity.
  - intros v ex. vm_compute. discriminate.
  - vm_compute. reflexivity.
  - apply (@so_cons demo_E (@_execute_online_migration demo_E) demo_unit_a []
             demo_table_ensured (value no_result demo_call_a.1) demo_call_a.2
             [] (@succeeded_world demo_E demo_unit_a demo_call_a.2)).
    + vm_compute. reflexivity.
    + vm_compute. reflexivity.
    + apply so_nil.
  - vm_compute. reflexivity.
  - vm_compute. reflexivity.
Defined.

(** Two pending migrations with the same id: the first is applied, the
    second runs its forward SQL and fails when it is recorded, and the
    run stops with these two results. *)
Example same_stem_fails_at_recording :
  Migration.id <$> value [] (@get_pending_migrations demo_E demo_same_stem).1
  = [".sql"; ".sql"]
  /\ MigrationResult.success
       <$> value [] (@apply_migrations demo_E "online" false demo_same_stem).1
     = [true; false]
  /\ MigrationResult.error_message
       <$> value [] (@apply_migrations demo_E "online" false demo_same_stem).1
     = [None; Some "duplicate key value violates unique constraint"].
Proof. repeat split; vm_compute; reflexivity. Qed.

(** The same run as the caller sees it: two results, the first a success,
    the second the failure of 0002_b with the error of the engine; the
    ledger holds the row of 0001_a only. *)
Example demo_run_results :
  MigrationResult.migration_id <$> demo_results = ["0001_a"; "0002_b"]
  /\ MigrationResult.success <$> demo_results = [true; false]
  /\ MigrationResult.error_message demo_failure = Some "syntax error"
  /\ (fst <$> map_to_list (default ∅ (ledger (db demo_after_run))))
     = ["0001_a"].
Proof. repeat split; vm_compute; reflexivity. Qed.

(** Rolling back 0001_a after its file has changed on disk runs the text
    stored in the ledger. *)
Lemma successful_rollback_runs_ledger_sql_witness :
  exists (l : Ledger) (row : Row.t) (sql : string) (s' : @Schema demo_E) (k : Z),
    ledger (db demo_drifted) = Some l /\ l !! "0001_a" = Some row
    /\ Row.rollback_sql row = Some sql /\ sql <> ""
    /\ sql_exec sql (schema (db demo_drifted)) = inr (s', k)
    /\ db demo_rolled_back = {| schema := s'; ledger := Some (delete "0001_a" l) |}
    /\ MigrationResult.rollback_executed demo_rollback_result = true
    /\ trace demo_rolled_back =
         (trace demo_drifted ++
          EvSetNx lock_key (lock_token ("rollback_" ++ "0001_a") demo_drifted) true
          :: ledger_read ++
          [EvConnect; EvExecute (SelectRollbackSql "0001_a") true;
           EvExecute (SqlText sql) true; EvExecute (DeleteLedger "0001_a") true;
           EvCommit; EvCommit; EvGet lock_key; EvDelete lock_key])%list
    /\ forall fs, exists r2 w2,
         rollback_migration "0001_a" (set_files fs demo_drifted) = (Ok r2, w2)
         /\ MigrationResult.success r2 = true
         /\ db w2 = db demo_rolled_back /\ trace w2 = trace demo_rolled_back.
Proof.
  apply (@successful_rollback_runs_ledger_sql demo_E "0001_a" demo_drifted
           demo_rolled_back demo_rollback_result).
  - vm_compute. reflexivity.
  - vm_compute. reflexivity.
Defined.

Example rollback_runs_the_stored_text :
  In (EvExecute (SqlText "DROP TABLE a") true) (trace demo_rolled_back)
  /\ ~ In (EvExecute (SqlText "DROP TABLE something_else") true)
          (trace demo_rolled_back).
Proof.
  split.
  - vm_compute. tauto.
  - vm_compute. intuition discriminate.
Qed.

(** A caller that finds the lock held deletes nothing; a holder whose
    lease was lost to another owner during its block meets the second
    case of the theorem. *)
Lemma lock_deleted_only_by_its_owner_witness :
  (exists e w',
     migration_lock "rollback_0001_a" demo_lease_lost
       (demo_applied demo_E [] demo_held) = (Raise e, w')
     /\ redis w' = redis (demo_applied demo_E [] demo_held)
     /\ trace w' =
          (trace (demo_applied demo_E [] demo_held) ++
           [EvSetNx lock_key
              (lock_token "rollback_0001_a" (demo_applied demo_E [] demo_held))
              false;
            EvGet lock_key])%list)
  /\ (exists r' w',
        migration_lock "rollback_0001_a" demo_lease_lost demo_start = (r', w')
        /\ match redis (demo_lease_lost
                          (acquired_world "rollback_0001_a" demo_start)).2
                 !! lock_key with
           | Some (RStr v _) =>
               if bool_decide (v = lock_token "rollback_0001_a" demo_start)
               then redis w' = delete lock_key
                                 (redis (demo_lease_lost
                                           (acquired_world "rollback_0001_a"
                                              demo_start)).2)
                    /\ trace w' =
                         (trace (demo_lease_lost
                                   (acquired_world "rollback_0001_a" demo_start)).2
                          ++ [EvGet lock_key; EvDelete lock_key])%list
                    /\ r' = Ok tt
               else redis w' = redis (demo_lease_lost
                                        (acquired_world "rollback_0001_a"
                                           demo_start)).2
                    /\ trace w' =
                         (trace (demo_lease_lost
                                   (acquired_world "rollback_0001_a" demo_start)).2
                          ++ [EvGet lock_key])%list
                    /\ r' = Ok tt
           | None =>
               redis w' = redis (demo_lease_lost
                                   (acquired_world "rollback_0001_a" demo_start)).2
               /\ trace w' =
                    (trace (demo_lease_lost
                              (acquired_world "rollback_0001_a" demo_start)).2
                     ++ [EvGet lock_key])%list
               /\ r' = Ok tt
           | Some (RHash _) =>
               redis w' = redis (demo_lease_lost
                                   (acquired_world "rollback_0001_a" demo_start)).2
               /\ trace w' =
                    (trace (demo_lease_lost
                              (acquired_world "rollback_0001_a" demo_start)).2
                     ++ [EvGet lock_key])%list
               /\ r' = Raise (RedisError "WRONGTYPE")
           end).
Proof.
  split.
  - apply (proj1 (@lock_deleted_only_by_its_owner demo_E unit "rollback_0001_a"
                    demo_lease_lost (demo_applied demo_E [] demo_held))).
    vm_compute. eexists. reflexivity.
  - apply (proj2 (@lock_deleted_only_by_its_owner demo_E unit "rollback_0001_a"
                    demo_lease_lost demo_start)).
    + vm_compute. reflexivity.
    + reflexivity.
Defined.

Example lost_lease_is_not_deleted :
  redis (@migration_lock demo_E unit "rollback_0001_a" demo_lease_lost demo_start).2
    !! lock_key
  = Some (RStr "rollback_0001_a:2000" (Some 3600))
  /\ ~ In (EvDelete lock_key)
          (trace (@migration_lock demo_E unit "rollback_0001_a" demo_lease_lost
                    demo_start).2).
Proof.
  split.
  - vm_compute. reflexivity.
  - vm_compute. intuition discriminate.
Qed.

(** The dry run over the demonstration directory. *)
Lemma dry_run_changes_nothing_witness :
  exists w',
    apply_migrations "online" true demo_start = (Ok [], w')
    /\ db w' = db demo_start
    /\ redis w' = redis demo_start
    /\ files w' = files demo_start
    /\ trace w' = (trace demo_start ++ ledger_read)%list
    /\ log w' =
         (log demo_resolved ++
          match demo_pending with
          | [] => [{| level := INFO; message := "No pending migrations to apply" |}]
          | _ :: _ =>
              [{| level := INFO;
                  message := "Found " ++ pretty (length demo_pending)
                             ++ " pending migrations" |};
               {| level := INFO;
                  message := "DRY RUN - No migrations will be executed" |}]
              ++ map would_apply_record demo_pending
          end)%list.
Proof.
  apply (@dry_run_changes_nothing demo_E "online" demo_start demo_resolved
           demo_pending).
  - eexists. reflexivity.
  - vm_compute. reflexivity.
Defined.

Example dry_run_reports_three :
  map message (drop 3 (log (@apply_migrations demo_E "online" true demo_start).2))
  = ["DRY RUN - No migrations will be executed";
     "Would apply migration: 0001_a - 0001_a";
     "Would apply migration: 0002_b - 0002_b";
     "Would apply migration: 0003_c - 0003_c"].
Proof. vm_compute. reflexivity. Qed.

(** The resolver on a ledger holding 0001_a only. *)
Lemma pending_iff_absent_and_dependencies_applied_witness :
  exists pending w',
    get_pending_migrations demo_gated = (Ok pending, w')
    /\ pending = List.filter (eligible demo_gated_ledger)
                   (@loaded_units demo_E (files demo_gated))
    /\ (forall m,
          m ∈ pending <->
          m ∈ @loaded_units demo_E (files demo_gated)
          /\ demo_gated_ledger !! Migration.id m = None
          /\ forall dep, dep ∈ Migration.dependencies m ->
                         is_Some (demo_gated_ledger !! dep))
    /\ (forall m dep,
          m ∈ @loaded_units demo_E (files demo_gated) ->
          dep ∈ Migration.dependencies m ->
          demo_gated_ledger !! dep = None -> m ∉ pending)
    /\ sublist pending (@loaded_units demo_E (files demo_gated)).
Proof.
  apply (@pending_iff_absent_and_dependencies_applied demo_E demo_gated
           demo_gated_ledger).
  - reflexivity.
  - reflexivity.
Defined.

Example gated_pending_ids :
  Migration.id <$> value [] (@get_pending_migrations demo_E demo_gated).1
  = ["0006_f"].
Proof. vm_compute. reflexivity. Qed.


(** The shadow-table strategy on an ALTER TABLE migration. *)
Lemma ledger_row_written_after_forward_commit_witness :
  exists r w' tr,
    _execute_shadow_table_migration demo_alter demo_start = (Ok r, w')
    /\ trace w' = (trace demo_start ++ tr)%list
    /\ forall (k : nat) (id' : string) (ok : bool),
         tr !! k = Some (EvExecute (InsertLedger id') ok) ->
         id' = Migration.id demo_alter
         /\ exists i j : nat,
              (i < j < k)%nat
              /\ tr !! i = Some (EvExecute
                                  (SqlText (@forward_statement "shadow_table" demo_alter))
                                  true)
              /\ tr !! j = Some EvCommit
              /\ forall x : nat, (i < x < j)%nat ->
                                 exists s, tr !! x = Some (EvExecute s true).
Proof.
  apply (@ledger_row_written_after_forward_commit demo_E "shadow_table"
           (@_execute_shadow_table_migration demo_E) demo_alter demo_start).
  reflexivity.
Defined.

(** The rollback of 0001_a when the DELETE of its row is lost with the
    connection. *)
Lemma failed_rollback_keeps_row_and_sets_flag_witness :
  exists r w' tr,
    rollback_migration "0001_a" demo_before_failed_rollback = (Ok r, w')
    /\ MigrationResult.success r = false
    /\ MigrationResult.rollback_executed r = true
    /\ MigrationResult.error_message r = Some "server closed the connection"
    /\ db w' = db demo_before_failed_rollback
    /\ (exists l', ledger (db w') = Some l' /\ l' !! "0001_a" = Some demo_row_a)
    /\ trace w' =
         (trace demo_before_failed_rollback ++
          EvSetNx lock_key
            (lock_token ("rollback_" ++ "0001_a") demo_before_failed_rollback) true
          :: ledger_read ++ EvConnect :: tr
          ++ [EvRollback; EvGet lock_key; EvDelete lock_key])%list
    /\ (In (EvExecute (SqlText "DROP TABLE a") false) tr
        \/ In (EvExecute (DeleteLedger "0001_a") false) tr).
Proof.
  apply (@failed_rollback_keeps_row_and_sets_flag demo_E_delete_fault "0001_a"
           demo_before_failed_rollback demo_ledger demo_row_a "DROP TABLE a"
           "server closed the connection").
  - reflexivity.
  - reflexivity.
  - reflexivity.
  - vm_compute. reflexivity.
  - reflexivity.
  - reflexivity.
  - discriminate.
  - right. right. split; [reflexivity|]. split; [|reflexivity].
    eexists _, _. vm_compute. reflexivity.
Defined.

(** The three cases of the rollback preconditions on concrete states. *)
Lemma rollback_preconditions_checked_under_lock_witness :
  (exists e w',
     rollback_migration "0009_none" (demo_applied demo_E [] demo_held) = (Raise e, w')
     /\ db w' = db (demo_applied demo_E [] demo_held)
     /\ e = Exception "Migration lock is held by: apply_migrations_online:999")
  /\ (exists w',
        rollback_migration "0009_none" (demo_applied demo_E [] ∅) =
          (Raise (ValueError ("Migration " ++ "0009_none" ++ " was not applied")), w')
        /\ db w' = db (demo_applied demo_E [] ∅)
        /\ redis w' = redis (demo_applied demo_E [] ∅))
  /\ (exists r w',
        rollback_migration "0003_c" (demo_applied demo_E [] ∅) = (Ok r, w')
        /\ MigrationResult.success r = false
        /\ MigrationResult.rollback_executed r = true
        /\ MigrationResult.error_message r =
             Some ("No rollback SQL available for migration " ++ "0003_c")
        /\ db w' = db (demo_applied demo_E [] ∅)).
Proof.
  split; [|split].
  - destruct (proj1 (@rollback_preconditions_checked_under_lock demo_E "0009_none"
                       (demo_applied demo_E [] demo_held)))
      as (e & w' & Hrun & Hdb & _ & _ & Hmsg).
    + vm_compute. eexists. reflexivity.
    + exists e, w'. split; [exact Hrun|]. split; [exact Hdb|].
      apply (Hmsg "apply_migrations_online:999" (Some 3600)).
      vm_compute. reflexivity.
  - assert (Hfree : redis (demo_applied demo_E [] ∅) !! lock_key = None)
      by (vm_compute; reflexivity).
    assert (Hnofault : @stmt_fault demo_E (stmts (demo_applied demo_E [] ∅)) = None)
      by reflexivity.
    assert (Hledger : ledger (db (demo_applied demo_E [] ∅)) = Some demo_ledger)
      by reflexivity.
    destruct (proj1 (proj2 (@rollback_preconditions_checked_under_lock demo_E
                              "0009_none" (demo_applied demo_E [] ∅))
                       Hfree Hnofault demo_ledger Hledger))
      as (w' & Hrun & Hdb & Hre & _).
    + vm_compute. reflexivity.
    + exists w'. split; [exact Hrun|]. split; assumption.
  - assert (Hfree : redis (demo_applied demo_E [] ∅) !! lock_key = None)
      by (vm_compute; reflexivity).
    assert (Hnofault : @stmt_fault demo_E (stmts (demo_applied demo_E [] ∅)) = None)
      by reflexivity.
    assert (Hledger : ledger (db (demo_applied demo_E [] ∅)) = Some demo_ledger)
      by reflexivity.
    destruct (proj2 (proj2 (@rollback_preconditions_checked_under_lock demo_E
                              "0003_c" (demo_applied demo_E [] ∅))
                       Hfree Hnofault demo_ledger Hledger)
                demo_row_c)
      as (r & w' & Hrun & Hs & Hflag & Herr & Hdb & _).
    + vm_compute. reflexivity.
    + reflexivity.
    + left. reflexivity.
    + exists r, w'. repeat split; assumption.
Defined.

(** The claim as worded fails: an id that is not in the ledger, with the
    lock free, does raise the not-applied error, but only after the lock
    has been requested and granted; with the lock held by another
    operation the same call raises the lock error instead; and a row
    without rollback SQL makes the call return a failed result, not raise. *)
Lemma rollback_takes_lock_before_checking :
  ~ @raises_before_lock demo_E "0009_none" (demo_applied demo_E [] ∅)
      (ValueError "Migration 0009_none was not applied")
  /\ (@rollback_migration demo_E "0009_none" (demo_applied demo_E [] demo_held)).1
     = Raise (Exception "Migration lock is held by: apply_migrations_online:999")
  /\ (forall e, ~ @raises_before_lock demo_E "0003_c" (demo_applied demo_E [] ∅) e)
  /\ trace (@rollback_migration demo_E "0009_none" (demo_applied demo_E [] ∅)).2
     = [EvSetNx lock_key "rollback_0009_none:1000" true;
        EvConnect; EvExecute SelectApplied true; EvCommit;
        EvGet lock_key; EvDelete lock_key].
Proof.
  split; [|split; [|split]].
  - intros (w' & Hrun & Hno).
    assert (Hw : w' = (@rollback_migration demo_E "0009_none"
                         (demo_applied demo_E [] ∅)).2)
      by (rewrite Hrun; reflexivity).
    subst w'. apply (Hno lock_key "rollback_0009_none:1000" true).
    vm_compute. left. reflexivity.
  - vm_compute. reflexivity.
  - intros e (w' & Hrun & _).
    assert (Hr : (@rollback_migration demo_E "0003_c"
                    (demo_applied demo_E [] ∅)).1 = Raise e)
      by (rewrite Hrun; reflexivity).
    vm_compute in Hr. discriminate Hr.
  - vm_compute. reflexivity.
Qed.

(** The demonstration directory: the two units whose parsing raises are
    skipped, the unit with a META line that is not JSON is loaded, and
    the units come out in the order of their file names. *)
Example demo_directory_loads :
  Migration.id <$> @loaded_units demo_E (Some demo_files)
  = ["0001_a"; "0002_b"; "0003_c"]
  /\ level <$> @load_log demo_E (Some demo_files) = [ERROR; ERROR]
  /\ (@load_migrations demo_E
        (demo_world demo_E None [] (Some ∅) ∅)).1 = Ok [].
Proof. repeat split; vm_compute; reflexivity. Qed.


(** A version of 104 characters does not fit [version VARCHAR(100)]: the
    forward SQL is committed, the INSERT into the ledger is refused, the
    result is a failure and no row is written. *)
Example long_version_is_refused :
  (let '(r, w') := @_execute_online_migration demo_E demo_long_version demo_start in
   (MigrationResult.success (value no_result r),
    MigrationResult.error_message (value no_result r),
    db w'))
  = (false,
     Some "value too long for type character varying(100)",
     demo_store demo_E ["CREATE TABLE long_version(id INT)"] (Some ∅)).
Proof. vm_compute. reflexivity. Qed.

(* ===================================================================== *)
(** ** The further properties at work on concrete states *)
(* ===================================================================== *)

Lemma unknown_strategy_is_refused_untouched_witness :
  @apply_migrations demo_E "offline" false demo_start
  = (Raise (ValueError "Unknown migration strategy: offline"), demo_start).
Proof.
  apply (@unknown_strategy_is_refused_untouched demo_E "offline" false demo_start);
    discriminate.
Defined.

Lemma apply_without_ledger_table_raises_witness :
  exists w',
    @apply_migrations demo_E "online" true demo_no_table
    = (Raise (DbError no_table), w')
    /\ db w' = db demo_no_table /\ redis w' = redis demo_no_table
    /\ trace w' = (trace demo_no_table
                   ++ [EvConnect; EvExecute SelectApplied false; EvRollback])%list.
Proof.
  apply (@apply_without_ledger_table_raises demo_E "online" true demo_no_table).
  - eexists. reflexivity.
  - reflexivity.
  - reflexivity.
Defined.

Lemma apply_with_held_lock_raises_witness :
  exists w',
    @apply_migrations demo_E "online" false demo_locked
    = (Raise (Exception "Migration lock is held by: apply_migrations_online:999"), w')
    /\ db w' = db demo_locked /\ redis w' = redis demo_locked
    /\ trace w' =
         (trace demo_locked ++ ledger_read ++
          [EvSetNx lock_key (lock_token ("apply_migrations_" ++ "online") demo_locked)
             false;
           EvGet lock_key])%list.
Proof.
  apply (@apply_with_held_lock_raises demo_E "online" demo_locked
           (@get_pending_migrations demo_E demo_locked).2
           (List.hd demo_alter demo_pending) (List.tl demo_pending)
           "apply_migrations_online:999" (Some 3600)).
  - eexists. reflexivity.
  - vm_compute. reflexivity.
  - vm_compute. reflexivity.
Defined.

(** A block that raises inside the lock. *)
Lemma lock_released_however_block_ends_witness :
  exists w',
    @migration_lock demo_E unit "rollback_0001_a" (raise (Exception "boom"))
      demo_start
    = (Raise (Exception "boom"), w')
    /\ redis w' = redis demo_start
    /\ db w' = db (acquired_world "rollback_0001_a" demo_start)
    /\ files w' = files (acquired_world "rollback_0001_a" demo_start)
    /\ trace w' = (trace (acquired_world "rollback_0001_a" demo_start)
                   ++ [EvGet lock_key; EvDelete lock_key])%list.
Proof.
  apply (@lock_released_however_block_ends demo_E unit "rollback_0001_a"
           (raise (Exception "boom")) demo_start
           (acquired_world "rollback_0001_a" demo_start)
           (Raise (Exception "boom"))).
  - vm_compute. reflexivity.
  - reflexivity.
  - reflexivity.
Defined.

Lemma nested_lock_is_refused_witness :
  exists w',
    @migration_lock demo_E unit "apply_migrations_online"
      (migration_lock "rollback_0001_a" (ret tt)) demo_start
    = (Raise (Exception ("Migration lock is held by: "
                         ++ lock_token "apply_migrations_online" demo_start)), w')
    /\ redis w' = redis demo_start /\ db w' = db demo_start
    /\ trace w' =
         (trace demo_start ++
          [EvSetNx lock_key (lock_token "apply_migrations_online" demo_start) true;
           EvSetNx lock_key
             (lock_token "rollback_0001_a"
                (acquired_world "apply_migrations_online" demo_start)) false;
           EvGet lock_key; EvGet lock_key; EvDelete lock_key])%list.
Proof.
  apply (@nested_lock_is_refused demo_E unit "apply_migrations_online"
           "rollback_0001_a" (ret tt) demo_start).
  vm_compute. reflexivity.
Defined.

(** The engine rejects the forward SQL of 0002_b. *)
Lemma online_forward_failure_changes_nothing_witness :
  exists r w',
    @_execute_online_migration demo_E demo_rejected demo_start = (Ok r, w')
    /\ MigrationResult.success r = false
    /\ MigrationResult.error_message r = Some "syntax error"
    /\ MigrationResult.affected_rows r = 0
    /\ db w' = db demo_start /\ redis w' = redis demo_start
    /\ trace w' = (trace demo_start
                   ++ [EvConnect;
                       EvExecute (SqlText (Migration.sql_content demo_rejected)) false;
                       EvRollback])%list.
Proof.
  apply (@online_forward_failure_changes_nothing demo_E demo_rejected demo_start
           "syntax error").
  right. split; reflexivity.
Defined.

(** A second unit under the id 0001_a: its table is created, its row is
    refused. *)
Lemma online_failed_recording_keeps_forward_sql_witness :
  exists r w',
    @_execute_online_migration demo_E demo_again (demo_applied demo_E [] ∅)
    = (Ok r, w')
    /\ MigrationResult.success r = false
    /\ MigrationResult.error_message r
       = Some "duplicate key value violates unique constraint"
    /\ db w' = demo_store demo_E ["CREATE TABLE a2(id INT)"] (Some demo_ledger).
Proof.
  apply (@online_failed_recording_keeps_forward_sql demo_E demo_again
           (demo_applied demo_E [] ∅) ["CREATE TABLE a2(id INT)"] (-1) demo_ledger).
  - reflexivity.
  - reflexivity.
  - reflexivity.
  - reflexivity.
  - vm_compute. eexists. reflexivity.
Defined.

Lemma online_success_records_one_row_witness :
  exists r w' row,
    @_execute_online_migration demo_E demo_index (demo_applied demo_E [] ∅)
    = (Ok r, w')
    /\ MigrationResult.success r = true
    /\ MigrationResult.error_message r = None
    /\ MigrationResult.affected_rows r = -1
    /\ db w' = demo_store demo_E ["CREATE INDEX i ON a(id)"]
                  (Some (<[Migration.id demo_index := row]> demo_ledger))
    /\ Row.id row = Migration.id demo_index
    /\ Row.checksum row = @_calculate_migration_checksum demo_E demo_index
    /\ Row.rollback_sql row = Migration.rollback_sql demo_index
    /\ forall id, id <> Migration.id demo_index ->
                  (<[Migration.id demo_index := row]> demo_ledger) !! id
                  = demo_ledger !! id.
Proof.
  apply (@online_success_records_one_row demo_E demo_index
           (demo_applied demo_E [] ∅) ["CREATE INDEX i ON a(id)"] (-1) demo_ledger).
  - reflexivity.
  - reflexivity.
  - reflexivity.
  - reflexivity.
  - vm_compute. reflexivity.
  - vm_compute. reflexivity.
Defined.

Lemma shadow_without_table_statement_is_online_witness :
  exists r1 w1 r2 w2,
    @_execute_online_migration demo_E demo_index demo_start = (Ok r1, w1)
    /\ @_execute_shadow_table_migration demo_E demo_index demo_start = (Ok r2, w2)
    /\ MigrationResult.success r2 = MigrationResult.success r1
    /\ MigrationResult.error_message r2 = MigrationResult.error_message r1
    /\ MigrationResult.affected_rows r2 = 0
    /\ db w2 = db w1 /\ redis w2 = redis w1 /\ trace w2 = trace w1.
Proof.
  apply (@shadow_without_table_statement_is_online demo_E demo_index demo_start).
  - vm_compute. reflexivity.
  - vm_compute. reflexivity.
Defined.

(** The copy into the shadow table is lost with the connection. *)
Lemma shadow_copy_failure_changes_nothing_witness :
  exists r w',
    @_execute_shadow_table_migration demo_E_second_fault demo_alter
      (demo_applied demo_E_second_fault ["CREATE TABLE a(id INT)"] ∅)
    = (Ok r, w')
    /\ MigrationResult.success r = false
    /\ MigrationResult.error_message r = Some "server closed the connection"
    /\ db w' = db (demo_applied demo_E_second_fault ["CREATE TABLE a(id INT)"] ∅)
    /\ trace w' =
         (trace (demo_applied demo_E_second_fault ["CREATE TABLE a(id INT)"] ∅)
          ++ [EvConnect;
              EvExecute (SqlText "ALTER TABLE a ADD COLUMN v INT;") true;
              EvExecute (SqlText "INSERT INTO shadow_a SELECT * FROM a") false;
              EvRollback])%list.
Proof.
  apply (@shadow_copy_failure_changes_nothing demo_E_second_fault demo_alter
           (demo_applied demo_E_second_fault ["CREATE TABLE a(id INT)"] ∅)
           ["CREATE TABLE a(id INT)"; "ALTER TABLE a ADD COLUMN v INT;"] (-1)
           "server closed the connection").
  - vm_compute. reflexivity.
  - reflexivity.
  - vm_compute. reflexivity.
  - left. reflexivity.
Defined.

Lemma shadow_swap_statements_in_order_witness :
  exists r w' ts,
    @_execute_shadow_table_migration demo_E demo_alter
      (demo_applied demo_E ["CREATE TABLE a(id INT)"] ∅)
    = (Ok r, w')
    /\ MigrationResult.success r = true
    /\ db w' = demo_store demo_E
                  ["CREATE TABLE a(id INT)";
                   "ALTER TABLE a ADD COLUMN v INT;";
                   "INSERT INTO shadow_a SELECT * FROM a";
                   "DROP TABLE a";
                   "ALTER TABLE shadow_a RENAME TO a"]
                  (Some (<[Migration.id demo_alter
                           := @recorded_row demo_E demo_alter ts]> demo_ledger))
    /\ trace w'
       = (trace (demo_applied demo_E ["CREATE TABLE a(id INT)"] ∅)
          ++ [EvConnect;
              EvExecute (SqlText "ALTER TABLE a ADD COLUMN v INT;") true;
              EvExecute (SqlText "INSERT INTO shadow_a SELECT * FROM a") true;
              EvExecute SqlBegin true;
              EvExecute (SqlText "DROP TABLE a") true;
              EvExecute (SqlText "ALTER TABLE shadow_a RENAME TO a") true;
              EvExecute SqlCommit true;
              EvCommit;
              EvExecute (InsertLedger (Migration.id demo_alter)) true;
              EvCommit;
              EvCommit])%list.
Proof.
  apply (@shadow_swap_statements_in_order demo_E demo_alter
           (demo_applied demo_E ["CREATE TABLE a(id INT)"] ∅)
           ["CREATE TABLE a(id INT)"; "ALTER TABLE a ADD COLUMN v INT;"]
           ["CREATE TABLE a(id INT)"; "ALTER TABLE a ADD COLUMN v INT;";
            "INSERT INTO shadow_a SELECT * FROM a"]
           ["CREATE TABLE a(id INT)"; "ALTER TABLE a ADD COLUMN v INT;";
            "INSERT INTO shadow_a SELECT * FROM a"; "DROP TABLE a"]
           ["CREATE TABLE a(id INT)"; "ALTER TABLE a ADD COLUMN v INT;";
            "INSERT INTO shadow_a SELECT * FROM a"; "DROP TABLE a";
            "ALTER TABLE shadow_a RENAME TO a"]
           (-1) (-1) (-1) (-1) demo_ledger).
  - vm_compute. reflexivity.
  - intros j _. reflexivity.
  - vm_compute. reflexivity.
  - vm_compute. reflexivity.
  - vm_compute. reflexivity.
  - vm_compute. reflexivity.
  - reflexivity.
  - vm_compute. reflexivity.
  - vm_compute. reflexivity.
Defined.

Lemma extract_table_name_takes_word_after_first_table_witness :
  @_extract_table_name "ALTER TABLE a; ADD TABLE b" = PyStr.strip_chars ";" "a;".
Proof.
  apply (@extract_table_name_takes_word_after_first_table
           "ALTER TABLE a; ADD TABLE b" ["ALTER"] "TABLE" "a;" ["ADD"; "TABLE"; "b"]).
  - vm_compute. reflexivity.
  - repeat constructor. vm_compute. discriminate.
  - vm_compute. reflexivity.
Defined.

Lemma extract_table_name_unknown_witness :
  @_extract_table_name "DROP table" = "unknown".
Proof.
  apply (@extract_table_name_unknown "DROP table" ["DROP"] ["table"]).
  - vm_compute. reflexivity.
  - repeat constructor. vm_compute. discriminate.
  - right. exists "table". split; [reflexivity|]. vm_compute. reflexivity.
Defined.

Lemma load_order_follows_file_names_witness :
  exists fs w',
    @load_migrations demo_E demo_start = (Ok (omap (@parsed_unit demo_E) fs), w')
    /\ fs ≡ₚ List.filter (fun f => PyStr.endswith ".sql" f.1) demo_files
    /\ forall i j f g, (i < j)%nat -> fs !! i = Some f -> fs !! j = Some g ->
                       String.ltb g.1 f.1 = false.
Proof.
  apply (@load_order_follows_file_names demo_E demo_start demo_files).
  reflexivity.
Defined.

Lemma plain_file_loads_with_defaults_witness :
  @_parse_migration_file demo_E ("0001_a.sql", Some "CREATE TABLE a(id INT)")
  = Ok (Some (Migration.mk (PyStr.stem_sql "0001_a.sql") (PyStr.stem_sql "0001_a.sql")
                "1.0.0" (PyStr.strip "CREATE TABLE a(id INT)") None false false 0 [])).
Proof.
  apply (@plain_file_loads_with_defaults demo_E "0001_a.sql" "CREATE TABLE a(id INT)").
  - vm_compute. repeat constructor.
  - vm_compute. reflexivity.
Defined.

(** The index is applied on the empty ledger and rolled back again. *)
Lemma rollback_after_apply_restores_ledger_witness :
  exists r2 w2,
    @rollback_migration demo_E (Migration.id demo_index) demo_index_applied
    = (Ok r2, w2)
    /\ MigrationResult.success r2 = true
    /\ MigrationResult.rollback_executed r2 = true
    /\ ledger (db w2) = ledger (db demo_start)
    /\ schema (db w2) = ["CREATE INDEX i ON a(id)"; "DROP INDEX i"].
Proof.
  apply (@rollback_after_apply_restores_ledger demo_E demo_index demo_start
           demo_index_applied
           (value no_result (@_execute_online_migration demo_E demo_index demo_start).1)
           "DROP INDEX i" ["CREATE INDEX i ON a(id)"; "DROP INDEX i"] (-1)).
  - vm_compute. reflexivity.
  - vm_compute. reflexivity.
  - reflexivity.
  - discriminate.
  - vm_compute. reflexivity.
  - intros j _. reflexivity.
  - vm_compute. reflexivity.
Defined.

(** The run of the demonstration directory ends with a failure; neither
    key is left. *)
Lemma run_leaves_no_lock_and_no_status_witness :
  redis demo_after_run !! lock_key = None
  /\ redis demo_after_run !! status_key = None
  /\ forall k, k <> lock_key -> k <> status_key ->
               k <> "spr:maintenance:required" ->
               redis demo_after_run !! k = redis demo_start !! k.
Proof.
  apply (@run_leaves_no_lock_and_no_status demo_E "online" demo_start
           demo_after_run demo_results).
  - vm_compute. reflexivity.
  - vm_compute. discriminate.
Defined.

Lemma string_status_key_blocks_the_run_witness :
  match (@apply_migrations demo_E "online" false demo_stale_status).1 with
  | Ok results => results = []
  | Raise _ => True
  end
  /\ db (@apply_migrations demo_E "online" false demo_stale_status).2
     = db demo_stale_status
  /\ redis (@apply_migrations demo_E "online" false demo_stale_status).2
     = redis demo_stale_status.
Proof.
  apply (@string_status_key_blocks_the_run demo_E "online" demo_stale_status
           (@apply_migrations demo_E "online" false demo_stale_status).2
           (@apply_migrations demo_E "online" false demo_stale_status).1
           "stale" None).
  - vm_compute. reflexivity.
  - apply surjective_pairing.
Defined.

Example stale_status_raises_wrongtype :
  (@apply_migrations demo_E "online" false demo_stale_status).1
  = Raise (RedisError "WRONGTYPE").
Proof. vm_compute. reflexivity. Qed.
